(** * The Individual agent of the Culture-Network model

    A shallow embedding of [src/package/model/individuals.py] and the
    properties of its state-update rule.

    Numbers.  The source computes with numpy [float64].  The file embeds
    the program twice, with the same text for every method:

    - over exact rationals [Q] (the definitions at top level): every
      arithmetic expression is the one of the source, evaluated without
      rounding, and numeric results are compared with [==] ([Qeq]).
      This model carries the results that do not depend on the value an
      arithmetic operation rounds to: which attributes a step assigns
      and in which order, shapes and lengths, the telemetry logs, the
      exceptions, and ranges that rounding keeps.  Infinities and nan
      have no rational: where the source goes on with nan ([np.mean] of
      an empty array) this model stops with [NotANumber], and a result
      that concerns the mean says that the array is not empty;
    - over binary64 (module [F64], primitive floats): every operation
      rounds as IEEE 754 does.  Numeric values the code returns are
      stated in this model, and so are the runs on which rounding takes
      a result out of the range exact arithmetic gives it.

    Arrays.  A numpy operand is a 0-d value or a 1-d array ([ndarray]);
    binary elementwise operators follow numpy's broadcasting rule.

    Effects.  Methods mutate [self]; here a method takes the agent and
    returns the updated agent.  A Python exception is the [Raise] outcome
    of the error monad [res]; the half-updated object an exception leaves
    behind is not represented.  The module-level generator [rng] is an
    explicit state threaded through the two methods that draw from it. *)

From Stdlib Require Import Floats.PrimFloat.
From Stdlib Require Import String QArith Qminmax ZArith Bool List Lia Lqa.
From coqutil Require Import Datatypes.RecordSettersUsingExistingGetters.
Import ListNotations.

Open Scope Q_scope.

(* ================================================================= *)
(** ** Exceptions and the error monad *)

Inductive exn : Type :=
| ValueError          (* shapes that cannot be combined *)
| IndexError          (* index out of range, pop from an empty list *)
| TypeError           (* len() or list() of a 0-d value *)
| ZeroDivisionError   (* integer modulo by zero *)
| AttributeError      (* attribute never assigned *)
| NotANumber.         (* no exception: the exact model met a nan *)

Inductive res (A : Type) : Type :=
| Ok (a : A)
| Raise (e : exn).

Arguments Ok {A} a.
Arguments Raise {A} e.

Definition bind {A B : Type} (c : res A) (k : A -> res B) : res B :=
  match c with
  | Ok a => k a
  | Raise e => Raise e
  end.

Notation "x <- c ;; k" := (bind c (fun x => k))
  (at level 61, c at next level, right associativity).
Notation "' pat <- c ;; k" := (bind c (fun x => match x with pat => k end))
  (at level 61, pat pattern, c at next level, right associativity).

Fixpoint mapM {A B : Type} (f : A -> res B) (l : list A) : res (list B) :=
  match l with
  | [] => Ok []
  | a :: l' => b <- f a ;; bs <- mapM f l' ;; Ok (b :: bs)
  end.

(* ================================================================= *)
(** ** numpy values *)

Inductive ndarray : Type :=
| Scalar (x : Q)
| Vec (l : list Q).

(** A 2-d array: [rows] holds [ncols] entries per row.  The column count
    is kept apart because an array of shape (0, n) still has one. *)
Record matrix : Type := { ncols : nat; rows : list (list Q) }.

Fixpoint map2 (f : Q -> Q -> Q) (l1 l2 : list Q) : list Q :=
  match l1, l2 with
  | a :: l1', b :: l2' => f a b :: map2 f l1' l2'
  | _, _ => []
  end.

Definition nd_map (f : Q -> Q) (a : ndarray) : ndarray :=
  match a with
  | Scalar x => Scalar (f x)
  | Vec l => Vec (map f l)
  end.

(** Elementwise binary operator with broadcasting: equal lengths combine
    pointwise, a 0-d value or a length-1 array is stretched, any other
    pair of lengths is a ValueError. *)
Definition broadcast2 (f : Q -> Q -> Q) (a b : ndarray) : res ndarray :=
  match a, b with
  | Scalar x, Scalar y => Ok (Scalar (f x y))
  | Scalar x, Vec l => Ok (Vec (map (f x) l))
  | Vec l, Scalar y => Ok (Vec (map (fun u => f u y) l))
  | Vec l1, Vec l2 =>
      if Nat.eqb (length l1) (length l2) then Ok (Vec (map2 f l1 l2))
      else match l1, l2 with
           | [x], _ => Ok (Vec (map (f x) l2))
           | _, [y] => Ok (Vec (map (fun u => f u y) l1))
           | _, _ => Raise ValueError
           end
  end.

Definition nd_add : ndarray -> ndarray -> res ndarray := broadcast2 Qplus.
Definition nd_sub : ndarray -> ndarray -> res ndarray := broadcast2 Qminus.
Definition nd_mul : ndarray -> ndarray -> res ndarray := broadcast2 Qmult.

(** [c * a], [c - a] and [a + c] for a Python number [c]. *)
Definition scal_mul (c : Q) (a : ndarray) : ndarray := nd_map (Qmult c) a.
Definition scal_rsub (c : Q) (a : ndarray) : ndarray := nd_map (Qminus c) a.
Definition add_scal (a : ndarray) (c : Q) : ndarray := nd_map (fun x => x + c) a.

(** [a ** 2] *)
Definition nd_square (a : ndarray) : ndarray := nd_map (fun x => x ^ 2) a.

(** [np.clip(a, lo, hi)] is [minimum(maximum(a, lo), hi)]. *)
Definition clip1 (lo hi x : Q) : Q := Qmin (Qmax x lo) hi.
Definition np_clip (a : ndarray) (lo hi : Q) : ndarray := nd_map (clip1 lo hi) a.

(** Python's [sum]: a left fold that starts from 0. *)
Definition sum (l : list Q) : Q := fold_left Qplus l 0.

(** [np.mean].  On an empty array numpy returns nan and the program
    goes on; no rational is nan, so the exact model stops there with
    [NotANumber] ([F64.np_mean] is the total function). *)
Definition np_mean (a : ndarray) : res Q :=
  match a with
  | Scalar x => Ok x
  | Vec [] => Raise NotANumber
  | Vec l => Ok (sum l / inject_Z (Z.of_nat (length l)))
  end.

(** Inner product of two sequences, the scalar a 1-d [np.matmul] yields. *)
Fixpoint dot (v w : list Q) : Q :=
  match v, w with
  | a :: v', b :: w' => a * b + dot v' w'
  | _, _ => 0
  end.

(** [np.matmul] of two 1-d operands; the lengths must agree (the
    contracted dimension is never broadcast). *)
Definition matmul_vv (v w : list Q) : res Q :=
  if Nat.eqb (length v) (length w) then Ok (dot v w) else Raise ValueError.

Definition column (m : matrix) (j : nat) : list Q :=
  map (fun r => nth j r 0) (rows m).

(** [np.matmul] of a 1-d operand with a 2-d one: one inner product per
    column; the vector length must equal the number of rows. *)
Definition matmul_vm (v : list Q) (m : matrix) : res (list Q) :=
  if Nat.eqb (length v) (length (rows m))
  then Ok (map (fun j => dot v (column m j)) (seq 0 (ncols m)))
  else Raise ValueError.

(** The entries of an operand once promoted to one dimension. *)
Definition atleast_1d (a : ndarray) : list Q :=
  match a with
  | Scalar x => [x]
  | Vec l => l
  end.

(** [np.tile(a, (n, 1))] *)
Definition np_tile (a : ndarray) (n : nat) : matrix :=
  {| ncols := length (atleast_1d a); rows := repeat (atleast_1d a) n |}.

(** [np.vstack([np.asarray([a]), m[:-1,:]])]: the new first row must have
    as many entries as the matrix has columns. *)
Definition vstack_front (a : ndarray) (m : matrix) : res matrix :=
  if Nat.eqb (length (atleast_1d a)) (ncols m)
  then Ok {| ncols := ncols m; rows := atleast_1d a :: removelast (rows m) |}
  else Raise ValueError.

(** [a[i]] for a non-negative [i]. *)
Definition getitem (a : ndarray) (i : nat) : res Q :=
  match a with
  | Scalar _ => Raise IndexError
  | Vec l => match nth_error l i with
             | Some x => Ok x
             | None => Raise IndexError
             end
  end.

(** [len(a)] and [list(a)]: a 0-d value has neither. *)
Definition len (a : ndarray) : res nat :=
  match a with
  | Scalar _ => Raise TypeError
  | Vec l => Ok (length l)
  end.

Definition to_list (a : ndarray) : res (list Q) :=
  match a with
  | Scalar _ => Raise TypeError
  | Vec l => Ok l
  end.

(** [l.pop()] (the value popped is discarded by the caller) and
    [l.insert(0, x)]. *)
Definition list_pop (l : list Q) : res (list Q) :=
  match l with
  | [] => Raise IndexError
  | _ => Ok (removelast l)
  end.

Definition list_insert0 (x : Q) (l : list Q) : list Q := x :: l.

(** Python's [min] and [max] of a sequence (an error on an empty one). *)
Definition list_min (l : list Q) : option Q :=
  match l with
  | [] => None
  | x :: r => Some (fold_left Qmin r x)
  end.

Definition list_max (l : list Q) : option Q :=
  match l with
  | [] => None
  | x :: r => Some (fold_left Qmax r x)
  end.

(** Equality of arrays up to the value of their entries. *)
Definition list_eqv (l1 l2 : list Q) : Prop := Forall2 Qeq l1 l2.

Definition nd_eqv (a b : ndarray) : Prop :=
  match a, b with
  | Scalar x, Scalar y => x == y
  | Vec l1, Vec l2 => list_eqv l1 l2
  | _, _ => False
  end.

Definition nd_in_range (lo hi : Q) (a : ndarray) : Prop :=
  Forall (fun x => lo <= x <= hi) (atleast_1d a).

(* ================================================================= *)
(** ** The random generator

    [rng = np.random.default_rng(42)] is one process-wide stream.  Its
    state is the sequence of draws still to come and a cursor into it;
    the draws themselves are arbitrary rationals. *)

Record rng_state : Type := { stream : nat -> Q; cursor : nat }.

(** [rng.normal(loc=0, scale=0.03, size=n)] *)
Definition rng_normal (g : rng_state) (n : nat) : list Q * rng_state :=
  (map (stream g) (seq (cursor g) n),
   {| stream := stream g; cursor := (cursor g + n)%nat |}).

(* ================================================================= *)
(** ** The agent *)

(** The dictionary [individual_params] handed to the constructor. *)
Module Params.
Record dict : Type := {
  M : nat;
  t : Z;
  save_timeseries_data : bool;
  compression_factor : Z;
  phi_array : ndarray;
  alpha_change : string
}.
End Params.

(** The attributes of an [Individual], in the order [__init__] assigns
    them.  [attitudes_matrix] and [attitudes_star] exist only for an
    agent built with [alpha_change == "behavioural_independence"]
    ([None] is an attribute never assigned); the history logs exist only
    when [save_timeseries_data] holds and are empty lists otherwise. *)
Record Individual : Type := {
  attitudes : ndarray;
  initial_first_attitude : Q;
  thresholds : ndarray;
  normalized_discount_vector : list Q;
  cultural_inertia : nat;
  pU : ndarray;
  pC : ndarray;
  pR : ndarray;
  thresholdspU : ndarray;
  thresholdspC : ndarray;
  thresholdspR : ndarray;
  M : nat;
  t : Z;
  save_timeseries_data : bool;
  compression_factor : Z;
  phi_array : ndarray;
  alpha_change : string;
  id : Z;
  green_fountain_state : Z;
  attitudes_matrix : option matrix;
  attitudes_star : option (list Q);
  values : ndarray;
  av_behaviour : Q;
  av_behaviour_list : list Q;
  identity : Q;
  initial_carbon_emissions : Q;
  behavioural_carbon_emissions : list Q;
  individual_carbon_emissions_flow : Q;
  history_behaviour_values : list (list Q);
  history_behaviour_attitudes : list (list Q);
  history_behaviour_thresholds : list (list Q);
  history_TA : list ndarray;
  history_thresholdsTA : list ndarray;
  history_av_behaviour : list Q;
  history_identity : list Q;
  history_individual_carbon_emissions_flow : list Q;
  history_behavioural_carbon_emissions : list (list Q)
}.

(** Assignment to an attribute: [self <| f := v |>] is [self] with the
    attribute [f] replaced by [v].  One setter per attribute. *)
#[global] Instance set_attitudes : Setter attitudes.
Proof. setter Individual attitudes. Defined.
#[global] Instance set_initial_first_attitude : Setter initial_first_attitude.
Proof. setter Individual initial_first_attitude. Defined.
#[global] Instance set_thresholds : Setter thresholds.
Proof. setter Individual thresholds. Defined.
#[global] Instance set_normalized_discount_vector : Setter normalized_discount_vector.
Proof. setter Individual normalized_discount_vector. Defined.
#[global] Instance set_cultural_inertia : Setter cultural_inertia.
Proof. setter Individual cultural_inertia. Defined.
#[global] Instance set_pU : Setter pU.
Proof. setter Individual pU. Defined.
#[global] Instance set_pC : Setter pC.
Proof. setter Individual pC. Defined.
#[global] Instance set_pR : Setter pR.
Proof. setter Individual pR. Defined.
#[global] Instance set_thresholdspU : Setter thresholdspU.
Proof. setter Individual thresholdspU. Defined.
#[global] Instance set_thresholdspC : Setter thresholdspC.
Proof. setter Individual thresholdspC. Defined.
#[global] Instance set_thresholdspR : Setter thresholdspR.
Proof. setter Individual thresholdspR. Defined.
#[global] Instance set_M : Setter M.
Proof. setter Individual M. Defined.
#[global] Instance set_t : Setter t.
Proof. setter Individual t. Defined.
#[global] Instance set_save_timeseries_data : Setter save_timeseries_data.
Proof. setter Individual save_timeseries_data. Defined.
#[global] Instance set_compression_factor : Setter compression_factor.
Proof. setter Individual compression_factor. Defined.
#[global] Instance set_phi_array : Setter phi_array.
Proof. setter Individual phi_array. Defined.
#[global] Instance set_alpha_change : Setter alpha_change.
Proof. setter Individual alpha_change. Defined.
#[global] Instance set_id : Setter id.
Proof. setter Individual id. Defined.
#[global] Instance set_green_fountain_state : Setter green_fountain_state.
Proof. setter Individual green_fountain_state. Defined.
#[global] Instance set_attitudes_matrix : Setter attitudes_matrix.
Proof. setter Individual attitudes_matrix. Defined.
#[global] Instance set_attitudes_star : Setter attitudes_star.
Proof. setter Individual attitudes_star. Defined.
#[global] Instance set_values : Setter values.
Proof. setter Individual values. Defined.
#[global] Instance set_av_behaviour : Setter av_behaviour.
Proof. setter Individual av_behaviour. Defined.
#[global] Instance set_av_behaviour_list : Setter av_behaviour_list.
Proof. setter Individual av_behaviour_list. Defined.
#[global] Instance set_identity : Setter identity.
Proof. setter Individual identity. Defined.
#[global] Instance set_initial_carbon_emissions : Setter initial_carbon_emissions.
Proof. setter Individual initial_carbon_emissions. Defined.
#[global] Instance set_behavioural_carbon_emissions : Setter behavioural_carbon_emissions.
Proof. setter Individual behavioural_carbon_emissions. Defined.
#[global] Instance set_individual_carbon_emissions_flow : Setter individual_carbon_emissions_flow.
Proof. setter Individual individual_carbon_emissions_flow. Defined.
#[global] Instance set_history_behaviour_values : Setter history_behaviour_values.
Proof. setter Individual history_behaviour_values. Defined.
#[global] Instance set_history_behaviour_attitudes : Setter history_behaviour_attitudes.
Proof. setter Individual history_behaviour_attitudes. Defined.
#[global] Instance set_history_behaviour_thresholds : Setter history_behaviour_thresholds.
Proof. setter Individual history_behaviour_thresholds. Defined.
#[global] Instance set_history_TA : Setter history_TA.
Proof. setter Individual history_TA. Defined.
#[global] Instance set_history_thresholdsTA : Setter history_thresholdsTA.
Proof. setter Individual history_thresholdsTA. Defined.
#[global] Instance set_history_av_behaviour : Setter history_av_behaviour.
Proof. setter Individual history_av_behaviour. Defined.
#[global] Instance set_history_identity : Setter history_identity.
Proof. setter Individual history_identity. Defined.
#[global] Instance set_history_individual_carbon_emissions_flow : Setter history_individual_carbon_emissions_flow.
Proof. setter Individual history_individual_carbon_emissions_flow. Defined.
#[global] Instance set_history_behavioural_carbon_emissions : Setter history_behavioural_carbon_emissions.
Proof. setter Individual history_behavioural_carbon_emissions. Defined.

Definition behavioural_independence : string := "behavioural_independence".

(** The test [self.alpha_change == "behavioural_independence"]. *)
Definition is_independent (self : Individual) : bool :=
  String.eqb (alpha_change self) behavioural_independence.

(** The two read-only properties. *)
Definition TA (self : Individual) : res ndarray :=
  a <- nd_sub (scal_mul 0.7 (pU self)) (scal_mul 0.2 (pC self)) ;;
  nd_sub a (scal_mul 0.1 (pR self)).

Definition thresholdsTA (self : Individual) : res ndarray :=
  a <- nd_sub (scal_mul 0.7 (thresholdspU self))
              (scal_mul 0.2 (thresholdspC self)) ;;
  nd_sub a (scal_mul 0.1 (thresholdspR self)).

Definition calc_av_behaviour (self : Individual) : res Individual :=
  av <- np_mean (nd_square (scal_rsub 1 (attitudes self))) ;;
  Ok (self <| av_behaviour := av |>).

Definition update_av_behaviour_list (self : Individual) : res Individual :=
  l <- list_pop (av_behaviour_list self) ;;
  Ok (self <| av_behaviour_list := list_insert0 (av_behaviour self) l |>).

Definition calc_identity (self : Individual) : res Q :=
  matmul_vv (normalized_discount_vector self) (av_behaviour_list self).

Definition update_attitudes_matrix (self : Individual) : res Individual :=
  match attitudes_matrix self with
  | None => Raise AttributeError
  | Some m =>
      m' <- vstack_front (attitudes self) m ;;
      Ok (self <| attitudes_matrix := Some m' |>)
  end.

Definition calc_attitudes_star (self : Individual) : res (list Q) :=
  match attitudes_matrix self with
  | None => Raise AttributeError
  | Some m => matmul_vm (normalized_discount_vector self) m
  end.

Definition update_values (self : Individual) : res Individual :=
  d <- nd_sub (attitudes self) (thresholds self) ;;
  ta <- TA self ;;
  tta <- thresholdsTA self ;;
  e <- nd_sub ta tta ;;
  v <- nd_add (scal_mul 0.5 d) (scal_mul 0.5 e) ;;
  Ok (self <| values := v |>).

(** The right-hand side shared by [update_attitudes], [update_pU],
    [update_pC] and [update_pR]:
    [(1 - self.phi_array)*old + (self.phi_array)*(component)]. *)
Definition social_learning (phi old component : ndarray) : res ndarray :=
  a <- nd_mul (scal_rsub 1 phi) old ;;
  b <- nd_mul phi component ;;
  nd_add a b.

Definition update_attitudes (self : Individual) (social_component : ndarray)
  : res Individual :=
  x <- social_learning (phi_array self) (attitudes self) social_component ;;
  Ok (self <| attitudes := x |>).

Definition update_pU (self : Individual) (social_component : ndarray)
  : res Individual :=
  x <- social_learning (phi_array self) (pU self) social_component ;;
  Ok (self <| pU := x |>).

Definition update_pC (self : Individual) (TA_component : ndarray)
  : res Individual :=
  x <- social_learning (phi_array self) (pC self) TA_component ;;
  Ok (self <| pC := x |>).

Definition update_pR (self : Individual) (TA_component : ndarray)
  : res Individual :=
  x <- social_learning (phi_array self) (pR self) TA_component ;;
  Ok (self <| pR := x |>).

Definition update_thresholds (self : Individual) (g : rng_state)
  : res (Individual * rng_state) :=
  n <- len (thresholds self) ;;
  let (delta_thresholds, g') := rng_normal g n in
  x <- nd_add (thresholds self) (Vec delta_thresholds) ;;
  Ok (self <| thresholds := np_clip x 0 1 |>, g').

Definition update_thresholdTA (self : Individual) (g : rng_state)
  : Individual * rng_state :=
  let (delta_TA, g') := rng_normal g 3 in
  (self <| thresholdspU := np_clip (add_scal (thresholdspU self) (nth 0 delta_TA 0)) 0 1 |>
        <| thresholdspC := np_clip (add_scal (thresholdspC self) (nth 1 delta_TA 0)) 0 1 |>
        <| thresholdspR := np_clip (add_scal (thresholdspR self) (nth 2 delta_TA 0)) 0 1 |>,
   g').

Definition calc_total_emissions_flow (self : Individual) : res (Q * list Q) :=
  behavioural_emissions <-
    mapM (fun i => x <- getitem (values self) i ;; Ok ((1 - x) / 2))
         (seq 0 (M self)) ;;
  Ok (sum behavioural_emissions, behavioural_emissions).

Definition save_timeseries_data_individual (self : Individual)
  : res Individual :=
  lv <- to_list (values self) ;;
  la <- to_list (attitudes self) ;;
  lt <- to_list (thresholds self) ;;
  ta <- TA self ;;
  lta <- to_list ta ;;
  Ok (self
        <| history_behaviour_values := history_behaviour_values self ++ [lv] |>
        <| history_behaviour_attitudes := history_behaviour_attitudes self ++ [la] |>
        <| history_behaviour_thresholds := history_behaviour_thresholds self ++ [lt] |>
        <| history_TA := history_TA self ++ [Vec lta] |>
        <| history_identity := history_identity self ++ [identity self] |>
        <| history_av_behaviour := history_av_behaviour self ++ [av_behaviour self] |>
        <| history_individual_carbon_emissions_flow :=
             history_individual_carbon_emissions_flow self
               ++ [individual_carbon_emissions_flow self] |>
        <| history_behavioural_carbon_emissions :=
             history_behavioural_carbon_emissions self
               ++ [behavioural_carbon_emissions self] |>).

(** [self.t % self.compression_factor == 0] on Python integers. *)
Definition on_stride (self : Individual) : res bool :=
  if Z.eqb (compression_factor self) 0 then Raise ZeroDivisionError
  else Ok (Z.eqb (Z.modulo (t self) (compression_factor self)) 0).

Definition next_step (self : Individual) (g : rng_state) (t' : Z)
    (social_component : ndarray)
    (TA_component : ndarray * ndarray * ndarray)
  : res (Individual * rng_state) :=
  let self := self <| t := t' |> in
  let '(TA_component_pU, TA_component_pC, TA_component_pR) := TA_component in
  self <- update_values self ;;
  self <- update_attitudes self social_component ;;
  self <- update_pU self TA_component_pU ;;
  self <- update_pC self TA_component_pC ;;
  self <- update_pR self TA_component_pR ;;
  '(self, g) <-
    (if is_independent self then
       self <- update_attitudes_matrix self ;;
       star <- calc_attitudes_star self ;;
       Ok (self <| attitudes_star := Some star |>, g)
     else
       '(self, g) <- update_thresholds self g ;;
       let (self, g) := update_thresholdTA self g in
       self <- calc_av_behaviour self ;;
       self <- update_av_behaviour_list self ;;
       i <- calc_identity self ;;
       Ok (self <| identity := i |>, g)) ;;
  '(flow, emissions) <- calc_total_emissions_flow self ;;
  let self := self <| individual_carbon_emissions_flow := flow |>
                   <| behavioural_carbon_emissions := emissions |> in
  self <-
    (if save_timeseries_data self then
       b <- on_stride self ;;
       if b then save_timeseries_data_individual self else Ok self
     else Ok self) ;;
  Ok (self, g).

(** The constructor.  The object is filled attribute by attribute, as in
    the source; [blank] gives the attributes assigned only further down
    a placeholder, which no method reads before its assignment.  The
    arguments [normalized_discount_vector] and [cultural_inertia] hide the
    attributes of the same name, so [self.cultural_inertia] is written
    [cultural_inertia]: the value just stored. *)
Definition blank (individual_params : Params.dict)
    (init_data_attitudes init_data_thresholds : ndarray)
    (normalized_discount_vector : list Q) (cultural_inertia : nat)
    (init_data_pU init_data_pC init_data_pR : ndarray)
    (init_data_thresholdspU init_data_thresholdspC init_data_thresholdspR : ndarray)
    (id_n : Z) (first : Q) : Individual :=
  {| attitudes := init_data_attitudes;
     initial_first_attitude := first;
     thresholds := init_data_thresholds;
     normalized_discount_vector := normalized_discount_vector;
     cultural_inertia := cultural_inertia;
     pU := init_data_pU;
     pC := init_data_pC;
     pR := init_data_pR;
     thresholdspU := init_data_thresholdspU;
     thresholdspC := init_data_thresholdspC;
     thresholdspR := init_data_thresholdspR;
     M := Params.M individual_params;
     t := Params.t individual_params;
     save_timeseries_data := Params.save_timeseries_data individual_params;
     compression_factor := Params.compression_factor individual_params;
     phi_array := Params.phi_array individual_params;
     alpha_change := Params.alpha_change individual_params;
     id := id_n;
     green_fountain_state := 0%Z;
     attitudes_matrix := None;
     attitudes_star := None;
     values := Vec [];
     av_behaviour := 0;
     av_behaviour_list := [];
     identity := 0;
     initial_carbon_emissions := 0;
     behavioural_carbon_emissions := [];
     individual_carbon_emissions_flow := 0;
     history_behaviour_values := [];
     history_behaviour_attitudes := [];
     history_behaviour_thresholds := [];
     history_TA := [];
     history_thresholdsTA := [];
     history_av_behaviour := [];
     history_identity := [];
     history_individual_carbon_emissions_flow := [];
     history_behavioural_carbon_emissions := [] |}.

Definition __init__ (individual_params : Params.dict)
    (init_data_attitudes init_data_thresholds : ndarray)
    (normalized_discount_vector : list Q) (cultural_inertia : nat)
    (init_data_pU init_data_pC init_data_pR : ndarray)
    (init_data_thresholdspU init_data_thresholdspC init_data_thresholdspR : ndarray)
    (id_n : Z) : res Individual :=
  first <- getitem init_data_attitudes 0 ;;
  let self :=
    blank individual_params init_data_attitudes init_data_thresholds
      normalized_discount_vector cultural_inertia
      init_data_pU init_data_pC init_data_pR
      init_data_thresholdspU init_data_thresholdspC init_data_thresholdspR
      id_n first in
  self <-
    (if is_independent self then
       let self :=
         self <| attitudes_matrix :=
                   Some (np_tile (attitudes self) cultural_inertia) |> in
       star <- calc_attitudes_star self ;;
       Ok (self <| attitudes_star := Some star |>)
     else Ok self) ;;
  v <- nd_sub (attitudes self) (thresholds self) ;;
  let self := self <| values := v |> in
  av <- np_mean (nd_square (scal_rsub 1 (attitudes self))) ;;
  let self := self <| av_behaviour := av |> in
  let self :=
    self <| av_behaviour_list := repeat (av_behaviour self) cultural_inertia |> in
  i <- calc_identity self ;;
  let self := self <| identity := i |> in
  '(flow, emissions) <- calc_total_emissions_flow self ;;
  let self := self <| initial_carbon_emissions := flow |>
                   <| behavioural_carbon_emissions := emissions |> in
  let self :=
    self <| individual_carbon_emissions_flow := initial_carbon_emissions self |> in
  if save_timeseries_data self then
    lv <- to_list (values self) ;;
    la <- to_list (attitudes self) ;;
    lt <- to_list (thresholds self) ;;
    ta <- TA self ;;
    tta <- thresholdsTA self ;;
    Ok (self
          <| history_behaviour_values := [lv] |>
          <| history_behaviour_attitudes := [la] |>
          <| history_behaviour_thresholds := [lt] |>
          <| history_TA := [ta] |>
          <| history_thresholdsTA := [tta] |>
          <| history_av_behaviour := [av_behaviour self] |>
          <| history_identity := [identity self] |>
          <| history_individual_carbon_emissions_flow :=
               [individual_carbon_emissions_flow self] |>
          <| history_behavioural_carbon_emissions :=
               [behavioural_carbon_emissions self] |>)
  else Ok self.

(* ================================================================= *)
(** ** The driver's loop

    The time-stepping driver is not part of this module; all it does with
    one agent is to call [next_step] once per tick.  [simulate] is that
    loop for a list of step inputs, and returns the agent as it stands
    after each tick. *)

Record step_input : Type := {
  in_t : Z;
  in_social_component : ndarray;
  in_TA_component : ndarray * ndarray * ndarray
}.

Fixpoint simulate (self : Individual) (g : rng_state) (inputs : list step_input)
  : res (list Individual) :=
  match inputs with
  | [] => Ok []
  | i :: rest =>
      '(self', g') <- next_step self g (in_t i) (in_social_component i)
                                (in_TA_component i) ;;
      trace <- simulate self' g' rest ;;
      Ok (self' :: trace)
  end.

(** The two conditionals of [next_step], named so that lemmas can speak
    about them; [next_step_unfold] shows they are its text. *)
Definition mode_branch (self : Individual) (g : rng_state)
  : res (Individual * rng_state) :=
  if is_independent self then
    self <- update_attitudes_matrix self ;;
    star <- calc_attitudes_star self ;;
    Ok (self <| attitudes_star := Some star |>, g)
  else
    '(self, g) <- update_thresholds self g ;;
    let (self, g) := update_thresholdTA self g in
    self <- calc_av_behaviour self ;;
    self <- update_av_behaviour_list self ;;
    i <- calc_identity self ;;
    Ok (self <| identity := i |>, g).

Definition save_branch (self : Individual) : res Individual :=
  if save_timeseries_data self then
    b <- on_stride self ;;
    if b then save_timeseries_data_individual self else Ok self
  else Ok self.

(** The agent just before the mode conditional: the learning updates. *)
Definition learn (self : Individual) (t' : Z) (social_component : ndarray)
    (TA_component : ndarray * ndarray * ndarray) : res Individual :=
  let self := self <| t := t' |> in
  let '(TA_component_pU, TA_component_pC, TA_component_pR) := TA_component in
  self <- update_values self ;;
  self <- update_attitudes self social_component ;;
  self <- update_pU self TA_component_pU ;;
  self <- update_pC self TA_component_pC ;;
  update_pR self TA_component_pR.

(** Recording the emissions of the current values. *)
Definition emit (self : Individual) : res Individual :=
  '(flow, emissions) <- calc_total_emissions_flow self ;;
  Ok (self <| individual_carbon_emissions_flow := flow |>
           <| behavioural_carbon_emissions := emissions |>).

(** An outcome that is an exception. *)
Definition raises {A : Type} (c : res A) : Prop := exists e, c = Raise e.

(** The agent once [save_timeseries_data_individual] has appended the
    entries [lv], [la], [lt] and [lta] it read off [values], [attitudes],
    [thresholds] and [TA]. *)
Definition logged (self : Individual) (lv la lt lta : list Q) : Individual :=
  self
    <| history_behaviour_values := history_behaviour_values self ++ [lv] |>
    <| history_behaviour_attitudes := history_behaviour_attitudes self ++ [la] |>
    <| history_behaviour_thresholds := history_behaviour_thresholds self ++ [lt] |>
    <| history_TA := history_TA self ++ [Vec lta] |>
    <| history_identity := history_identity self ++ [identity self] |>
    <| history_av_behaviour := history_av_behaviour self ++ [av_behaviour self] |>
    <| history_individual_carbon_emissions_flow :=
         history_individual_carbon_emissions_flow self
           ++ [individual_carbon_emissions_flow self] |>
    <| history_behavioural_carbon_emissions :=
         history_behavioural_carbon_emissions self
           ++ [behavioural_carbon_emissions self] |>.


(* ================================================================= *)
(** ** Sample agents and inputs *)

(** A generator whose draws sweep from -0.2 upwards in steps of 0.1. *)
Definition sample_rng : rng_state :=
  {| stream := fun n => (inject_Z (Z.of_nat n) - 2) / 10; cursor := 0 |}.

(** The parameters of the one-behaviour scenario: M = 1 and a window of
    length 1; the susceptibility, the mode and the telemetry settings
    are left open. *)
Definition scenario_params (t0 : Z) (save : bool) (cf : Z) (phi : Q)
    (alpha : string) : Params.dict :=
  {| Params.M := 1;
     Params.t := t0;
     Params.save_timeseries_data := save;
     Params.compression_factor := cf;
     Params.phi_array := Vec [phi];
     Params.alpha_change := alpha |}.

(** The agent of the scenario: attitudes [0.6], thresholds [0.2],
    pU = pC = pR = 0 and their thresholds 0, discount vector [1.0]. *)
Definition scenario (t0 : Z) (save : bool) (cf : Z) (phi : Q) (alpha : string)
    (id_n : Z) : res Individual :=
  __init__ (scenario_params t0 save cf phi alpha) (Vec [0.6]) (Vec [0.2])
    [1.0] 1%nat (Scalar 0) (Scalar 0) (Scalar 0) (Scalar 0) (Scalar 0) (Scalar 0)
    id_n.

Definition zero_TA_component : ndarray * ndarray * ndarray :=
  (Vec [0], Vec [0], Vec [0]).

(** The value of a computation known to succeed ([d] otherwise). *)
Definition unwrap {A : Type} (d : A) (c : res A) : A :=
  match c with
  | Ok a => a
  | Raise _ => d
  end.

Definition no_agent : Individual :=
  blank (scenario_params 0 false 1 0 "") (Vec []) (Vec []) [] 0%nat
    (Scalar 0) (Scalar 0) (Scalar 0) (Scalar 0) (Scalar 0) (Scalar 0) 0%Z 0.

(** The scenario agent in default mode with telemetry at every step, and
    the same agent one step later. *)
Definition default_agent : Individual :=
  Eval vm_compute in unwrap no_agent (scenario 0 true 1 0.0 "default" 7).

Definition default_agent_1 : Individual * rng_state :=
  Eval vm_compute in
    unwrap (no_agent, sample_rng)
      (next_step default_agent sample_rng 1 (Vec [0.0]) zero_TA_component).

(** The scenario agent with full susceptibility, phi_array = [1.0]. *)
Definition susceptible_agent : Individual :=
  Eval vm_compute in unwrap no_agent (scenario 0 false 1 1.0 "default" 8).

(** Three behaviours, default mode, a window of length 2. *)
Definition three_params : Params.dict :=
  {| Params.M := 3;
     Params.t := 0;
     Params.save_timeseries_data := false;
     Params.compression_factor := 1;
     Params.phi_array := Vec [0.5; 0.5; 0.5];
     Params.alpha_change := "default" |}.

Definition three_agent : Individual :=
  Eval vm_compute in
    unwrap no_agent
      (__init__ three_params (Vec [0.1; 0.2; 0.3]) (Vec [0.5; 0.5; 0.5])
         [0.75; 0.25] 2%nat (Scalar 0) (Scalar 0) (Scalar 0)
         (Scalar 0) (Scalar 0) (Scalar 0) 3).

Definition zero3_TA_component : ndarray * ndarray * ndarray :=
  (Vec [0; 0; 0], Vec [0; 0; 0], Vec [0; 0; 0]).

(** Three ticks of the driver on [three_agent]. *)
Definition three_inputs : list step_input :=
  [ {| in_t := 1; in_social_component := Vec [0.9; 0.1; 0.5];
       in_TA_component := zero3_TA_component |};
    {| in_t := 2; in_social_component := Vec [0.8; 0.2; 0.4];
       in_TA_component := zero3_TA_component |};
    {| in_t := 3; in_social_component := Vec [0.7; 0.3; 0.3];
       in_TA_component := zero3_TA_component |} ].

Definition three_trace : list Individual :=
  Eval vm_compute in unwrap [] (simulate three_agent sample_rng three_inputs).

(** Two behaviours in behavioural_independence mode, a window of
    length 2, and the agent one step later. *)
Definition independent_params : Params.dict :=
  {| Params.M := 2;
     Params.t := 0;
     Params.save_timeseries_data := true;
     Params.compression_factor := 2;
     Params.phi_array := Vec [0.5; 0.25];
     Params.alpha_change := behavioural_independence |}.

Definition independent_agent : Individual :=
  Eval vm_compute in
    unwrap no_agent
      (__init__ independent_params (Vec [0.2; 0.8]) (Vec [0.5; 0.5])
         [0.75; 0.25] 2%nat (Vec [0.1; 0.1]) (Vec [0.2; 0.2]) (Vec [0.3; 0.3])
         (Vec [0.4; 0.4]) (Vec [0.5; 0.5]) (Vec [0.6; 0.6]) 4).

Definition independent_agent_1 : Individual * rng_state :=
  Eval vm_compute in
    unwrap (no_agent, sample_rng)
      (next_step independent_agent sample_rng 2 (Vec [1; 0])
         (Vec [0; 0], Vec [0; 0], Vec [0; 0])).

(** [three_agent] stepped with a social_component of length 1, and an
    agent for three behaviours built from five initial draws. *)
Definition three_agent_short_input : Individual * rng_state :=
  Eval vm_compute in
    unwrap (no_agent, sample_rng)
      (next_step three_agent sample_rng 1 (Vec [0.9]) zero3_TA_component).

Definition three_agent_long_draws : Individual :=
  Eval vm_compute in
    unwrap no_agent
      (__init__ three_params (Vec [0.1; 0.2; 0.3; 0.4; 0.5])
         (Vec [0.5; 0.5; 0.5; 0.5; 0.5])
         [0.75; 0.25] 2%nat (Scalar 0) (Scalar 0) (Scalar 0)
         (Scalar 0) (Scalar 0) (Scalar 0) 3).

(** [three_agent] after the first of [three_inputs], and [default_agent]
    after the random walk of its thresholds alone. *)
Definition three_agent_1 : Individual * rng_state :=
  Eval vm_compute in
    unwrap (no_agent, sample_rng)
      (next_step three_agent sample_rng 1 (Vec [0.9; 0.1; 0.5])
         zero3_TA_component).

Definition default_agent_walk : Individual * rng_state :=
  Eval vm_compute in
    unwrap (no_agent, sample_rng) (update_thresholds default_agent sample_rng).

(** [independent_agent] stepped at t = 3, off its stride of 2, and the
    scenario agent with telemetry on and a stride of 0. *)
Definition independent_agent_off : Individual * rng_state :=
  Eval vm_compute in
    unwrap (no_agent, sample_rng)
      (next_step independent_agent sample_rng 3 (Vec [1; 0])
         (Vec [0; 0], Vec [0; 0], Vec [0; 0])).

Definition zero_stride_agent : Individual :=
  Eval vm_compute in unwrap no_agent (scenario 0 true 0 0.0 "default" 9).

(** An agent built with cultural_inertia = 0 and an empty discount
    vector. *)
Definition zero_inertia_agent : Individual :=
  Eval vm_compute in
    unwrap no_agent
      (__init__ three_params (Vec [0.1; 0.2; 0.3]) (Vec [0.5; 0.5; 0.5])
         [] 0%nat (Scalar 0) (Scalar 0) (Scalar 0)
         (Scalar 0) (Scalar 0) (Scalar 0) 5).

(** Three ticks of the driver on [independent_agent]. *)
Definition independent_inputs : list step_input :=
  [ {| in_t := 1; in_social_component := Vec [1; 0];
       in_TA_component := (Vec [0; 0], Vec [0; 0], Vec [0; 0]) |};
    {| in_t := 2; in_social_component := Vec [0.5; 0.5];
       in_TA_component := (Vec [0; 0], Vec [0; 0], Vec [0; 0]) |};
    {| in_t := 3; in_social_component := Vec [0; 1];
       in_TA_component := (Vec [0; 0], Vec [0; 0], Vec [0; 0]) |} ].

Definition independent_trace : list Individual :=
  Eval vm_compute in
    unwrap [] (simulate independent_agent sample_rng independent_inputs).

(** The rows of the attitudes matrix of an agent that has one. *)
Definition memory_rows (self : Individual) : list (list Q) :=
  match attitudes_matrix self with
  | Some m => rows m
  | None => []
  end.

(* ================================================================= *)
(** ** Well-shaped agents

    The shapes under which the driver is meant to run an agent with [n]
    behaviours: attitudes, thresholds and phi_array are arrays of length
    [n]; the threat-appraisal propensities, their thresholds and the
    step inputs for them are 0-d values or arrays of length [n]; the
    window is as long as the discount vector, which is not empty; the
    stride is not 0 when telemetry is on; and in behavioural_independence
    mode the matrix has [n] columns and one row per discount weight. *)

Definition is_vec (n : nat) (a : ndarray) : Prop :=
  exists l, a = Vec l /\ length l = n.

Definition shape_ok (n : nat) (a : ndarray) : Prop :=
  match a with
  | Scalar _ => True
  | Vec l => length l = n
  end.

Record well_shaped (n : nat) (self : Individual) : Prop := {
  ws_n : (1 <= n)%nat;
  ws_M : M self = n;
  ws_attitudes : is_vec n (attitudes self);
  ws_thresholds : is_vec n (thresholds self);
  ws_phi_array : is_vec n (phi_array self);
  ws_pU : shape_ok n (pU self);
  ws_pC : shape_ok n (pC self);
  ws_pR : shape_ok n (pR self);
  ws_thresholdspU : shape_ok n (thresholdspU self);
  ws_thresholdspC : shape_ok n (thresholdspC self);
  ws_thresholdspR : shape_ok n (thresholdspR self);
  ws_stride :
    save_timeseries_data self = true -> compression_factor self <> 0%Z;
  ws_weights : (1 <= length (normalized_discount_vector self))%nat;
  ws_window :
    length (av_behaviour_list self) = length (normalized_discount_vector self);
  ws_matrix :
    is_independent self = true ->
    exists m, attitudes_matrix self = Some m /\ ncols m = n /\
              length (rows m) = length (normalized_discount_vector self)
}.

(** A step input for an agent with [n] behaviours. *)
Definition input_ok (n : nat) (i : step_input) : Prop :=
  is_vec n (in_social_component i) /\
  shape_ok n (fst (fst (in_TA_component i))) /\
  shape_ok n (snd (fst (in_TA_component i))) /\
  shape_ok n (snd (in_TA_component i)).

(* ================================================================= *)
(** ** The same program in binary64

    [F64] is the embedding over again with the numbers the source has:
    IEEE 754 binary64 ([float], numpy's float64), every operation
    rounded to nearest.  The text of each definition is that of its
    namesake above; only the number type differs, and with it:
    [np.mean] is total (0/0 is nan on an empty array); a sum, a mean and
    an inner product accumulate their terms in index order (numpy's
    order for arrays of fewer than 8 entries); [x ** 2] is [x * x];
    [np.clip] and Python's [min] and [max] compare with [<].
    The results below that are stated about [F64] are what the code
    returns bit for bit; the results stated about the definitions above
    are about the program's arithmetic carried out without rounding. *)

Set Warnings "-inexact-float".

Module F64.

Local Open Scope float_scope.

Inductive ndarray : Type :=
| Scalar (x : float)
| Vec (l : list float).

Record matrix : Type := { ncols : nat; rows : list (list float) }.

Fixpoint map2 (f : float -> float -> float) (l1 l2 : list float) : list float :=
  match l1, l2 with
  | a :: l1', b :: l2' => f a b :: map2 f l1' l2'
  | _, _ => []
  end.

Definition nd_map (f : float -> float) (a : ndarray) : ndarray :=
  match a with
  | Scalar x => Scalar (f x)
  | Vec l => Vec (map f l)
  end.

Definition broadcast2 (f : float -> float -> float) (a b : ndarray) : res ndarray :=
  match a, b with
  | Scalar x, Scalar y => Ok (Scalar (f x y))
  | Scalar x, Vec l => Ok (Vec (map (f x) l))
  | Vec l, Scalar y => Ok (Vec (map (fun u => f u y) l))
  | Vec l1, Vec l2 =>
      if Nat.eqb (length l1) (length l2) then Ok (Vec (map2 f l1 l2))
      else match l1, l2 with
           | [x], _ => Ok (Vec (map (f x) l2))
           | _, [y] => Ok (Vec (map (fun u => f u y) l1))
           | _, _ => Raise ValueError
           end
  end.

Definition nd_add : ndarray -> ndarray -> res ndarray := broadcast2 PrimFloat.add.
Definition nd_sub : ndarray -> ndarray -> res ndarray := broadcast2 PrimFloat.sub.
Definition nd_mul : ndarray -> ndarray -> res ndarray := broadcast2 PrimFloat.mul.

Definition scal_mul (c : float) (a : ndarray) : ndarray := nd_map (PrimFloat.mul c) a.
Definition scal_rsub (c : float) (a : ndarray) : ndarray := nd_map (PrimFloat.sub c) a.
Definition add_scal (a : ndarray) (c : float) : ndarray := nd_map (fun x => x + c) a.

Definition nd_square (a : ndarray) : ndarray := nd_map (fun x => x * x) a.

(** [minimum(maximum(x, lo), hi)] for bounds that are numbers: a nan
    entry stays nan. *)
Definition clip1 (lo hi x : float) : float :=
  let y := if x <? lo then lo else x in
  if hi <? y then hi else y.

Definition np_clip (a : ndarray) (lo hi : float) : ndarray := nd_map (clip1 lo hi) a.

Definition sum (l : list float) : float := fold_left PrimFloat.add l 0.

(** The float of a length (exact below 2^53). *)
Fixpoint float_of_nat (n : nat) : float :=
  match n with
  | O => 0
  | S k => float_of_nat k + 1
  end.

(** [np.mean] raises nothing: the mean of an empty array is 0/0, nan. *)
Definition np_mean (a : ndarray) : res float :=
  match a with
  | Scalar x => Ok x
  | Vec l => Ok (sum l / float_of_nat (length l))
  end.

(** The inner product of [np.matmul]: each product is rounded, and the
    products are added in index order starting from 0.  (numpy leaves
    the order of the additions to its BLAS; [sum_in_orders] below lists
    the results of the other orders for three terms.) *)
Definition dot (v w : list float) : float :=
  fold_left (fun acc p => acc + fst p * snd p) (combine v w) 0.


Definition matmul_vv (v w : list float) : res float :=
  if Nat.eqb (length v) (length w) then Ok (dot v w) else Raise ValueError.

Definition column (m : matrix) (j : nat) : list float :=
  map (fun r => nth j r 0) (rows m).

Definition matmul_vm (v : list float) (m : matrix) : res (list float) :=
  if Nat.eqb (length v) (length (rows m))
  then Ok (map (fun j => dot v (column m j)) (seq 0 (ncols m)))
  else Raise ValueError.

Definition atleast_1d (a : ndarray) : list float :=
  match a with
  | Scalar x => [x]
  | Vec l => l
  end.

Definition np_tile (a : ndarray) (n : nat) : matrix :=
  {| ncols := length (atleast_1d a); rows := repeat (atleast_1d a) n |}.

Definition vstack_front (a : ndarray) (m : matrix) : res matrix :=
  if Nat.eqb (length (atleast_1d a)) (ncols m)
  then Ok {| ncols := ncols m; rows := atleast_1d a :: removelast (rows m) |}
  else Raise ValueError.

Definition getitem (a : ndarray) (i : nat) : res float :=
  match a with
  | Scalar _ => Raise IndexError
  | Vec l => match nth_error l i with
             | Some x => Ok x
             | None => Raise IndexError
             end
  end.

Definition len (a : ndarray) : res nat :=
  match a with
  | Scalar _ => Raise TypeError
  | Vec l => Ok (length l)
  end.

Definition to_list (a : ndarray) : res (list float) :=
  match a with
  | Scalar _ => Raise TypeError
  | Vec l => Ok l
  end.

Definition list_pop (l : list float) : res (list float) :=
  match l with
  | [] => Raise IndexError
  | _ => Ok (removelast l)
  end.

Definition list_insert0 (x : float) (l : list float) : list float := x :: l.

(** Python's [min] and [max]: a later entry replaces the current one
    when it is strictly smaller (greater). *)
Definition list_min (l : list float) : option float :=
  match l with
  | [] => None
  | x :: r => Some (fold_left (fun m y => if y <? m then y else m) r x)
  end.

Definition list_max (l : list float) : option float :=
  match l with
  | [] => None
  | x :: r => Some (fold_left (fun m y => if m <? y then y else m) r x)
  end.

Record rng_state : Type := { stream : nat -> float; cursor : nat }.

Definition rng_normal (g : rng_state) (n : nat) : list float * rng_state :=
  (map (stream g) (seq (cursor g) n),
   {| stream := stream g; cursor := (cursor g + n)%nat |}).

(** The dictionary [individual_params] handed to the constructor. *)
Module Params.
Record dict : Type := {
  M : nat;
  t : Z;
  save_timeseries_data : bool;
  compression_factor : Z;
  phi_array : ndarray;
  alpha_change : string
}.
End Params.

(** The attributes of an [Individual], in the order [__init__] assigns
    them.  [attitudes_matrix] and [attitudes_star] exist only for an
    agent built with [alpha_change == "behavioural_independence"]
    ([None] is an attribute never assigned); the history logs exist only
    when [save_timeseries_data] holds and are empty lists otherwise. *)
Record Individual : Type := {
  attitudes : ndarray;
  initial_first_attitude : float;
  thresholds : ndarray;
  normalized_discount_vector : list float;
  cultural_inertia : nat;
  pU : ndarray;
  pC : ndarray;
  pR : ndarray;
  thresholdspU : ndarray;
  thresholdspC : ndarray;
  thresholdspR : ndarray;
  M : nat;
  t : Z;
  save_timeseries_data : bool;
  compression_factor : Z;
  phi_array : ndarray;
  alpha_change : string;
  id : Z;
  green_fountain_state : Z;
  attitudes_matrix : option matrix;
  attitudes_star : option (list float);
  values : ndarray;
  av_behaviour : float;
  av_behaviour_list : list float;
  identity : float;
  initial_carbon_emissions : float;
  behavioural_carbon_emissions : list float;
  individual_carbon_emissions_flow : float;
  history_behaviour_values : list (list float);
  history_behaviour_attitudes : list (list float);
  history_behaviour_thresholds : list (list float);
  history_TA : list ndarray;
  history_thresholdsTA : list ndarray;
  history_av_behaviour : list float;
  history_identity : list float;
  history_individual_carbon_emissions_flow : list float;
  history_behavioural_carbon_emissions : list (list float)
}.

(** Assignment to an attribute: [self <| f := v |>] is [self] with the
    attribute [f] replaced by [v].  One setter per attribute. *)
#[global] Instance setf_attitudes : Setter attitudes.
Proof. setter Individual attitudes. Defined.
#[global] Instance setf_initial_first_attitude : Setter initial_first_attitude.
Proof. setter Individual initial_first_attitude. Defined.
#[global] Instance setf_thresholds : Setter thresholds.
Proof. setter Individual thresholds. Defined.
#[global] Instance setf_normalized_discount_vector : Setter normalized_discount_vector.
Proof. setter Individual normalized_discount_vector. Defined.
#[global] Instance setf_cultural_inertia : Setter cultural_inertia.
Proof. setter Individual cultural_inertia. Defined.
#[global] Instance setf_pU : Setter pU.
Proof. setter Individual pU. Defined.
#[global] Instance setf_pC : Setter pC.
Proof. setter Individual pC. Defined.
#[global] Instance setf_pR : Setter pR.
Proof. setter Individual pR. Defined.
#[global] Instance setf_thresholdspU : Setter thresholdspU.
Proof. setter Individual thresholdspU. Defined.
#[global] Instance setf_thresholdspC : Setter thresholdspC.
Proof. setter Individual thresholdspC. Defined.
#[global] Instance setf_thresholdspR : Setter thresholdspR.
Proof. setter Individual thresholdspR. Defined.
#[global] Instance setf_M : Setter M.
Proof. setter Individual M. Defined.
#[global] Instance setf_t : Setter t.
Proof. setter Individual t. Defined.
#[global] Instance setf_save_timeseries_data : Setter save_timeseries_data.
Proof. setter Individual save_timeseries_data. Defined.
#[global] Instance setf_compression_factor : Setter compression_factor.
Proof. setter Individual compression_factor. Defined.
#[global] Instance setf_phi_array : Setter phi_array.
Proof. setter Individual phi_array. Defined.
#[global] Instance setf_alpha_change : Setter alpha_change.
Proof. setter Individual alpha_change. Defined.
#[global] Instance setf_id : Setter id.
Proof. setter Individual id. Defined.
#[global] Instance setf_green_fountain_state : Setter green_fountain_state.
Proof. setter Individual green_fountain_state. Defined.
#[global] Instance setf_attitudes_matrix : Setter attitudes_matrix.
Proof. setter Individual attitudes_matrix. Defined.
#[global] Instance setf_attitudes_star : Setter attitudes_star.
Proof. setter Individual attitudes_star. Defined.
#[global] Instance setf_values : Setter values.
Proof. setter Individual values. Defined.
#[global] Instance setf_av_behaviour : Setter av_behaviour.
Proof. setter Individual av_behaviour. Defined.
#[global] Instance setf_av_behaviour_list : Setter av_behaviour_list.
Proof. setter Individual av_behaviour_list. Defined.
#[global] Instance setf_identity : Setter identity.
Proof. setter Individual identity. Defined.
#[global] Instance setf_initial_carbon_emissions : Setter initial_carbon_emissions.
Proof. setter Individual initial_carbon_emissions. Defined.
#[global] Instance setf_behavioural_carbon_emissions : Setter behavioural_carbon_emissions.
Proof. setter Individual behavioural_carbon_emissions. Defined.
#[global] Instance setf_individual_carbon_emissions_flow : Setter individual_carbon_emissions_flow.
Proof. setter Individual individual_carbon_emissions_flow. Defined.
#[global] Instance setf_history_behaviour_values : Setter history_behaviour_values.
Proof. setter Individual history_behaviour_values. Defined.
#[global] Instance setf_history_behaviour_attitudes : Setter history_behaviour_attitudes.
Proof. setter Individual history_behaviour_attitudes. Defined.
#[global] Instance setf_history_behaviour_thresholds : Setter history_behaviour_thresholds.
Proof. setter Individual history_behaviour_thresholds. Defined.
#[global] Instance setf_history_TA : Setter history_TA.
Proof. setter Individual history_TA. Defined.
#[global] Instance setf_history_thresholdsTA : Setter history_thresholdsTA.
Proof. setter Individual history_thresholdsTA. Defined.
#[global] Instance setf_history_av_behaviour : Setter history_av_behaviour.
Proof. setter Individual history_av_behaviour. Defined.
#[global] Instance setf_history_identity : Setter history_identity.
Proof. setter Individual history_identity. Defined.
#[global] Instance setf_history_individual_carbon_emissions_flow : Setter history_individual_carbon_emissions_flow.
Proof. setter Individual history_individual_carbon_emissions_flow. Defined.
#[global] Instance setf_history_behavioural_carbon_emissions : Setter history_behavioural_carbon_emissions.
Proof. setter Individual history_behavioural_carbon_emissions. Defined.

(** The test [self.alpha_change == "behavioural_independence"]. *)
Definition is_independent (self : Individual) : bool :=
  String.eqb (alpha_change self) behavioural_independence.

(** The two read-only properties. *)
Definition TA (self : Individual) : res ndarray :=
  a <- nd_sub (scal_mul 0.7 (pU self)) (scal_mul 0.2 (pC self)) ;;
  nd_sub a (scal_mul 0.1 (pR self)).

Definition thresholdsTA (self : Individual) : res ndarray :=
  a <- nd_sub (scal_mul 0.7 (thresholdspU self))
              (scal_mul 0.2 (thresholdspC self)) ;;
  nd_sub a (scal_mul 0.1 (thresholdspR self)).

Definition calc_av_behaviour (self : Individual) : res Individual :=
  av <- np_mean (nd_square (scal_rsub 1 (attitudes self))) ;;
  Ok (self <| av_behaviour := av |>).

Definition update_av_behaviour_list (self : Individual) : res Individual :=
  l <- list_pop (av_behaviour_list self) ;;
  Ok (self <| av_behaviour_list := list_insert0 (av_behaviour self) l |>).

Definition calc_identity (self : Individual) : res float :=
  matmul_vv (normalized_discount_vector self) (av_behaviour_list self).

Definition update_attitudes_matrix (self : Individual) : res Individual :=
  match attitudes_matrix self with
  | None => Raise AttributeError
  | Some m =>
      m' <- vstack_front (attitudes self) m ;;
      Ok (self <| attitudes_matrix := Some m' |>)
  end.

Definition calc_attitudes_star (self : Individual) : res (list float) :=
  match attitudes_matrix self with
  | None => Raise AttributeError
  | Some m => matmul_vm (normalized_discount_vector self) m
  end.

Definition update_values (self : Individual) : res Individual :=
  d <- nd_sub (attitudes self) (thresholds self) ;;
  ta <- TA self ;;
  tta <- thresholdsTA self ;;
  e <- nd_sub ta tta ;;
  v <- nd_add (scal_mul 0.5 d) (scal_mul 0.5 e) ;;
  Ok (self <| values := v |>).

(** The right-hand side shared by [update_attitudes], [update_pU],
    [update_pC] and [update_pR]:
    [(1 - self.phi_array)*old + (self.phi_array)*(component)]. *)
Definition social_learning (phi old component : ndarray) : res ndarray :=
  a <- nd_mul (scal_rsub 1 phi) old ;;
  b <- nd_mul phi component ;;
  nd_add a b.

Definition update_attitudes (self : Individual) (social_component : ndarray)
  : res Individual :=
  x <- social_learning (phi_array self) (attitudes self) social_component ;;
  Ok (self <| attitudes := x |>).

Definition update_pU (self : Individual) (social_component : ndarray)
  : res Individual :=
  x <- social_learning (phi_array self) (pU self) social_component ;;
  Ok (self <| pU := x |>).

Definition update_pC (self : Individual) (TA_component : ndarray)
  : res Individual :=
  x <- social_learning (phi_array self) (pC self) TA_component ;;
  Ok (self <| pC := x |>).

Definition update_pR (self : Individual) (TA_component : ndarray)
  : res Individual :=
  x <- social_learning (phi_array self) (pR self) TA_component ;;
  Ok (self <| pR := x |>).

Definition update_thresholds (self : Individual) (g : rng_state)
  : res (Individual * rng_state) :=
  n <- len (thresholds self) ;;
  let (delta_thresholds, g') := rng_normal g n in
  x <- nd_add (thresholds self) (Vec delta_thresholds) ;;
  Ok (self <| thresholds := np_clip x 0 1 |>, g').

Definition update_thresholdTA (self : Individual) (g : rng_state)
  : Individual * rng_state :=
  let (delta_TA, g') := rng_normal g 3 in
  (self <| thresholdspU := np_clip (add_scal (thresholdspU self) (nth 0 delta_TA 0)) 0 1 |>
        <| thresholdspC := np_clip (add_scal (thresholdspC self) (nth 1 delta_TA 0)) 0 1 |>
        <| thresholdspR := np_clip (add_scal (thresholdspR self) (nth 2 delta_TA 0)) 0 1 |>,
   g').

Definition calc_total_emissions_flow (self : Individual) : res (float * list float) :=
  behavioural_emissions <-
    mapM (fun i => x <- getitem (values self) i ;; Ok ((1 - x) / 2))
         (seq 0 (M self)) ;;
  Ok (sum behavioural_emissions, behavioural_emissions).

Definition save_timeseries_data_individual (self : Individual)
  : res Individual :=
  lv <- to_list (values self) ;;
  la <- to_list (attitudes self) ;;
  lt <- to_list (thresholds self) ;;
  ta <- TA self ;;
  lta <- to_list ta ;;
  Ok (self
        <| history_behaviour_values := history_behaviour_values self ++ [lv] |>
        <| history_behaviour_attitudes := history_behaviour_attitudes self ++ [la] |>
        <| history_behaviour_thresholds := history_behaviour_thresholds self ++ [lt] |>
        <| history_TA := history_TA self ++ [Vec lta] |>
        <| history_identity := history_identity self ++ [identity self] |>
        <| history_av_behaviour := history_av_behaviour self ++ [av_behaviour self] |>
        <| history_individual_carbon_emissions_flow :=
             history_individual_carbon_emissions_flow self
               ++ [individual_carbon_emissions_flow self] |>
        <| history_behavioural_carbon_emissions :=
             history_behavioural_carbon_emissions self
               ++ [behavioural_carbon_emissions self] |>).

(** [self.t % self.compression_factor == 0] on Python integers. *)
Definition on_stride (self : Individual) : res bool :=
  if Z.eqb (compression_factor self) 0 then Raise ZeroDivisionError
  else Ok (Z.eqb (Z.modulo (t self) (compression_factor self)) 0).

Definition next_step (self : Individual) (g : rng_state) (t' : Z)
    (social_component : ndarray)
    (TA_component : ndarray * ndarray * ndarray)
  : res (Individual * rng_state) :=
  let self := self <| t := t' |> in
  let '(TA_component_pU, TA_component_pC, TA_component_pR) := TA_component in
  self <- update_values self ;;
  self <- update_attitudes self social_component ;;
  self <- update_pU self TA_component_pU ;;
  self <- update_pC self TA_component_pC ;;
  self <- update_pR self TA_component_pR ;;
  '(self, g) <-
    (if is_independent self then
       self <- update_attitudes_matrix self ;;
       star <- calc_attitudes_star self ;;
       Ok (self <| attitudes_star := Some star |>, g)
     else
       '(self, g) <- update_thresholds self g ;;
       let (self, g) := update_thresholdTA self g in
       self <- calc_av_behaviour self ;;
       self <- update_av_behaviour_list self ;;
       i <- calc_identity self ;;
       Ok (self <| identity := i |>, g)) ;;
  '(flow, emissions) <- calc_total_emissions_flow self ;;
  let self := self <| individual_carbon_emissions_flow := flow |>
                   <| behavioural_carbon_emissions := emissions |> in
  self <-
    (if save_timeseries_data self then
       b <- on_stride self ;;
       if b then save_timeseries_data_individual self else Ok self
     else Ok self) ;;
  Ok (self, g).

(** The constructor.  The object is filled attribute by attribute, as in
    the source; [blank] gives the attributes assigned only further down
    a placeholder, which no method reads before its assignment.  The
    arguments [normalized_discount_vector] and [cultural_inertia] hide the
    attributes of the same name, so [self.cultural_inertia] is written
    [cultural_inertia]: the value just stored. *)
Definition blank (individual_params : Params.dict)
    (init_data_attitudes init_data_thresholds : ndarray)
    (normalized_discount_vector : list float) (cultural_inertia : nat)
    (init_data_pU init_data_pC init_data_pR : ndarray)
    (init_data_thresholdspU init_data_thresholdspC init_data_thresholdspR : ndarray)
    (id_n : Z) (first : float) : Individual :=
  {| attitudes := init_data_attitudes;
     initial_first_attitude := first;
     thresholds := init_data_thresholds;
     normalized_discount_vector := normalized_discount_vector;
     cultural_inertia := cultural_inertia;
     pU := init_data_pU;
     pC := init_data_pC;
     pR := init_data_pR;
     thresholdspU := init_data_thresholdspU;
     thresholdspC := init_data_thresholdspC;
     thresholdspR := init_data_thresholdspR;
     M := Params.M individual_params;
     t := Params.t individual_params;
     save_timeseries_data := Params.save_timeseries_data individual_params;
     compression_factor := Params.compression_factor individual_params;
     phi_array := Params.phi_array individual_params;
     alpha_change := Params.alpha_change individual_params;
     id := id_n;
     green_fountain_state := 0%Z;
     attitudes_matrix := None;
     attitudes_star := None;
     values := Vec [];
     av_behaviour := 0;
     av_behaviour_list := [];
     identity := 0;
     initial_carbon_emissions := 0;
     behavioural_carbon_emissions := [];
     individual_carbon_emissions_flow := 0;
     history_behaviour_values := [];
     history_behaviour_attitudes := [];
     history_behaviour_thresholds := [];
     history_TA := [];
     history_thresholdsTA := [];
     history_av_behaviour := [];
     history_identity := [];
     history_individual_carbon_emissions_flow := [];
     history_behavioural_carbon_emissions := [] |}.

Definition __init__ (individual_params : Params.dict)
    (init_data_attitudes init_data_thresholds : ndarray)
    (normalized_discount_vector : list float) (cultural_inertia : nat)
    (init_data_pU init_data_pC init_data_pR : ndarray)
    (init_data_thresholdspU init_data_thresholdspC init_data_thresholdspR : ndarray)
    (id_n : Z) : res Individual :=
  first <- getitem init_data_attitudes 0 ;;
  let self :=
    blank individual_params init_data_attitudes init_data_thresholds
      normalized_discount_vector cultural_inertia
      init_data_pU init_data_pC init_data_pR
      init_data_thresholdspU init_data_thresholdspC init_data_thresholdspR
      id_n first in
  self <-
    (if is_independent self then
       let self :=
         self <| attitudes_matrix :=
                   Some (np_tile (attitudes self) cultural_inertia) |> in
       star <- calc_attitudes_star self ;;
       Ok (self <| attitudes_star := Some star |>)
     else Ok self) ;;
  v <- nd_sub (attitudes self) (thresholds self) ;;
  let self := self <| values := v |> in
  av <- np_mean (nd_square (scal_rsub 1 (attitudes self))) ;;
  let self := self <| av_behaviour := av |> in
  let self :=
    self <| av_behaviour_list := repeat (av_behaviour self) cultural_inertia |> in
  i <- calc_identity self ;;
  let self := self <| identity := i |> in
  '(flow, emissions) <- calc_total_emissions_flow self ;;
  let self := self <| initial_carbon_emissions := flow |>
                   <| behavioural_carbon_emissions := emissions |> in
  let self :=
    self <| individual_carbon_emissions_flow := initial_carbon_emissions self |> in
  if save_timeseries_data self then
    lv <- to_list (values self) ;;
    la <- to_list (attitudes self) ;;
    lt <- to_list (thresholds self) ;;
    ta <- TA self ;;
    tta <- thresholdsTA self ;;
    Ok (self
          <| history_behaviour_values := [lv] |>
          <| history_behaviour_attitudes := [la] |>
          <| history_behaviour_thresholds := [lt] |>
          <| history_TA := [ta] |>
          <| history_thresholdsTA := [tta] |>
          <| history_av_behaviour := [av_behaviour self] |>
          <| history_identity := [identity self] |>
          <| history_individual_carbon_emissions_flow :=
               [individual_carbon_emissions_flow self] |>
          <| history_behavioural_carbon_emissions :=
               [behavioural_carbon_emissions self] |>)
  else Ok self.

(** *** Sample data in binary64 *)

Definition sample_rng : rng_state :=
  {| stream := fun n => (float_of_nat n - 2) / 10; cursor := 0 |}.

Definition scenario_params (t0 : Z) (save : bool) (cf : Z) (phi : float)
    (alpha : string) : Params.dict :=
  {| Params.M := 1;
     Params.t := t0;
     Params.save_timeseries_data := save;
     Params.compression_factor := cf;
     Params.phi_array := Vec [phi];
     Params.alpha_change := alpha |}.

(** The agent of the scenario: attitudes [0.6], thresholds [0.2],
    pU = pC = pR = 0 and their thresholds 0, discount vector [1.0]. *)
Definition scenario (t0 : Z) (save : bool) (cf : Z) (phi : float) (alpha : string)
    (id_n : Z) : res Individual :=
  __init__ (scenario_params t0 save cf phi alpha) (Vec [0.6]) (Vec [0.2])
    [1.0] 1%nat (Scalar 0) (Scalar 0) (Scalar 0) (Scalar 0) (Scalar 0) (Scalar 0)
    id_n.

Definition zero_TA_component : ndarray * ndarray * ndarray :=
  (Vec [0], Vec [0], Vec [0]).

Definition no_agent : Individual :=
  blank (scenario_params 0 false 1 0 "") (Vec []) (Vec []) [] 0%nat
    (Scalar 0) (Scalar 0) (Scalar 0) (Scalar 0) (Scalar 0) (Scalar 0) 0%Z 0.


(** The scenario agent in default mode with telemetry at every step, and
    the same agent one step later. *)
Definition default_agent : Individual :=
  Eval vm_compute in unwrap no_agent (scenario 0 true 1 0.0 "default" 7).

Definition default_agent_1 : Individual * rng_state :=
  Eval vm_compute in
    unwrap (no_agent, sample_rng)
      (next_step default_agent sample_rng 1 (Vec [0.0]) zero_TA_component).

(** The scenario agent with susceptibility 0.1, telemetry off. *)
Definition slow_learner : Individual :=
  Eval vm_compute in unwrap no_agent (scenario 0 false 1 0.1 "default" 7).





End F64.
(* ================================================================= *)
(** ** Reasoning about the error monad *)

Lemma bind_Ok {A B : Type} (c : res A) (k : A -> res B) (b : B) :
  bind c k = Ok b -> exists a, c = Ok a /\ k a = Ok b.
Proof.
  destruct c as [a|e]; cbn; intros H; [eauto | discriminate].
Qed.

Lemma bind_Raise {A B : Type} (c : res A) (k : A -> res B) (e : exn) :
  c = Raise e -> bind c k = Raise e.
Proof. intros ->. reflexivity. Qed.

Lemma raises_bind_l {A B : Type} (c : res A) (k : A -> res B) :
  raises c -> raises (bind c k).
Proof. intros [e ->]. exists e. reflexivity. Qed.

Lemma raises_bind_r {A B : Type} (c : res A) (k : A -> res B) :
  (forall a, c = Ok a -> raises (k a)) -> raises (bind c k).
Proof.
  destruct c as [a|e]; cbn; intros H; [apply H; reflexivity | exists e; reflexivity].
Qed.

Lemma raises_not_Ok {A : Type} (c : res A) (a : A) : raises c -> c <> Ok a.
Proof. intros [e ->]. discriminate. Qed.

(** Split a successful bind in hypothesis [H] into its two halves. *)
Ltac inv_bind H :=
  let a := fresh "a" in
  let E := fresh "E" in
  apply bind_Ok in H; destruct H as (a & E & H).

Ltac inv_Ok H := injection H as H; try subst.

(** Read the attributes of updated agents. *)
Ltac fields :=
  cbn [set const
       set_attitudes set_initial_first_attitude set_thresholds set_normalized_discount_vector set_cultural_inertia set_pU
       set_pC set_pR set_thresholdspU set_thresholdspC set_thresholdspR set_M set_t set_save_timeseries_data
       set_compression_factor set_phi_array set_alpha_change set_id set_green_fountain_state set_attitudes_matrix set_attitudes_star set_values
       set_av_behaviour set_av_behaviour_list set_identity set_initial_carbon_emissions set_behavioural_carbon_emissions set_individual_carbon_emissions_flow
       set_history_behaviour_values set_history_behaviour_attitudes set_history_behaviour_thresholds set_history_TA set_history_thresholdsTA
       set_history_av_behaviour set_history_identity set_history_individual_carbon_emissions_flow set_history_behavioural_carbon_emissions
       attitudes initial_first_attitude thresholds normalized_discount_vector
       cultural_inertia pU pC pR thresholdspU thresholdspC thresholdspR
       M t save_timeseries_data compression_factor phi_array alpha_change id
       green_fountain_state attitudes_matrix attitudes_star values
       av_behaviour av_behaviour_list identity initial_carbon_emissions
       behavioural_carbon_emissions individual_carbon_emissions_flow
       history_behaviour_values history_behaviour_attitudes
       history_behaviour_thresholds history_TA history_thresholdsTA
       history_av_behaviour history_identity
       history_individual_carbon_emissions_flow
       history_behavioural_carbon_emissions] in *;
  unfold const in *.

Lemma next_step_unfold self g t' social_component TA_component :
  next_step self g t' social_component TA_component =
  (self <- learn self t' social_component TA_component ;;
   '(self, g) <- mode_branch self g ;;
   self <- emit self ;;
   self <- save_branch self ;;
   Ok (self, g)).
Proof.
  destruct TA_component as [[a b] c].
  unfold next_step, learn, mode_branch, emit, save_branch.
  destruct (update_values _) as [s1|]; [cbn [bind]|reflexivity].
  destruct (update_attitudes _ _) as [s2|]; [cbn [bind]|reflexivity].
  destruct (update_pU _ _) as [s3|]; [cbn [bind]|reflexivity].
  destruct (update_pC _ _) as [s4|]; [cbn [bind]|reflexivity].
  destruct (update_pR _ _) as [s5|]; [cbn [bind]|reflexivity].
  match goal with |- bind ?c _ = bind ?c _ => destruct c as [[s6 g6]|] end;
    [cbn [bind]|reflexivity].
  destruct (calc_total_emissions_flow s6) as [[flow em]|]; reflexivity.
Qed.

Lemma next_step_inv self g t' social_component TA_component self' g' :
  next_step self g t' social_component TA_component = Ok (self', g') ->
  exists s1 s2 s3,
    learn self t' social_component TA_component = Ok s1 /\
    mode_branch s1 g = Ok (s2, g') /\
    emit s2 = Ok s3 /\
    save_branch s3 = Ok self'.
Proof.
  rewrite next_step_unfold. intros H.
  inv_bind H. destruct (mode_branch a g) as [[s2 g2]|] eqn:E2; [|discriminate].
  cbn [bind] in H. inv_bind H. inv_bind H. inv_Ok H.
  eauto 10.
Qed.

(* ================================================================= *)
(** ** What each phase of a step assigns

    Each lemma gives the agent a phase returns as the agent it received
    with some attributes replaced; reading any attribute of the result
    is then a computation. *)

Lemma update_values_shape self s1 :
  update_values self = Ok s1 -> exists v, s1 = self <| values := v |>.
Proof.
  unfold update_values. intros H. do 5 inv_bind H. inv_Ok H. eauto.
Qed.

Lemma update_attitudes_shape self social_component s1 :
  update_attitudes self social_component = Ok s1 ->
  exists a,
    s1 = self <| attitudes := a |> /\
    social_learning (phi_array self) (attitudes self) social_component = Ok a.
Proof.
  unfold update_attitudes. intros H. inv_bind H. inv_Ok H. eauto.
Qed.

Lemma update_pU_shape self social_component s1 :
  update_pU self social_component = Ok s1 ->
  exists u,
    s1 = self <| pU := u |> /\
    social_learning (phi_array self) (pU self) social_component = Ok u.
Proof.
  unfold update_pU. intros H. inv_bind H. inv_Ok H. eauto.
Qed.

Lemma update_pC_shape self TA_component s1 :
  update_pC self TA_component = Ok s1 ->
  exists c,
    s1 = self <| pC := c |> /\
    social_learning (phi_array self) (pC self) TA_component = Ok c.
Proof.
  unfold update_pC. intros H. inv_bind H. inv_Ok H. eauto.
Qed.

Lemma update_pR_shape self TA_component s1 :
  update_pR self TA_component = Ok s1 ->
  exists r,
    s1 = self <| pR := r |> /\
    social_learning (phi_array self) (pR self) TA_component = Ok r.
Proof.
  unfold update_pR. intros H. inv_bind H. inv_Ok H. eauto.
Qed.

Lemma learn_shape self t' social_component cU cC cR s1 :
  learn self t' social_component (cU, cC, cR) = Ok s1 ->
  exists v a u c r,
    s1 = self <| t := t' |> <| values := v |> <| attitudes := a |>
              <| pU := u |> <| pC := c |> <| pR := r |> /\
    social_learning (phi_array self) (attitudes self) social_component = Ok a.
Proof.
  unfold learn. intros H.
  inv_bind H. apply update_values_shape in E. destruct E as (xv & ->).
  inv_bind H. apply update_attitudes_shape in E. destruct E as (xa & -> & Ha).
  inv_bind H. apply update_pU_shape in E. destruct E as (xu & -> & _).
  inv_bind H. apply update_pC_shape in E. destruct E as (xc & -> & _).
  apply update_pR_shape in H. destruct H as (xr & -> & _).
  fields. exists xv, xa, xu, xc, xr. split; [reflexivity | exact Ha].
Qed.

Lemma clip1_range (x : Q) : 0 <= clip1 0 1 x <= 1.
Proof.
  unfold clip1. split.
  - apply Q.min_glb; [apply Q.le_max_r | discriminate].
  - apply Q.le_min_r.
Qed.

Lemma np_clip_range (a : ndarray) : nd_in_range 0 1 (np_clip a 0 1).
Proof.
  unfold nd_in_range, np_clip.
  destruct a as [x|l]; cbn.
  - constructor; [apply clip1_range | constructor].
  - induction l; cbn; constructor; [apply clip1_range | assumption].
Qed.

Lemma broadcast2_Vec (f : Q -> Q -> Q) (l1 l2 : list Q) (r : ndarray) :
  broadcast2 f (Vec l1) (Vec l2) = Ok r -> exists l, r = Vec l.
Proof.
  unfold broadcast2. destruct (Nat.eqb _ _); [intros H; inv_Ok H; eauto|].
  destruct l1 as [|x [|x' l1]], l2 as [|y [|y' l2]]; intros H;
    try discriminate; inv_Ok H; eauto.
Qed.

Lemma update_thresholds_shape self g s1 g1 :
  update_thresholds self g = Ok (s1, g1) ->
  exists x, s1 = self <| thresholds := np_clip (Vec x) 0 1 |>.
Proof.
  unfold update_thresholds. intros H. inv_bind H.
  destruct (thresholds self) as [|lt]; [discriminate|].
  destruct (rng_normal g a) as [d g2]. inv_bind H. inv_Ok H.
  apply broadcast2_Vec in E0. destruct E0 as (l & ->).
  eexists. reflexivity.
Qed.

Lemma update_thresholdTA_shape self g :
  exists x y z,
    fst (update_thresholdTA self g) =
    self <| thresholdspU := np_clip x 0 1 |>
         <| thresholdspC := np_clip y 0 1 |>
         <| thresholdspR := np_clip z 0 1 |>.
Proof.
  unfold update_thresholdTA. destruct (rng_normal g 3) as [d g2].
  do 3 eexists. reflexivity.
Qed.

Lemma calc_av_behaviour_shape self s1 :
  calc_av_behaviour self = Ok s1 ->
  exists av,
    s1 = self <| av_behaviour := av |> /\
    np_mean (nd_square (scal_rsub 1 (attitudes self))) = Ok av.
Proof.
  unfold calc_av_behaviour. intros H. inv_bind H. inv_Ok H. eauto.
Qed.

Lemma update_av_behaviour_list_shape self s1 :
  update_av_behaviour_list self = Ok s1 ->
  av_behaviour_list self <> [] /\
  s1 = self <| av_behaviour_list :=
                 av_behaviour self :: removelast (av_behaviour_list self) |>.
Proof.
  unfold update_av_behaviour_list, list_pop, list_insert0. intros H. inv_bind H.
  destruct (av_behaviour_list self) as [|y l]; [discriminate|].
  inv_Ok E. inv_Ok H. split; [discriminate | reflexivity].
Qed.

Lemma mode_branch_default self g s2 g' :
  is_independent self = false ->
  mode_branch self g = Ok (s2, g') ->
  exists x xU xC xR av i,
    s2 = self <| thresholds := np_clip (Vec x) 0 1 |>
              <| thresholdspU := np_clip xU 0 1 |>
              <| thresholdspC := np_clip xC 0 1 |>
              <| thresholdspR := np_clip xR 0 1 |>
              <| av_behaviour := av |>
              <| av_behaviour_list := av :: removelast (av_behaviour_list self) |>
              <| identity := i |> /\
    av_behaviour_list self <> [] /\
    np_mean (nd_square (scal_rsub 1 (attitudes self))) = Ok av /\
    matmul_vv (normalized_discount_vector self)
              (av :: removelast (av_behaviour_list self)) = Ok i.
Proof.
  unfold mode_branch. intros -> H.
  destruct (update_thresholds self g) as [[s g1]|] eqn:E1; [|discriminate].
  cbn [bind] in H.
  apply update_thresholds_shape in E1. destruct E1 as (x & ->).
  destruct (update_thresholdTA_shape (self <| thresholds := np_clip (Vec x) 0 1 |>) g1)
    as (xU & xC & xR & E2).
  destruct (update_thresholdTA _ g1) as [s g2]. cbn [fst] in E2. subst s.
  inv_bind H. apply calc_av_behaviour_shape in E. destruct E as (av & -> & Hav).
  inv_bind H. apply update_av_behaviour_list_shape in E. destruct E as (Hne & ->).
  inv_bind H. unfold calc_identity in E. injection H as <- <-.
  fields. exists x, xU, xC, xR, av, a. split; [reflexivity|]. auto.
Qed.

Lemma mode_branch_independent self g s2 g' :
  is_independent self = true ->
  mode_branch self g = Ok (s2, g') ->
  g' = g /\
  exists m m' star,
    attitudes_matrix self = Some m /\
    vstack_front (attitudes self) m = Ok m' /\
    matmul_vm (normalized_discount_vector self) m' = Ok star /\
    s2 = self <| attitudes_matrix := Some m' |> <| attitudes_star := Some star |>.
Proof.
  unfold mode_branch. intros -> H.
  inv_bind H. unfold update_attitudes_matrix in E.
  destruct (attitudes_matrix self) as [m|] eqn:EM; [|discriminate].
  inv_bind E. inv_Ok E.
  inv_bind H. inv_Ok H. unfold calc_attitudes_star in E. cbn in E.
  split; [reflexivity|]. exists m, a0, a. auto.
Qed.

Lemma emit_shape self s3 :
  emit self = Ok s3 ->
  exists flow emissions,
    calc_total_emissions_flow self = Ok (flow, emissions) /\
    s3 = self <| individual_carbon_emissions_flow := flow |>
              <| behavioural_carbon_emissions := emissions |>.
Proof.
  unfold emit. intros H.
  destruct (calc_total_emissions_flow self) as [[flow em]|]; [|discriminate].
  cbn in H. inv_Ok H. eauto.
Qed.

Lemma save_shape self s' :
  save_timeseries_data_individual self = Ok s' ->
  exists lta,
    values self = Vec (atleast_1d (values self)) /\
    attitudes self = Vec (atleast_1d (attitudes self)) /\
    thresholds self = Vec (atleast_1d (thresholds self)) /\
    TA self = Ok (Vec lta) /\
    s' = logged self (atleast_1d (values self)) (atleast_1d (attitudes self))
                (atleast_1d (thresholds self)) lta.
Proof.
  unfold save_timeseries_data_individual. intros H.
  do 5 inv_bind H. inv_Ok H.
  destruct (values self) as [|lv]; cbn in E; [discriminate|]. inv_Ok E.
  destruct (attitudes self) as [|la]; cbn in E0; [discriminate|]. inv_Ok E0.
  destruct (thresholds self) as [|lt]; cbn in E1; [discriminate|]. inv_Ok E1.
  destruct a2 as [|lta]; cbn in E3; [discriminate|]. inv_Ok E3.
  exists a3. auto.
Qed.

Lemma save_branch_shape self s' :
  save_branch self = Ok s' ->
  s' = self \/
  exists lv la lt lta, s' = logged self lv la lt lta.
Proof.
  unfold save_branch. intros H.
  destruct (save_timeseries_data self); [|inv_Ok H; auto].
  inv_bind H. destruct a; [|inv_Ok H; auto].
  apply save_shape in H. destruct H as (lta & _ & _ & _ & _ & ->).
  right. eauto.
Qed.

(* ================================================================= *)
(** ** Lists of rationals *)

Lemma mapM_length {A B : Type} (f : A -> res B) (l : list A) (r : list B) :
  mapM f l = Ok r -> length r = length l.
Proof.
  revert r. induction l as [|a l IH]; cbn; intros r H.
  - inv_Ok H. reflexivity.
  - inv_bind H. inv_bind H. inv_Ok H. cbn. f_equal. auto.
Qed.

Lemma mapM_nth {A B : Type} (f : A -> res B) (l : list A) (r : list B) :
  mapM f l = Ok r ->
  forall i a, nth_error l i = Some a ->
  exists b, f a = Ok b /\ nth_error r i = Some b.
Proof.
  revert r. induction l as [|a l IH]; cbn; intros r H i x Hi.
  - destruct i; discriminate.
  - inv_bind H. inv_bind H. inv_Ok H.
    destruct i as [|i]; cbn in *.
    + inv_Ok Hi. eauto.
    + eauto.
Qed.

Lemma nth_error_seq0 (n i : nat) : (i < n)%nat -> nth_error (seq 0 n) i = Some i.
Proof.
  intros H. rewrite nth_error_nth' with (d := 0%nat) by (rewrite length_seq; lia).
  rewrite seq_nth by lia. reflexivity.
Qed.

Lemma calc_total_emissions_flow_spec self flow emissions :
  calc_total_emissions_flow self = Ok (flow, emissions) ->
  length emissions = M self /\
  (forall i, (i < M self)%nat ->
     exists v, getitem (values self) i = Ok v /\
               nth_error emissions i = Some ((1 - v) / 2)) /\
  flow = sum emissions.
Proof.
  unfold calc_total_emissions_flow. intros H. inv_bind H. inv_Ok H.
  split; [|split].
  - apply mapM_length in E. rewrite length_seq in E. assumption.
  - intros i Hi.
    destruct (mapM_nth _ _ _ E i i (nth_error_seq0 _ _ Hi)) as (b & Hb & Hn).
    inv_bind Hb. inv_Ok Hb. eauto.
  - reflexivity.
Qed.

(* ================================================================= *)
(** ** Properties of one step *)

(** A step that succeeds went through its four phases. *)
Ltac phases H :=
  let s1 := fresh "s1" in
  let s2 := fresh "s2" in
  let s3 := fresh "s3" in
  let L := fresh "Hlearn" in
  let B := fresh "Hmode" in
  let E := fresh "Hemit" in
  apply next_step_inv in H; destruct H as (s1 & s2 & s3 & L & B & E & H).

(** C6: after every step, in either mode, the per-behaviour emissions are
    [(1 - values[i]) / 2] for each of the [M] behaviours and the emissions
    flow is their sum; both are computed from the values of this step. *)
Theorem C6_emissions_follow_values self g t' social_component TA_component self' g' :
  next_step self g t' social_component TA_component = Ok (self', g') ->
  length (behavioural_carbon_emissions self') = M self' /\
  (forall i, (i < M self')%nat ->
     exists v, getitem (values self') i = Ok v /\
               nth_error (behavioural_carbon_emissions self') i
               = Some ((1 - v) / 2)) /\
  individual_carbon_emissions_flow self' = sum (behavioural_carbon_emissions self').
Proof.
  intros H. phases H.
  apply emit_shape in Hemit. destruct Hemit as (flow & em & Hem & ->).
  apply calc_total_emissions_flow_spec in Hem.
  apply save_branch_shape in H.
  destruct H as [-> | (lv & la & lt & lta & ->)]; fields; exact Hem.
Qed.

(** C5: in behavioural_independence mode a step leaves the thresholds,
    the three threat-appraisal thresholds, av_behaviour, its window and
    the identity as they were. *)
Theorem C5_independence_frame self g t' social_component TA_component self' g' :
  is_independent self = true ->
  next_step self g t' social_component TA_component = Ok (self', g') ->
  thresholds self' = thresholds self /\
  thresholdspU self' = thresholdspU self /\
  thresholdspC self' = thresholdspC self /\
  thresholdspR self' = thresholdspR self /\
  av_behaviour self' = av_behaviour self /\
  av_behaviour_list self' = av_behaviour_list self /\
  identity self' = identity self.
Proof.
  intros Hmode H. phases H.
  destruct TA_component as [[cU cC] cR].
  apply learn_shape in Hlearn. destruct Hlearn as (v & a & u & c & r & -> & _).
  apply mode_branch_independent in Hmode0; [|exact Hmode].
  destruct Hmode0 as (_ & m & m' & star & _ & _ & _ & ->).
  apply emit_shape in Hemit. destruct Hemit as (flow & em & _ & ->).
  apply save_branch_shape in H.
  destruct H as [-> | (lv & la & lt & lta & ->)]; fields; repeat split; reflexivity.
Qed.

(** C4: each threshold update leaves what it assigns inside [0,1]
    whatever the state and the draws: [update_thresholds] the thresholds,
    [update_thresholdTA] the three threat-appraisal thresholds; after the
    two of them, and after the default-mode step that runs them, all four
    lie in [0,1]. *)
Theorem C4_thresholds_clipped self g :
  (forall s1 g1, update_thresholds self g = Ok (s1, g1) ->
     nd_in_range 0 1 (thresholds s1)) /\
  (nd_in_range 0 1 (thresholdspU (fst (update_thresholdTA self g))) /\
   nd_in_range 0 1 (thresholdspC (fst (update_thresholdTA self g))) /\
   nd_in_range 0 1 (thresholdspR (fst (update_thresholdTA self g)))) /\
  (forall s1 g1, update_thresholds self g = Ok (s1, g1) ->
     let s2 := fst (update_thresholdTA s1 g1) in
     nd_in_range 0 1 (thresholds s2) /\ nd_in_range 0 1 (thresholdspU s2) /\
     nd_in_range 0 1 (thresholdspC s2) /\ nd_in_range 0 1 (thresholdspR s2)) /\
  (forall t' social_component TA_component self' g',
     is_independent self = false ->
     next_step self g t' social_component TA_component = Ok (self', g') ->
     nd_in_range 0 1 (thresholds self') /\ nd_in_range 0 1 (thresholdspU self') /\
     nd_in_range 0 1 (thresholdspC self') /\ nd_in_range 0 1 (thresholdspR self')).
Proof.
  split; [|split; [|split]].
  - intros s1 g1 H. apply update_thresholds_shape in H. destruct H as (x & ->).
    fields. apply np_clip_range.
  - destruct (update_thresholdTA_shape self g) as (x & y & z & ->).
    fields. repeat split; apply np_clip_range.
  - intros s1 g1 H s2. subst s2.
    apply update_thresholds_shape in H. destruct H as (x & ->).
    destruct (update_thresholdTA_shape (self <| thresholds := np_clip (Vec x) 0 1 |>) g1)
      as (xU & xC & xR & ->).
    fields. repeat split; apply np_clip_range.
  - intros t' sc ta self' g' Hmode H. phases H.
    destruct ta as [[cU cC] cR].
    apply learn_shape in Hlearn. destruct Hlearn as (v & a & u & c & r & -> & _).
    apply mode_branch_default in Hmode0; [|exact Hmode].
    destruct Hmode0 as (x & xU & xC & xR & av & i & -> & _).
    apply emit_shape in Hemit. destruct Hemit as (flow & em & _ & ->).
    apply save_branch_shape in H.
    destruct H as [-> | (lv & la & lt & lta & ->)]; fields;
      repeat split; apply np_clip_range.
Qed.

(* ================================================================= *)
(** ** The social-learning update *)

Lemma map2_length (f : Q -> Q -> Q) (l1 l2 : list Q) :
  length l1 = length l2 -> length (map2 f l1 l2) = length l1.
Proof.
  revert l2. induction l1 as [|a l1 IH]; intros [|b l2]; cbn; intros H;
    try discriminate; [reflexivity|]. f_equal. apply IH. lia.
Qed.

Lemma broadcast2_same_length (f : Q -> Q -> Q) (l1 l2 : list Q) :
  length l1 = length l2 ->
  broadcast2 f (Vec l1) (Vec l2) = Ok (Vec (map2 f l1 l2)).
Proof.
  intros H. unfold broadcast2. rewrite H, Nat.eqb_refl. reflexivity.
Qed.

Lemma social_learning_same_length (lp la lc : list Q) :
  length la = length lp -> length lc = length lp ->
  social_learning (Vec lp) (Vec la) (Vec lc) =
  Ok (Vec (map2 Qplus (map2 Qmult (map (Qminus 1) lp) la) (map2 Qmult lp lc))).
Proof.
  intros Ha Hc. unfold social_learning, nd_mul, nd_add, scal_rsub, nd_map.
  rewrite broadcast2_same_length by (rewrite length_map; lia). cbn [bind].
  rewrite broadcast2_same_length by lia. cbn [bind].
  apply broadcast2_same_length.
  rewrite !map2_length; rewrite ?length_map; lia.
Qed.

Lemma all_one_replaces (lp la lc : list Q) :
  length la = length lp -> length lc = length lp ->
  Forall (fun p => p == 1) lp ->
  list_eqv (map2 Qplus (map2 Qmult (map (Qminus 1) lp) la) (map2 Qmult lp lc)) lc.
Proof.
  revert la lc. induction lp as [|p lp IH]; intros [|a la] [|c lc] Ha Hc Hp;
    try discriminate; cbn.
  - constructor.
  - inversion Hp as [|? ? Hp1 Hps]; subst.
    constructor.
    + rewrite Hp1. ring.
    + apply IH; [cbn in Ha; lia | cbn in Hc; lia | assumption].
Qed.

(** Nothing after the learning phase assigns the attitudes. *)
Lemma next_step_attitudes self g t' social_component TA_component self' g' :
  next_step self g t' social_component TA_component = Ok (self', g') ->
  social_learning (phi_array self) (attitudes self) social_component
  = Ok (attitudes self').
Proof.
  intros H. phases H. destruct TA_component as [[cU cC] cR].
  apply learn_shape in Hlearn. destruct Hlearn as (v & a & u & c & r & -> & Ha).
  rewrite Ha. f_equal.
  apply emit_shape in Hemit. destruct Hemit as (flow & em & _ & ->).
  apply save_branch_shape in H.
  destruct (is_independent
              (self <| t := t' |> <| values := v |> <| attitudes := a |>
                    <| pU := u |> <| pC := c |> <| pR := r |>)) eqn:Hm.
  - apply mode_branch_independent in Hmode; [|exact Hm].
    destruct Hmode as (_ & m & m' & star & _ & _ & _ & ->).
    destruct H as [-> | (lv & la & lt & lta & ->)]; reflexivity.
  - apply mode_branch_default in Hmode; [|exact Hm].
    destruct Hmode as (x & xU & xC & xR & av & i & -> & _).
    destruct H as [-> | (lv & la & lt & lta & ->)]; reflexivity.
Qed.

(** C8: with an all-one phi_array the social-learning update replaces
    the attitudes by the supplied social_component, whatever they were,
    and so they stand after the step. *)
Theorem C8_all_one_phi_replaces_attitudes self (lp la lc : list Q) :
  phi_array self = Vec lp ->
  Forall (fun p => p == 1) lp ->
  attitudes self = Vec la ->
  length la = length lp ->
  length lc = length lp ->
  (exists s1, update_attitudes self (Vec lc) = Ok s1 /\
              nd_eqv (attitudes s1) (Vec lc)) /\
  (forall g t' TA_component self' g',
     next_step self g t' (Vec lc) TA_component = Ok (self', g') ->
     nd_eqv (attitudes self') (Vec lc)).
Proof.
  intros Hphi Hone Hatt Ha Hc.
  pose proof (social_learning_same_length lp la lc Ha Hc) as Hs.
  pose proof (all_one_replaces lp la lc Ha Hc Hone) as Heq.
  split.
  - unfold update_attitudes. rewrite Hphi, Hatt, Hs. cbn [bind].
    eexists. split; [reflexivity|]. fields. exact Heq.
  - intros g t' ta self' g' H.
    apply next_step_attitudes in H. rewrite Hphi, Hatt, Hs in H.
    inv_Ok H. rewrite <- H. exact Heq.
Qed.

(* ================================================================= *)
(** ** Discounted sums are convex combinations *)

Lemma fold_left_Qplus_acc (l : list Q) (a : Q) :
  fold_left Qplus l a == a + sum l.
Proof.
  unfold sum. revert a. induction l as [|x l IH]; intros a; cbn.
  - ring.
  - rewrite (IH (a + x)), (IH (0 + x)). ring.
Qed.

Lemma sum_cons (x : Q) (l : list Q) : sum (x :: l) == x + sum l.
Proof.
  unfold sum at 1. cbn. rewrite fold_left_Qplus_acc. ring.
Qed.








Lemma matmul_vv_Ok (v w : list Q) (r : Q) :
  matmul_vv v w = Ok r -> length v = length w /\ r = dot v w.
Proof.
  unfold matmul_vv. destruct (Nat.eqb_spec (length v) (length w)); intros H;
    [inv_Ok H; auto | discriminate].
Qed.

Lemma matmul_vm_Ok (v : list Q) (m : matrix) (r : list Q) :
  matmul_vm v m = Ok r ->
  length v = length (rows m) /\
  r = map (fun j => dot v (column m j)) (seq 0 (ncols m)).
Proof.
  unfold matmul_vm. destruct (Nat.eqb_spec (length v) (length (rows m)));
    intros H; [inv_Ok H; auto | discriminate].
Qed.



(* ================================================================= *)
(** ** The sliding window of av_behaviour *)

Lemma init_inv individual_params init_data_attitudes init_data_thresholds
    ndv ci init_data_pU init_data_pC init_data_pR
    init_data_thresholdspU init_data_thresholdspC init_data_thresholdspR id_n self :
  __init__ individual_params init_data_attitudes init_data_thresholds ndv ci
    init_data_pU init_data_pC init_data_pR
    init_data_thresholdspU init_data_thresholdspC init_data_thresholdspR id_n
  = Ok self ->
  av_behaviour_list self = repeat (av_behaviour self) ci /\
  cultural_inertia self = ci /\
  normalized_discount_vector self = ndv /\
  alpha_change self = Params.alpha_change individual_params /\
  M self = Params.M individual_params /\
  attitudes self = init_data_attitudes /\
  thresholds self = init_data_thresholds /\
  nd_sub init_data_attitudes init_data_thresholds = Ok (values self) /\
  matmul_vv ndv (repeat (av_behaviour self) ci) = Ok (identity self).
Proof.
  unfold __init__. intros H.
  inv_bind H. inv_bind H.
  assert (Hs : exists am st,
             a0 = (blank individual_params init_data_attitudes init_data_thresholds
                     ndv ci init_data_pU init_data_pC init_data_pR
                     init_data_thresholdspU init_data_thresholdspC
                     init_data_thresholdspR id_n a)
                  <| attitudes_matrix := am |> <| attitudes_star := st |>).
  { destruct (is_independent _).
    - inv_bind E0. inv_Ok E0. eauto.
    - inv_Ok E0. exists None, None. reflexivity. }
  destruct Hs as (am & st & ->). clear E0.
  inv_bind H. inv_bind H. inv_bind H.
  destruct (calc_total_emissions_flow _) as [[flow em]|] eqn:Eem; [|discriminate].
  cbn [bind] in H. unfold calc_identity in E2. unfold blank in *. fields.
  destruct (Params.save_timeseries_data individual_params).
  - do 5 inv_bind H. inv_Ok H. fields. repeat split; assumption.
  - inv_Ok H. fields. repeat split; assumption.
Qed.

Lemma next_step_constants self g t' social_component TA_component self' g' :
  next_step self g t' social_component TA_component = Ok (self', g') ->
  alpha_change self' = alpha_change self /\
  cultural_inertia self' = cultural_inertia self /\
  normalized_discount_vector self' = normalized_discount_vector self /\
  phi_array self' = phi_array self /\
  M self' = M self.
Proof.
  intros H. phases H. destruct TA_component as [[cU cC] cR].
  apply learn_shape in Hlearn. destruct Hlearn as (v & a & u & c & r & -> & _).
  apply emit_shape in Hemit. destruct Hemit as (flow & em & _ & ->).
  apply save_branch_shape in H.
  destruct (is_independent
              (self <| t := t' |> <| values := v |> <| attitudes := a |>
                    <| pU := u |> <| pC := c |> <| pR := r |>)) eqn:Hm.
  - apply mode_branch_independent in Hmode; [|exact Hm].
    destruct Hmode as (_ & m & m' & star & _ & _ & _ & ->).
    destruct H as [-> | (lv & la & lt & lta & ->)]; repeat split; reflexivity.
  - apply mode_branch_default in Hmode; [|exact Hm].
    destruct Hmode as (x & xU & xC & xR & av & i & -> & _).
    destruct H as [-> | (lv & la & lt & lta & ->)]; repeat split; reflexivity.
Qed.

Lemma next_step_mode self g t' social_component TA_component self' g' :
  next_step self g t' social_component TA_component = Ok (self', g') ->
  is_independent self' = is_independent self.
Proof.
  intros H. apply next_step_constants in H. destruct H as (Ha & _).
  unfold is_independent. rewrite Ha. reflexivity.
Qed.

(** A default-mode step pops the last entry of the window and inserts
    the av_behaviour it has just computed at index 0. *)
Lemma next_step_slides self g t' social_component TA_component self' g' :
  is_independent self = false ->
  next_step self g t' social_component TA_component = Ok (self', g') ->
  av_behaviour_list self <> [] /\
  av_behaviour_list self' = av_behaviour self' :: removelast (av_behaviour_list self).
Proof.
  intros Hmode H. phases H. destruct TA_component as [[cU cC] cR].
  apply learn_shape in Hlearn. destruct Hlearn as (v & a & u & c & r & -> & _).
  apply mode_branch_default in Hmode0; [|exact Hmode].
  destruct Hmode0 as (x & xU & xC & xR & av & i & -> & Hne & _).
  apply emit_shape in Hemit. destruct Hemit as (flow & em & _ & ->).
  apply save_branch_shape in H.
  destruct H as [-> | (lv & la & lt & lta & ->)]; fields; split;
    solve [assumption | reflexivity].
Qed.

Lemma length_slide (x : Q) (l : list Q) :
  l <> [] -> length (x :: removelast l) = length l.
Proof.
  intros H. cbn. rewrite removelast_firstn_len, length_firstn.
  destruct l; [contradiction | cbn; lia].
Qed.

Lemma firstn_app_removelast (p l : list Q) :
  p <> [] ->
  firstn (length l) (p ++ removelast l) = firstn (length l) (p ++ l).
Proof.
  intros Hp. rewrite !firstn_app. f_equal.
  destruct p as [|y p]; [contradiction|].
  destruct l as [|z l]; [reflexivity|].
  apply firstn_removelast. cbn. lia.
Qed.

Lemma last_cons {A : Type} (x : A) (l : list A) (d : A) :
  last (x :: l) d = last l x.
Proof.
  revert x d. induction l as [|y l IH]; intros x d; [reflexivity|].
  change (last (x :: y :: l) d) with (last (y :: l) d).
  rewrite (IH y d), (IH y x). reflexivity.
Qed.

Lemma simulate_length self g inputs trace :
  simulate self g inputs = Ok trace -> length trace = length inputs.
Proof.
  revert self g trace. induction inputs as [|i rest IH]; intros self g trace H; cbn in H.
  - inv_Ok H. reflexivity.
  - destruct (next_step _ _ _ _ _) as [[s1 g1]|]; [|discriminate]. cbn [bind] in H.
    inv_bind H. inv_Ok H. cbn. f_equal. eauto.
Qed.

(** After any number of default-mode steps the window is the front of
    the list of av_behaviour values the steps computed, latest first,
    followed by what the window held before. *)
Lemma simulate_window self g inputs trace :
  is_independent self = false ->
  simulate self g inputs = Ok trace ->
  av_behaviour_list (last trace self) =
  firstn (length (av_behaviour_list self))
         (rev (map av_behaviour trace) ++ av_behaviour_list self).
Proof.
  revert self g trace. induction inputs as [|i rest IH]; intros self g trace Hm H;
    cbn [simulate] in H.
  - inv_Ok H. cbn. symmetry. apply firstn_all.
  - destruct (next_step _ _ _ _ _) as [[s1 g1]|] eqn:E1; [|discriminate].
    cbn [bind] in H. inv_bind H. inv_Ok H.
    pose proof (next_step_mode _ _ _ _ _ _ _ E1) as Hm1. rewrite Hm in Hm1.
    destruct (next_step_slides _ _ _ _ _ _ _ Hm E1) as [Hne Hs].
    rewrite last_cons, (IH _ _ _ Hm1 E), Hs, (length_slide _ _ Hne).
    cbn [map rev]. rewrite <- app_assoc. cbn [app].
    change (av_behaviour s1 :: removelast (av_behaviour_list self))
      with ([av_behaviour s1] ++ removelast (av_behaviour_list self)).
    change (av_behaviour s1 :: av_behaviour_list self)
      with ([av_behaviour s1] ++ av_behaviour_list self).
    rewrite !app_assoc. apply firstn_app_removelast.
    intros Habs. apply app_eq_nil in Habs. destruct Habs as [_ Habs]. discriminate.
Qed.

(** C7: the window av_behaviour_list has length cultural_inertia after
    construction; every step keeps its length (a default-mode step
    removes the last entry and inserts the new av_behaviour at index 0);
    and after N >= cultural_inertia default-mode steps the window holds
    exactly the av_behaviour values of the last cultural_inertia steps,
    latest first, so that no bootstrap entry is left. *)
Theorem C7_window_length_and_eviction :
  (forall individual_params init_data_attitudes init_data_thresholds
          ndv ci init_data_pU init_data_pC init_data_pR
          init_data_thresholdspU init_data_thresholdspC init_data_thresholdspR
          id_n self,
     __init__ individual_params init_data_attitudes init_data_thresholds ndv ci
       init_data_pU init_data_pC init_data_pR
       init_data_thresholdspU init_data_thresholdspC init_data_thresholdspR id_n
     = Ok self ->
     length (av_behaviour_list self) = cultural_inertia self /\
     av_behaviour_list self = repeat (av_behaviour self) (cultural_inertia self)) /\
  (forall self g t' social_component TA_component self' g',
     next_step self g t' social_component TA_component = Ok (self', g') ->
     length (av_behaviour_list self') = length (av_behaviour_list self) /\
     cultural_inertia self' = cultural_inertia self /\
     (is_independent self = false ->
      av_behaviour_list self' =
      av_behaviour self' :: removelast (av_behaviour_list self))) /\
  (forall self g inputs trace,
     is_independent self = false ->
     simulate self g inputs = Ok trace ->
     (length (av_behaviour_list self) <= length inputs)%nat ->
     av_behaviour_list (last trace self) =
     firstn (length (av_behaviour_list self)) (rev (map av_behaviour trace))).
Proof.
  split; [|split].
  - intros until self. intros H. apply init_inv in H.
    destruct H as (Hl & Hc & _). rewrite Hc, Hl, repeat_length. auto.
  - intros self g t' sc ta self' g' H.
    pose proof (next_step_constants _ _ _ _ _ _ _ H) as (_ & Hc & _).
    split; [|split; [exact Hc|]].
    + destruct (is_independent self) eqn:Hm.
      * phases H. destruct ta as [[cU cC] cR].
        apply learn_shape in Hlearn. destruct Hlearn as (v & a & u & c & r & -> & _).
        apply mode_branch_independent in Hmode; [|exact Hm].
        destruct Hmode as (_ & m & m' & star & _ & _ & _ & ->).
        apply emit_shape in Hemit. destruct Hemit as (flow & em & _ & ->).
        apply save_branch_shape in H.
        destruct H as [-> | (lv & la & lt & lta & ->)]; reflexivity.
      * destruct (next_step_slides _ _ _ _ _ _ _ Hm H) as [Hne ->].
        apply length_slide. exact Hne.
    + intros Hm. apply (next_step_slides _ _ _ _ _ _ _ Hm H).
  - intros self g inputs trace Hm H Hn.
    rewrite (simulate_window _ _ _ _ Hm H), firstn_app.
    apply simulate_length in H.
    replace (length (av_behaviour_list self)
             - length (rev (map av_behaviour trace)))%nat with 0%nat
      by (rewrite length_rev, length_map; lia).
    cbn [firstn]. apply app_nil_r.
Qed.

(* ================================================================= *)
(** ** Telemetry *)

Lemma save_branch_succeeds self (lv la lt lta : list Q) :
  (save_timeseries_data self = true -> compression_factor self <> 0%Z) ->
  values self = Vec lv ->
  attitudes self = Vec la ->
  thresholds self = Vec lt ->
  TA self = Ok (Vec lta) ->
  save_branch self = Ok self \/
  save_branch self = Ok (logged self lv la lt lta).
Proof.
  intros Hcf Hv Ha Ht HTA. unfold save_branch.
  destruct (save_timeseries_data self); [|left; reflexivity].
  unfold on_stride. destruct (Z.eqb_spec (compression_factor self) 0) as [E|_].
  - exfalso. apply Hcf; [reflexivity | exact E].
  - cbn [bind]. destruct (Z.eqb _ 0); [|left; reflexivity].
    right. unfold save_timeseries_data_individual.
    rewrite Hv, Ha, Ht, HTA. reflexivity.
Qed.

(* ================================================================= *)
(** ** A default-mode step on well-shaped data succeeds *)

Lemma mode_branch_default_succeeds self g (lt la : list Q) (a : Q) :
  is_independent self = false ->
  thresholds self = Vec lt ->
  attitudes self = Vec (a :: la) ->
  av_behaviour_list self <> [] ->
  length (normalized_discount_vector self) = length (av_behaviour_list self) ->
  exists s2 g', mode_branch self g = Ok (s2, g').
Proof.
  intros Hm Ht Ha Hne Hlen. unfold mode_branch. rewrite Hm.
  unfold update_thresholds. rewrite Ht. cbn [len bind].
  unfold rng_normal.
  rewrite (broadcast2_same_length Qplus lt) by (rewrite length_map, length_seq; reflexivity).
  cbn [bind].
  match goal with
  | |- context [update_thresholdTA ?s ?g1] =>
      destruct (update_thresholdTA_shape s g1) as (xU & xC & xR & E);
      destruct (update_thresholdTA s g1) as [s1 g2]
  end.
  cbn [fst] in E. subst s1.
  unfold calc_av_behaviour. fields. rewrite Ha. cbn [scal_rsub nd_square nd_map map np_mean bind].
  unfold update_av_behaviour_list. fields. unfold list_pop.
  destruct (av_behaviour_list self) as [|y l] eqn:El; [contradiction|].
  cbn [bind]. unfold calc_identity, matmul_vv, list_insert0. fields.
  rewrite Hlen, length_slide by discriminate.
  rewrite Nat.eqb_refl. cbn [bind]. eauto.
Qed.

(* ================================================================= *)
(** ** The history logs *)

(** No step appends to history_thresholdsTA: the constructor starts that
    log, [save_timeseries_data_individual] has no line for it. *)
Lemma next_step_keeps_thresholdsTA_log
    self g t' social_component TA_component self' g' :
  next_step self g t' social_component TA_component = Ok (self', g') ->
  history_thresholdsTA self' = history_thresholdsTA self.
Proof.
  intros H. phases H. destruct TA_component as [[cU cC] cR].
  apply learn_shape in Hlearn. destruct Hlearn as (v & a & u & c & r & -> & _).
  apply emit_shape in Hemit. destruct Hemit as (flow & em & _ & ->).
  apply save_branch_shape in H.
  destruct (is_independent
              (self <| t := t' |> <| values := v |> <| attitudes := a |>
                    <| pU := u |> <| pC := c |> <| pR := r |>)) eqn:Hm.
  - apply mode_branch_independent in Hmode; [|exact Hm].
    destruct Hmode as (_ & m & m' & star & _ & _ & _ & ->).
    destruct H as [-> | (lv & la & lt & lta & ->)]; reflexivity.
  - apply mode_branch_default in Hmode; [|exact Hm].
    destruct Hmode as (x & xU & xC & xR & av & i & -> & _).
    destruct H as [-> | (lv & la & lt & lta & ->)]; reflexivity.
Qed.

(** C3 (the code departs from it): the scenario agent with telemetry on
    and compression_factor = 1 takes one step at t = 1.  Eight logs hold
    two entries afterwards, the construction-time one and the one of
    this step; history_thresholdsTA still holds the construction-time
    entry alone. *)
Example C3_thresholdsTA_log_not_extended :
  next_step default_agent sample_rng 1 (Vec [0.0]) zero_TA_component
  = Ok default_agent_1 /\
  save_timeseries_data (fst default_agent_1) = true /\
  (t (fst default_agent_1) mod compression_factor (fst default_agent_1) = 0)%Z /\
  length (history_behaviour_values (fst default_agent_1)) = 2%nat /\
  length (history_behaviour_attitudes (fst default_agent_1)) = 2%nat /\
  length (history_behaviour_thresholds (fst default_agent_1)) = 2%nat /\
  length (history_TA (fst default_agent_1)) = 2%nat /\
  length (history_av_behaviour (fst default_agent_1)) = 2%nat /\
  length (history_identity (fst default_agent_1)) = 2%nat /\
  length (history_individual_carbon_emissions_flow (fst default_agent_1)) = 2%nat /\
  length (history_behavioural_carbon_emissions (fst default_agent_1)) = 2%nat /\
  length (history_thresholdsTA default_agent) = 1%nat /\
  length (history_thresholdsTA (fst default_agent_1)) = 1%nat.
Proof.
  repeat apply conj; vm_compute; reflexivity.
Qed.

(** X4: on a retained time step the other eight logs gain one entry each,
    holding the value the attribute has when the step returns. *)
Lemma next_step_appends_eight_logs
    self g t' social_component TA_component self' g' :
  save_timeseries_data self = true ->
  (t' mod compression_factor self = 0)%Z ->
  next_step self g t' social_component TA_component = Ok (self', g') ->
  history_behaviour_values self'
    = history_behaviour_values self ++ [atleast_1d (values self')] /\
  history_behaviour_attitudes self'
    = history_behaviour_attitudes self ++ [atleast_1d (attitudes self')] /\
  history_behaviour_thresholds self'
    = history_behaviour_thresholds self ++ [atleast_1d (thresholds self')] /\
  (exists lta, TA self' = Ok (Vec lta) /\
               history_TA self' = history_TA self ++ [Vec lta]) /\
  history_identity self' = history_identity self ++ [identity self'] /\
  history_av_behaviour self' = history_av_behaviour self ++ [av_behaviour self'] /\
  history_individual_carbon_emissions_flow self'
    = history_individual_carbon_emissions_flow self
        ++ [individual_carbon_emissions_flow self'] /\
  history_behavioural_carbon_emissions self'
    = history_behavioural_carbon_emissions self
        ++ [behavioural_carbon_emissions self'].
Proof.
  intros Hsave Hstride H. phases H. destruct TA_component as [[cU cC] cR].
  apply learn_shape in Hlearn. destruct Hlearn as (v & a & u & c & r & -> & _).
  apply emit_shape in Hemit. destruct Hemit as (flow & em & _ & ->).
  assert (Hlog : forall s2,
            save_timeseries_data s2 = true -> t s2 = t' ->
            compression_factor s2 = compression_factor self ->
            save_branch s2 = Ok self' ->
            exists lta,
              TA s2 = Ok (Vec lta) /\
              self' = logged s2 (atleast_1d (values s2)) (atleast_1d (attitudes s2))
                        (atleast_1d (thresholds s2)) lta).
  { intros s Hs Ht Hc Hb. unfold save_branch, on_stride in Hb.
    rewrite Hs, Ht, Hc in Hb.
    destruct (Z.eqb (compression_factor self) 0); [discriminate|].
    cbn [bind] in Hb. rewrite Hstride in Hb. cbn [Z.eqb] in Hb.
    apply save_shape in Hb. destruct Hb as (lta & _ & _ & _ & HTA & ->). eauto. }
  destruct (is_independent
              (self <| t := t' |> <| values := v |> <| attitudes := a |>
                    <| pU := u |> <| pC := c |> <| pR := r |>)) eqn:Hm.
  - apply mode_branch_independent in Hmode; [|exact Hm].
    destruct Hmode as (_ & m & m' & star & _ & _ & _ & ->).
    apply Hlog in H; [|exact Hsave|reflexivity|reflexivity].
    destruct H as (lta & HTA & ->).
    repeat split; try reflexivity. exists lta.
    split; [unfold TA in *; unfold logged; fields; exact HTA | reflexivity].
  - apply mode_branch_default in Hmode; [|exact Hm].
    destruct Hmode as (x & xU & xC & xR & av & i & -> & _).
    apply Hlog in H; [|exact Hsave|reflexivity|reflexivity].
    destruct H as (lta & HTA & ->).
    repeat split; try reflexivity. exists lta.
    split; [unfold TA in *; unfold logged; fields; exact HTA | reflexivity].
Qed.

(* ================================================================= *)
(** ** Inputs of the wrong length *)

Lemma broadcast2_raises (f : Q -> Q -> Q) (l1 l2 : list Q) :
  length l1 <> 1%nat -> length l2 <> 1%nat -> length l1 <> length l2 ->
  broadcast2 f (Vec l1) (Vec l2) = Raise ValueError.
Proof.
  intros H1 H2 H. unfold broadcast2.
  destruct (Nat.eqb_spec (length l1) (length l2)) as [E|_]; [contradiction|].
  destruct l1 as [|x [|x' l1]], l2 as [|y [|y' l2]]; cbn in *;
    solve [reflexivity | contradiction | lia].
Qed.

Lemma social_learning_raises (lp lc : list Q) (old : ndarray) :
  length lp <> 1%nat -> length lc <> 1%nat -> length lc <> length lp ->
  raises (social_learning (Vec lp) old (Vec lc)).
Proof.
  intros H1 H2 H. unfold social_learning.
  apply raises_bind_r. intros a _. apply raises_bind_l.
  exists ValueError. apply broadcast2_raises; auto.
Qed.

Lemma mapM_raises {A B : Type} (f : A -> res B) (l : list A) (a : A) :
  In a l -> raises (f a) -> raises (mapM f l).
Proof.
  intros Hin Hr. induction l as [|a0 l IH]; [contradiction|].
  cbn [mapM]. destruct Hin as [-> | Hin].
  - apply raises_bind_l. exact Hr.
  - apply raises_bind_r. intros b _. apply raises_bind_l. auto.
Qed.

Lemma learn_raises self t' social_component cU cC cR (lp lc : list Q) :
  phi_array self = Vec lp ->
  length lp <> 1%nat -> length lc <> 1%nat -> length lc <> length lp ->
  social_component = Vec lc \/ cU = Vec lc \/ cC = Vec lc \/ cR = Vec lc ->
  raises (learn self t' social_component (cU, cC, cR)).
Proof.
  intros Hphi H1 H2 H Hin. unfold learn.
  apply raises_bind_r. intros s1 E1.
  apply update_values_shape in E1. destruct E1 as (xv & ->).
  assert (Ha : social_component = Vec lc ->
               raises (update_attitudes
                         (self <| t := t' |> <| values := xv |>) social_component)).
  { intros ->. unfold update_attitudes. apply raises_bind_l. fields.
    rewrite Hphi. apply social_learning_raises; assumption. }
  destruct Hin as [Hin | Hin]; [apply raises_bind_l; auto|].
  apply raises_bind_r. intros s2 E2.
  apply update_attitudes_shape in E2. destruct E2 as (xa & -> & _).
  assert (HU : cU = Vec lc ->
               raises (update_pU
                         (self <| t := t' |> <| values := xv |> <| attitudes := xa |>)
                         cU)).
  { intros ->. unfold update_pU. apply raises_bind_l. fields.
    rewrite Hphi. apply social_learning_raises; assumption. }
  destruct Hin as [Hin | Hin]; [apply raises_bind_l; auto|].
  apply raises_bind_r. intros s3 E3.
  apply update_pU_shape in E3. destruct E3 as (xu & -> & _).
  assert (HC : cC = Vec lc ->
               raises (update_pC
                         (self <| t := t' |> <| values := xv |> <| attitudes := xa |>
                               <| pU := xu |>) cC)).
  { intros ->. unfold update_pC. apply raises_bind_l. fields.
    rewrite Hphi. apply social_learning_raises; assumption. }
  destruct Hin as [Hin | Hin]; [apply raises_bind_l; auto|].
  apply raises_bind_r. intros s4 E4.
  apply update_pC_shape in E4. destruct E4 as (xc & -> & _).
  subst cR. unfold update_pR. apply raises_bind_l. fields.
  rewrite Hphi. apply social_learning_raises; assumption.
Qed.

(** What the constructor has built once the mode conditional is past. *)
Lemma init_mode_conditional (s0 s : Individual) ci :
  (if is_independent s0 then
     let self := s0 <| attitudes_matrix := Some (np_tile (attitudes s0) ci) |> in
     star <- calc_attitudes_star self ;;
     Ok (self <| attitudes_star := Some star |>)
   else Ok s0) = Ok s ->
  (exists am st, s = s0 <| attitudes_matrix := am |> <| attitudes_star := st |>) /\
  (is_independent s0 = true ->
   exists star,
     matmul_vm (normalized_discount_vector s0) (np_tile (attitudes s0) ci) = Ok star).
Proof.
  destruct (is_independent s0); cbn zeta; intros H.
  - inv_bind H. inv_Ok H. unfold calc_attitudes_star in E. fields.
    split; [eauto | intros _; eauto].
  - injection H as H. subst s. split; [|discriminate].
    exists (attitudes_matrix s0), (attitudes_star s0). destruct s0; reflexivity.
Qed.

(** The constructor's computation reaches the mode conditional with the
    attributes it was given, and from there on only adds to them. *)
Ltac init_past_mode s Hs :=
  unfold __init__;
  apply raises_bind_r; intros ? _;
  apply raises_bind_r; intros s Hs;
  apply init_mode_conditional in Hs.

(** C9, as the code has it: numpy rejects an operand only when it cannot
    be broadcast.  A step raises when social_component or an element of
    TA_component is a 1-d array whose length is neither 1 nor that of
    phi_array (itself not of length 1).  The constructor raises when the
    initial attitudes and thresholds have different lengths, neither of
    them 1; when they have the same length, smaller than M; and whenever
    the discount vector's length differs from cultural_inertia. *)
Theorem C9_unbroadcastable_inputs_raise :
  (forall self g t' social_component cU cC cR (lp lc : list Q),
     phi_array self = Vec lp ->
     length lp <> 1%nat -> length lc <> 1%nat -> length lc <> length lp ->
     social_component = Vec lc \/ cU = Vec lc \/ cC = Vec lc \/ cR = Vec lc ->
     raises (next_step self g t' social_component (cU, cC, cR))) /\
  (forall individual_params (la lt : list Q) ndv ci iU iC iR itU itC itR id_n,
     length la <> 1%nat -> length lt <> 1%nat -> length la <> length lt ->
     raises (__init__ individual_params (Vec la) (Vec lt) ndv ci
               iU iC iR itU itC itR id_n)) /\
  (forall individual_params (la lt : list Q) ndv ci iU iC iR itU itC itR id_n,
     length la = length lt ->
     (length la < Params.M individual_params)%nat ->
     raises (__init__ individual_params (Vec la) (Vec lt) ndv ci
               iU iC iR itU itC itR id_n)) /\
  (forall individual_params init_data_attitudes init_data_thresholds
          ndv ci iU iC iR itU itC itR id_n,
     length ndv <> ci ->
     raises (__init__ individual_params init_data_attitudes init_data_thresholds
               ndv ci iU iC iR itU itC itR id_n)).
Proof.
  split; [|split; [|split]].
  - intros self g t' sc cU cC cR lp lc Hphi H1 H2 H Hin.
    rewrite next_step_unfold. apply raises_bind_l.
    apply (learn_raises self t' sc cU cC cR lp lc); assumption.
  - intros p la lt ndv ci iU iC iR itU itC itR id_n H1 H2 H.
    init_past_mode s Hs. destruct Hs as ((am & st & ->) & _).
    apply raises_bind_l. unfold blank. fields.
    exists ValueError. apply broadcast2_raises; assumption.
  - intros p la lt ndv ci iU iC iR itU itC itR id_n Hlen HM.
    init_past_mode s Hs. destruct Hs as ((am & st & ->) & _).
    unfold blank. fields.
    unfold nd_sub. rewrite (broadcast2_same_length _ _ _ Hlen). cbn [bind].
    apply raises_bind_r. intros av _.
    apply raises_bind_r. intros i _.
    apply raises_bind_l. unfold calc_total_emissions_flow. fields.
    apply raises_bind_l.
    apply (mapM_raises _ _ (length la)).
    + apply in_seq. lia.
    + apply raises_bind_l. unfold getitem.
      replace (nth_error (map2 Qminus la lt) (length la)) with (@None Q);
        [exists IndexError; reflexivity|].
      symmetry. apply nth_error_None. rewrite map2_length by exact Hlen. lia.
  - intros p att th ndv ci iU iC iR itU itC itR id_n Hlen.
    init_past_mode s Hs. destruct Hs as ((am & st & ->) & Hind).
    destruct (is_independent _) eqn:Hm.
    + destruct (Hind eq_refl) as (star & Hstar).
      apply matmul_vm_Ok in Hstar. destruct Hstar as [Hrows _].
      unfold blank, np_tile in Hrows. fields. cbn [rows] in Hrows.
      rewrite repeat_length in Hrows. contradiction.
    + unfold blank. fields.
      apply raises_bind_r. intros v _.
      apply raises_bind_r. intros av _.
      apply raises_bind_l. unfold calc_identity, matmul_vv. fields.
      rewrite repeat_length.
      destruct (Nat.eqb_spec (length ndv) ci) as [E|_]; [contradiction|].
      exists ValueError. reflexivity.
Qed.

(** C9 as stated fails: a social_component of length 1 given to an
    agent with three behaviours raises nothing and is stretched over
    the three attitudes; five initial draws given to a constructor told
    M = 3 raise nothing either, and emissions are computed for the
    first three only. *)
Lemma C9_short_and_long_inputs_accepted :
  M three_agent = 3%nat /\
  next_step three_agent sample_rng 1 (Vec [0.9]) zero3_TA_component
  = Ok three_agent_short_input /\
  nd_eqv (attitudes (fst three_agent_short_input)) (Vec [0.5; 0.55; 0.6]) /\
  __init__ three_params (Vec [0.1; 0.2; 0.3; 0.4; 0.5])
    (Vec [0.5; 0.5; 0.5; 0.5; 0.5])
    [0.75; 0.25] 2%nat (Scalar 0) (Scalar 0) (Scalar 0)
    (Scalar 0) (Scalar 0) (Scalar 0) 3
  = Ok three_agent_long_draws /\
  length (atleast_1d (values three_agent_long_draws)) = 5%nat /\
  length (behavioural_carbon_emissions three_agent_long_draws) = 3%nat.
Proof.
  repeat apply conj; try (vm_compute; reflexivity).
  cbn. repeat constructor; unfold Qeq; vm_compute; reflexivity.
Qed.

(* ================================================================= *)
(** ** The theorems at the sample agents *)

Ltac by_computation := vm_compute; reflexivity.


Lemma C4_thresholds_clipped_witness :
  update_thresholds default_agent sample_rng
  = Ok (fst default_agent_walk, snd default_agent_walk) /\
  nd_in_range 0 1 (thresholds (fst default_agent_walk)) /\
  is_independent default_agent = false /\
  next_step default_agent sample_rng 1 (Vec [0.0]) zero_TA_component
  = Ok (fst default_agent_1, snd default_agent_1) /\
  nd_in_range 0 1 (thresholds (fst default_agent_1)) /\
  nd_in_range 0 1 (thresholdspU (fst default_agent_1)) /\
  nd_in_range 0 1 (thresholdspC (fst default_agent_1)) /\
  nd_in_range 0 1 (thresholdspR (fst default_agent_1)).
Proof.
  assert (E1 : update_thresholds default_agent sample_rng
               = Ok (fst default_agent_walk, snd default_agent_walk))
    by by_computation.
  assert (Hm : is_independent default_agent = false) by by_computation.
  assert (E2 : next_step default_agent sample_rng 1 (Vec [0.0]) zero_TA_component
               = Ok (fst default_agent_1, snd default_agent_1))
    by by_computation.
  destruct (C4_thresholds_clipped default_agent sample_rng) as (H1 & _ & _ & H4).
  split; [exact E1|]. split; [exact (H1 _ _ E1)|]. split; [exact Hm|].
  split; [exact E2|]. exact (H4 _ _ _ _ _ Hm E2).
Defined.

Lemma C5_independence_frame_witness :
  is_independent independent_agent = true /\
  next_step independent_agent sample_rng 2 (Vec [1; 0])
    (Vec [0; 0], Vec [0; 0], Vec [0; 0])
  = Ok (fst independent_agent_1, snd independent_agent_1) /\
  thresholds (fst independent_agent_1) = thresholds independent_agent /\
  thresholdspU (fst independent_agent_1) = thresholdspU independent_agent /\
  thresholdspC (fst independent_agent_1) = thresholdspC independent_agent /\
  thresholdspR (fst independent_agent_1) = thresholdspR independent_agent /\
  av_behaviour (fst independent_agent_1) = av_behaviour independent_agent /\
  av_behaviour_list (fst independent_agent_1) = av_behaviour_list independent_agent /\
  identity (fst independent_agent_1) = identity independent_agent.
Proof.
  assert (Hm : is_independent independent_agent = true) by by_computation.
  assert (E : next_step independent_agent sample_rng 2 (Vec [1; 0])
                (Vec [0; 0], Vec [0; 0], Vec [0; 0])
              = Ok (fst independent_agent_1, snd independent_agent_1))
    by by_computation.
  split; [exact Hm|]. split; [exact E|].
  exact (C5_independence_frame _ _ _ _ _ _ _ Hm E).
Defined.

Lemma C6_emissions_follow_values_witness :
  next_step default_agent sample_rng 1 (Vec [0.0]) zero_TA_component
  = Ok (fst default_agent_1, snd default_agent_1) /\
  length (behavioural_carbon_emissions (fst default_agent_1))
  = M (fst default_agent_1) /\
  (forall i, (i < M (fst default_agent_1))%nat ->
     exists v, getitem (values (fst default_agent_1)) i = Ok v /\
               nth_error (behavioural_carbon_emissions (fst default_agent_1)) i
               = Some ((1 - v) / 2)) /\
  individual_carbon_emissions_flow (fst default_agent_1)
  = sum (behavioural_carbon_emissions (fst default_agent_1)).
Proof.
  assert (E : next_step default_agent sample_rng 1 (Vec [0.0]) zero_TA_component
              = Ok (fst default_agent_1, snd default_agent_1))
    by by_computation.
  split; [exact E|].
  exact (C6_emissions_follow_values _ _ _ _ _ _ _ E).
Defined.

Lemma C7_window_length_and_eviction_witness :
  __init__ three_params (Vec [0.1; 0.2; 0.3]) (Vec [0.5; 0.5; 0.5])
    [0.75; 0.25] 2%nat (Scalar 0) (Scalar 0) (Scalar 0)
    (Scalar 0) (Scalar 0) (Scalar 0) 3
  = Ok three_agent /\
  length (av_behaviour_list three_agent) = cultural_inertia three_agent /\
  next_step three_agent sample_rng 1 (Vec [0.9; 0.1; 0.5]) zero3_TA_component
  = Ok (fst three_agent_1, snd three_agent_1) /\
  length (av_behaviour_list (fst three_agent_1))
  = length (av_behaviour_list three_agent) /\
  is_independent three_agent = false /\
  simulate three_agent sample_rng three_inputs = Ok three_trace /\
  (length (av_behaviour_list three_agent) <= length three_inputs)%nat /\
  av_behaviour_list (last three_trace three_agent) =
  firstn (length (av_behaviour_list three_agent))
         (rev (map av_behaviour three_trace)).
Proof.
  assert (E0 : __init__ three_params (Vec [0.1; 0.2; 0.3]) (Vec [0.5; 0.5; 0.5])
                 [0.75; 0.25] 2%nat (Scalar 0) (Scalar 0) (Scalar 0)
                 (Scalar 0) (Scalar 0) (Scalar 0) 3
               = Ok three_agent) by by_computation.
  assert (E1 : next_step three_agent sample_rng 1 (Vec [0.9; 0.1; 0.5])
                 zero3_TA_component
               = Ok (fst three_agent_1, snd three_agent_1)) by by_computation.
  assert (Hm : is_independent three_agent = false) by by_computation.
  assert (E2 : simulate three_agent sample_rng three_inputs = Ok three_trace)
    by by_computation.
  assert (Hn : (length (av_behaviour_list three_agent) <= length three_inputs)%nat)
    by (vm_compute; lia).
  destruct C7_window_length_and_eviction as (H1 & H2 & H3).
  split; [exact E0|].
  split; [exact (proj1 (H1 _ _ _ _ _ _ _ _ _ _ _ _ _ E0))|].
  split; [exact E1|].
  split; [exact (proj1 (H2 _ _ _ _ _ _ _ E1))|].
  split; [exact Hm|]. split; [exact E2|]. split; [exact Hn|].
  exact (H3 _ _ _ _ Hm E2 Hn).
Defined.

Lemma C8_all_one_phi_replaces_attitudes_witness :
  phi_array susceptible_agent = Vec [1.0] /\
  Forall (fun p => p == 1) [1.0] /\
  attitudes susceptible_agent = Vec [0.6] /\
  length [0.6] = length [1.0] /\
  length [0.9] = length [1.0] /\
  (exists s1, update_attitudes susceptible_agent (Vec [0.9]) = Ok s1 /\
              nd_eqv (attitudes s1) (Vec [0.9])) /\
  (forall g t' TA_component self' g',
     next_step susceptible_agent g t' (Vec [0.9]) TA_component = Ok (self', g') ->
     nd_eqv (attitudes self') (Vec [0.9])).
Proof.
  assert (Hphi : phi_array susceptible_agent = Vec [1.0]) by reflexivity.
  assert (Hone : Forall (fun p => p == 1) [1.0])
    by (repeat constructor; by_computation).
  assert (Hatt : attitudes susceptible_agent = Vec [0.6]) by reflexivity.
  repeat (split; [assumption || reflexivity|]).
  exact (C8_all_one_phi_replaces_attitudes susceptible_agent [1.0] [0.6] [0.9]
           Hphi Hone Hatt eq_refl eq_refl).
Defined.

Lemma C9_unbroadcastable_inputs_raise_witness :
  phi_array three_agent = Vec [0.5; 0.5; 0.5] /\
  raises (next_step three_agent sample_rng 1 (Vec [0.9; 0.8])
            (Vec [0; 0; 0], Vec [0; 0; 0], Vec [0; 0; 0])) /\
  raises (__init__ three_params (Vec [0.1; 0.2; 0.3]) (Vec [0.5; 0.5])
            [0.75; 0.25] 2%nat (Scalar 0) (Scalar 0) (Scalar 0)
            (Scalar 0) (Scalar 0) (Scalar 0) 3) /\
  raises (__init__ three_params (Vec [0.1; 0.2]) (Vec [0.5; 0.5])
            [0.75; 0.25] 2%nat (Scalar 0) (Scalar 0) (Scalar 0)
            (Scalar 0) (Scalar 0) (Scalar 0) 3) /\
  raises (__init__ three_params (Vec [0.1; 0.2; 0.3]) (Vec [0.5; 0.5; 0.5])
            [1.0] 2%nat (Scalar 0) (Scalar 0) (Scalar 0)
            (Scalar 0) (Scalar 0) (Scalar 0) 3).
Proof.
  destruct C9_unbroadcastable_inputs_raise as (H1 & H2 & H3 & H4).
  split; [reflexivity|]. split; [|split; [|split]].
  - apply (H1 three_agent sample_rng 1%Z (Vec [0.9; 0.8]) _ _ _
              [0.5; 0.5; 0.5] [0.9; 0.8]);
      [reflexivity | cbn; lia | cbn; lia | cbn; lia | left; reflexivity].
  - apply H2; cbn; lia.
  - apply H3; cbn; lia.
  - apply H4; cbn; lia.
Defined.


(* ================================================================= *)
(** ** Further properties of a step *)

(** The four ways a successful step can have run: either mode, with or
    without an entry appended to the logs.  Every attribute of the agent
    returned is then an attribute of the agent received or a value named
    in the context. *)
Ltac step_cases H :=
  let s1 := fresh "s1" in
  let s2 := fresh "s2" in
  let s3 := fresh "s3" in
  let Hl := fresh "Hl" in
  let Hb := fresh "Hb" in
  let He := fresh "He" in
  let Hm := fresh "Hm" in
  let Hatt := fresh "Hatt" in
  let Hem := fresh "Hem" in
  let Hg := fresh "Hg" in
  let Hmat := fresh "Hmat" in
  let Hstack := fresh "Hstack" in
  let Hstar := fresh "Hstar" in
  let Hne := fresh "Hne" in
  let Hav := fresh "Hav" in
  let Hid := fresh "Hid" in
  apply next_step_inv in H; destruct H as (s1 & s2 & s3 & Hl & Hb & He & H);
  apply learn_shape in Hl; destruct Hl as (? & ? & ? & ? & ? & -> & Hatt);
  apply emit_shape in He; destruct He as (? & ? & Hem & ->);
  apply save_branch_shape in H;
  match type of Hb with
  | mode_branch ?s _ = _ => destruct (is_independent s) eqn:Hm
  end;
  [ apply mode_branch_independent in Hb; [|exact Hm];
    destruct Hb as (Hg & ? & ? & ? & Hmat & Hstack & Hstar & ->)
  | apply mode_branch_default in Hb; [|exact Hm];
    destruct Hb as (? & ? & ? & ? & ? & ? & -> & Hne & Hav & Hid) ];
  destruct H as [-> | (? & ? & ? & ? & ->)].

(** X1: a step records the time index it is given and leaves the
    configuration of the agent alone: susceptibilities, discount vector,
    window length, number of behaviours, mode, telemetry settings,
    identifier and the two values remembered from construction. *)
Theorem step_keeps_configuration
    self g t' social_component cU cC cR self' g' :
  next_step self g t' social_component (cU, cC, cR) = Ok (self', g') ->
  t self' = t' /\
  phi_array self' = phi_array self /\
  normalized_discount_vector self' = normalized_discount_vector self /\
  cultural_inertia self' = cultural_inertia self /\
  M self' = M self /\
  alpha_change self' = alpha_change self /\
  save_timeseries_data self' = save_timeseries_data self /\
  compression_factor self' = compression_factor self /\
  id self' = id self /\
  green_fountain_state self' = green_fountain_state self /\
  initial_first_attitude self' = initial_first_attitude self /\
  initial_carbon_emissions self' = initial_carbon_emissions self.
Proof.
  intros H. step_cases H; repeat apply conj; reflexivity.
Qed.

(** A default-mode step adds to the thresholds one draw per entry, then
    to the three threat-appraisal thresholds the next three draws. *)
Lemma mode_branch_default_draws self g s2 g' (lt : list Q) :
  is_independent self = false ->
  thresholds self = Vec lt ->
  mode_branch self g = Ok (s2, g') ->
  let n := length lt in
  g' = {| stream := stream g; cursor := (cursor g + n + 3)%nat |} /\
  thresholds s2
  = np_clip (Vec (map2 Qplus lt (map (stream g) (seq (cursor g) n)))) 0 1 /\
  thresholdspU s2
  = np_clip (add_scal (thresholdspU self) (stream g (cursor g + n))) 0 1 /\
  thresholdspC s2
  = np_clip (add_scal (thresholdspC self) (stream g (cursor g + n + 1))) 0 1 /\
  thresholdspR s2
  = np_clip (add_scal (thresholdspR self) (stream g (cursor g + n + 2))) 0 1.
Proof.
  intros Hm Ht H n. unfold mode_branch in H. rewrite Hm in H.
  unfold update_thresholds in H. rewrite Ht in H. cbn [len bind] in H.
  unfold rng_normal in H.
  rewrite (broadcast2_same_length Qplus lt) in H
    by (rewrite length_map, length_seq; reflexivity).
  cbn [bind] in H. unfold update_thresholdTA, rng_normal in H.
  cbn [stream cursor seq map nth] in H.
  inv_bind H. apply calc_av_behaviour_shape in E. destruct E as (av & -> & _).
  inv_bind H. apply update_av_behaviour_list_shape in E. destruct E as (_ & ->).
  inv_bind H. injection H as <- <-. fields.
  replace (cursor g + n + 1)%nat with (S (cursor g + n)) by lia.
  replace (cursor g + n + 2)%nat with (S (S (cursor g + n))) by lia.
  repeat apply conj; reflexivity.
Qed.

(** X2: the draws a step takes from the generator.  In
    behavioural_independence mode it takes none.  In default mode it
    takes one draw per threshold, added entry by entry before clipping,
    and then three more, added in turn to thresholdspU, thresholdspC and
    thresholdspR; the generator is left len(thresholds) + 3 draws on. *)
Theorem step_draws self g t' social_component cU cC cR self' g' (lt : list Q) :
  thresholds self = Vec lt ->
  next_step self g t' social_component (cU, cC, cR) = Ok (self', g') ->
  (is_independent self = true -> g' = g) /\
  (is_independent self = false ->
   let n := length lt in
   g' = {| stream := stream g; cursor := (cursor g + n + 3)%nat |} /\
   thresholds self'
   = np_clip (Vec (map2 Qplus lt (map (stream g) (seq (cursor g) n)))) 0 1 /\
   thresholdspU self'
   = np_clip (add_scal (thresholdspU self) (stream g (cursor g + n))) 0 1 /\
   thresholdspC self'
   = np_clip (add_scal (thresholdspC self) (stream g (cursor g + n + 1))) 0 1 /\
   thresholdspR self'
   = np_clip (add_scal (thresholdspR self) (stream g (cursor g + n + 2))) 0 1).
Proof.
  intros Ht H.
  apply next_step_inv in H. destruct H as (s1 & s2 & s3 & Hl & Hb & He & H).
  apply learn_shape in Hl. destruct Hl as (xv & xa & xu & xc & xr & -> & _).
  apply emit_shape in He. destruct He as (flow & em & _ & ->).
  apply save_branch_shape in H.
  split; intros Hm.
  - apply mode_branch_independent in Hb; [|exact Hm]. apply Hb.
  - pose proof (fun A B => mode_branch_default_draws _ _ _ _ lt A B Hb) as Hd.
    specialize (Hd Hm Ht). cbv zeta in Hd. fields. cbv zeta.
    destruct H as [-> | (lv & la & lt' & lta & ->)]; exact Hd.
Qed.

Lemma step_keeps_configuration_witness :
  next_step default_agent sample_rng 1 (Vec [0.0]) (Vec [0], Vec [0], Vec [0])
  = Ok (fst default_agent_1, snd default_agent_1) /\
  t (fst default_agent_1) = 1%Z /\
  phi_array (fst default_agent_1) = phi_array default_agent /\
  normalized_discount_vector (fst default_agent_1)
  = normalized_discount_vector default_agent /\
  cultural_inertia (fst default_agent_1) = cultural_inertia default_agent /\
  M (fst default_agent_1) = M default_agent /\
  alpha_change (fst default_agent_1) = alpha_change default_agent /\
  save_timeseries_data (fst default_agent_1) = save_timeseries_data default_agent /\
  compression_factor (fst default_agent_1) = compression_factor default_agent /\
  id (fst default_agent_1) = id default_agent /\
  green_fountain_state (fst default_agent_1) = green_fountain_state default_agent /\
  initial_first_attitude (fst default_agent_1)
  = initial_first_attitude default_agent /\
  initial_carbon_emissions (fst default_agent_1)
  = initial_carbon_emissions default_agent.
Proof.
  assert (E : next_step default_agent sample_rng 1 (Vec [0.0])
                (Vec [0], Vec [0], Vec [0])
              = Ok (fst default_agent_1, snd default_agent_1))
    by by_computation.
  split; [exact E|].
  exact (step_keeps_configuration _ _ _ _ _ _ _ _ _ E).
Defined.

Lemma step_draws_witness :
  thresholds default_agent = Vec [0.2] /\
  next_step default_agent sample_rng 1 (Vec [0.0]) (Vec [0], Vec [0], Vec [0])
  = Ok (fst default_agent_1, snd default_agent_1) /\
  is_independent default_agent = false /\
  snd default_agent_1 = {| stream := stream sample_rng; cursor := 4 |} /\
  thresholds (fst default_agent_1)
  = np_clip (Vec [0.2 + stream sample_rng 0%nat]) 0 1.
Proof.
  assert (Ht : thresholds default_agent = Vec [0.2]) by reflexivity.
  assert (E : next_step default_agent sample_rng 1 (Vec [0.0])
                (Vec [0], Vec [0], Vec [0])
              = Ok (fst default_agent_1, snd default_agent_1))
    by by_computation.
  assert (Hm : is_independent default_agent = false) by by_computation.
  destruct (step_draws _ _ _ _ _ _ _ _ _ [0.2] Ht E) as [_ H].
  destruct (H Hm) as (Hg & Hth & _).
  repeat apply conj; assumption.
Defined.

Lemma save_branch_off_stride self s' :
  save_timeseries_data self = false \/
  (t self mod compression_factor self <> 0)%Z ->
  save_branch self = Ok s' -> s' = self.
Proof.
  unfold save_branch, on_stride. intros Hoff H.
  destruct (save_timeseries_data self); [|inv_Ok H; reflexivity].
  destruct Hoff as [Hoff | Hoff]; [discriminate|].
  destruct (Z.eqb (compression_factor self) 0); [discriminate|].
  cbn [bind] in H.
  destruct (Z.eqb_spec (t self mod compression_factor self) 0) as [E|_];
    [contradiction | inv_Ok H; reflexivity].
Qed.

(** X3: a step that is not retained (telemetry off, or t not a multiple
    of compression_factor) leaves all nine history logs as they were. *)
Theorem step_off_stride_keeps_logs
    self g t' social_component cU cC cR self' g' :
  save_timeseries_data self = false \/
  (t' mod compression_factor self <> 0)%Z ->
  next_step self g t' social_component (cU, cC, cR) = Ok (self', g') ->
  history_behaviour_values self' = history_behaviour_values self /\
  history_behaviour_attitudes self' = history_behaviour_attitudes self /\
  history_behaviour_thresholds self' = history_behaviour_thresholds self /\
  history_TA self' = history_TA self /\
  history_thresholdsTA self' = history_thresholdsTA self /\
  history_av_behaviour self' = history_av_behaviour self /\
  history_identity self' = history_identity self /\
  history_individual_carbon_emissions_flow self'
  = history_individual_carbon_emissions_flow self /\
  history_behavioural_carbon_emissions self'
  = history_behavioural_carbon_emissions self.
Proof.
  intros Hoff H.
  apply next_step_inv in H. destruct H as (s1 & s2 & s3 & Hl & Hb & He & H).
  apply learn_shape in Hl. destruct Hl as (xv & xa & xu & xc & xr & -> & _).
  apply emit_shape in He. destruct He as (flow & em & _ & ->).
  match type of Hb with
  | mode_branch ?s _ = _ => destruct (is_independent s) eqn:Hm
  end.
  - apply mode_branch_independent in Hb; [|exact Hm].
    destruct Hb as (_ & m & m' & star & _ & _ & _ & ->).
    apply save_branch_off_stride in H; [|exact Hoff].
    subst self'. repeat apply conj; reflexivity.
  - apply mode_branch_default in Hb; [|exact Hm].
    destruct Hb as (x & xU & xC & xR & av & i & -> & _).
    apply save_branch_off_stride in H; [|exact Hoff].
    subst self'. repeat apply conj; reflexivity.
Qed.

Lemma step_off_stride_keeps_logs_witness :
  (3 mod compression_factor independent_agent <> 0)%Z /\
  next_step independent_agent sample_rng 3 (Vec [1; 0])
    (Vec [0; 0], Vec [0; 0], Vec [0; 0])
  = Ok (fst independent_agent_off, snd independent_agent_off) /\
  history_behaviour_values (fst independent_agent_off)
  = history_behaviour_values independent_agent /\
  history_identity (fst independent_agent_off)
  = history_identity independent_agent.
Proof.
  assert (Hoff : (3 mod compression_factor independent_agent <> 0)%Z)
    by (vm_compute; discriminate).
  assert (E : next_step independent_agent sample_rng 3 (Vec [1; 0])
                (Vec [0; 0], Vec [0; 0], Vec [0; 0])
              = Ok (fst independent_agent_off, snd independent_agent_off))
    by by_computation.
  destruct (step_off_stride_keeps_logs _ _ _ _ _ _ _ _ _ (or_intror Hoff) E)
    as (H1 & _ & _ & _ & _ & _ & H7 & _).
  repeat apply conj; assumption.
Defined.

Lemma next_step_appends_eight_logs_witness :
  save_timeseries_data default_agent = true /\
  (1 mod compression_factor default_agent = 0)%Z /\
  next_step default_agent sample_rng 1 (Vec [0.0]) zero_TA_component
  = Ok (fst default_agent_1, snd default_agent_1) /\
  history_behaviour_values (fst default_agent_1)
  = history_behaviour_values default_agent
      ++ [atleast_1d (values (fst default_agent_1))] /\
  history_identity (fst default_agent_1)
  = history_identity default_agent ++ [identity (fst default_agent_1)].
Proof.
  assert (Hs : save_timeseries_data default_agent = true) by reflexivity.
  assert (Hc : (1 mod compression_factor default_agent = 0)%Z) by reflexivity.
  assert (E : next_step default_agent sample_rng 1 (Vec [0.0]) zero_TA_component
              = Ok (fst default_agent_1, snd default_agent_1))
    by by_computation.
  destruct (next_step_appends_eight_logs _ _ _ _ _ _ _ Hs Hc E)
    as (H1 & _ & _ & _ & H5 & _).
  repeat apply conj; assumption.
Defined.

(** X5: with telemetry on and compression_factor = 0 no step completes:
    whatever else happens, [t % compression_factor] divides by zero. *)
Theorem step_with_zero_stride_raises self g t' social_component cU cC cR :
  save_timeseries_data self = true ->
  compression_factor self = 0%Z ->
  raises (next_step self g t' social_component (cU, cC, cR)).
Proof.
  intros Hs Hc. rewrite next_step_unfold.
  apply raises_bind_r. intros s1 Hl.
  apply learn_shape in Hl. destruct Hl as (xv & xa & xu & xc & xr & -> & _).
  apply raises_bind_r. intros [s2 g2] Hb.
  apply raises_bind_r. intros s3 He.
  apply emit_shape in He. destruct He as (flow & em & _ & ->).
  apply raises_bind_l.
  assert (Hsave : forall s, save_timeseries_data s = true ->
                            compression_factor s = 0%Z -> raises (save_branch s)).
  { intros s H1 H2. unfold save_branch, on_stride. rewrite H1, H2. cbn.
    exists ZeroDivisionError. reflexivity. }
  match type of Hb with
  | mode_branch ?s _ = _ => destruct (is_independent s) eqn:Hm
  end.
  - apply mode_branch_independent in Hb; [|exact Hm].
    destruct Hb as (_ & m & m' & star & _ & _ & _ & ->).
    apply Hsave; assumption.
  - apply mode_branch_default in Hb; [|exact Hm].
    destruct Hb as (x & xU & xC & xR & av & i & -> & _).
    apply Hsave; assumption.
Qed.

Lemma step_with_zero_stride_raises_witness :
  save_timeseries_data zero_stride_agent = true /\
  compression_factor zero_stride_agent = 0%Z /\
  raises (next_step zero_stride_agent sample_rng 1 (Vec [0.0])
            (Vec [0], Vec [0], Vec [0])).
Proof.
  split; [reflexivity|]. split; [reflexivity|].
  apply step_with_zero_stride_raises; reflexivity.
Defined.

(** X6: a default-mode step leaves attitudes_matrix and attitudes_star
    as they were; only the behavioural_independence branch assigns them. *)
Theorem default_step_keeps_attitude_memory
    self g t' social_component cU cC cR self' g' :
  is_independent self = false ->
  next_step self g t' social_component (cU, cC, cR) = Ok (self', g') ->
  attitudes_matrix self' = attitudes_matrix self /\
  attitudes_star self' = attitudes_star self.
Proof.
  intros Hmode H. step_cases H;
    solve [ split; reflexivity
          | unfold is_independent in *; fields; congruence ].
Qed.

Lemma default_step_keeps_attitude_memory_witness :
  is_independent default_agent = false /\
  next_step default_agent sample_rng 1 (Vec [0.0]) (Vec [0], Vec [0], Vec [0])
  = Ok (fst default_agent_1, snd default_agent_1) /\
  attitudes_matrix (fst default_agent_1) = attitudes_matrix default_agent /\
  attitudes_star (fst default_agent_1) = attitudes_star default_agent.
Proof.
  assert (Hm : is_independent default_agent = false) by by_computation.
  assert (E : next_step default_agent sample_rng 1 (Vec [0.0])
                (Vec [0], Vec [0], Vec [0])
              = Ok (fst default_agent_1, snd default_agent_1))
    by by_computation.
  split; [exact Hm|]. split; [exact E|].
  exact (default_step_keeps_attitude_memory _ _ _ _ _ _ _ _ _ Hm E).
Defined.

(* ================================================================= *)
(** ** What the learning phase reads *)

Lemma update_values_spec self s1 :
  update_values self = Ok s1 ->
  exists d ta tta e,
    nd_sub (attitudes self) (thresholds self) = Ok d /\
    TA self = Ok ta /\
    thresholdsTA self = Ok tta /\
    nd_sub ta tta = Ok e /\
    nd_add (scal_mul 0.5 d) (scal_mul 0.5 e) = Ok (values s1).
Proof.
  unfold update_values. intros H. do 5 inv_bind H. inv_Ok H.
  exists a, a0, a1, a2. fields. auto.
Qed.

(** X7: what a step leaves in values, attitudes, pU, pC and pR is
    computed from the agent as it was when the step began: values from
    the attitudes, thresholds and threat appraisal of before the social
    update and the random walk, and each of attitudes, pU, pC, pR from
    its own previous value and its own influence input. *)
Theorem step_learns_from_previous_state
    self g t' social_component cU cC cR self' g' :
  next_step self g t' social_component (cU, cC, cR) = Ok (self', g') ->
  (exists d ta tta e,
     nd_sub (attitudes self) (thresholds self) = Ok d /\
     TA self = Ok ta /\
     thresholdsTA self = Ok tta /\
     nd_sub ta tta = Ok e /\
     nd_add (scal_mul 0.5 d) (scal_mul 0.5 e) = Ok (values self')) /\
  social_learning (phi_array self) (attitudes self) social_component
  = Ok (attitudes self') /\
  social_learning (phi_array self) (pU self) cU = Ok (pU self') /\
  social_learning (phi_array self) (pC self) cC = Ok (pC self') /\
  social_learning (phi_array self) (pR self) cR = Ok (pR self').
Proof.
  intros H.
  assert (Hlearn : forall s1,
            learn self t' social_component (cU, cC, cR) = Ok s1 ->
            (exists d ta tta e,
               nd_sub (attitudes self) (thresholds self) = Ok d /\
               TA self = Ok ta /\
               thresholdsTA self = Ok tta /\
               nd_sub ta tta = Ok e /\
               nd_add (scal_mul 0.5 d) (scal_mul 0.5 e) = Ok (values s1)) /\
            social_learning (phi_array self) (attitudes self) social_component
            = Ok (attitudes s1) /\
            social_learning (phi_array self) (pU self) cU = Ok (pU s1) /\
            social_learning (phi_array self) (pC self) cC = Ok (pC s1) /\
            social_learning (phi_array self) (pR self) cR = Ok (pR s1)).
  { unfold learn. intros s1 Hl.
    inv_bind Hl. pose proof (update_values_spec _ _ E) as Hv.
    apply update_values_shape in E. destruct E as (xv & ->).
    inv_bind Hl. apply update_attitudes_shape in E. destruct E as (xa & -> & Ha).
    inv_bind Hl. apply update_pU_shape in E. destruct E as (xu & -> & Hu).
    inv_bind Hl. apply update_pC_shape in E. destruct E as (xc & -> & Hc).
    apply update_pR_shape in Hl. destruct Hl as (xr & -> & Hr).
    unfold TA, thresholdsTA in *. fields. auto. }
  apply next_step_inv in H. destruct H as (s1 & s2 & s3 & Hl & Hb & He & H).
  specialize (Hlearn _ Hl).
  apply learn_shape in Hl. destruct Hl as (xv & xa & xu & xc & xr & -> & _).
  apply emit_shape in He. destruct He as (flow & em & _ & ->).
  apply save_branch_shape in H. fields.
  match type of Hb with
  | mode_branch ?s _ = _ => destruct (is_independent s) eqn:Hm
  end.
  - apply mode_branch_independent in Hb; [|exact Hm].
    destruct Hb as (_ & m & m' & star & _ & _ & _ & ->).
    destruct H as [-> | (lv & la & lt & lta & ->)]; exact Hlearn.
  - apply mode_branch_default in Hb; [|exact Hm].
    destruct Hb as (x & xU & xC & xR & av & i & -> & _).
    destruct H as [-> | (lv & la & lt & lta & ->)]; exact Hlearn.
Qed.

Lemma step_learns_from_previous_state_witness :
  next_step three_agent sample_rng 1 (Vec [0.9; 0.1; 0.5])
    (Vec [0; 0; 0], Vec [0; 0; 0], Vec [0; 0; 0])
  = Ok (fst three_agent_1, snd three_agent_1) /\
  social_learning (phi_array three_agent) (attitudes three_agent)
    (Vec [0.9; 0.1; 0.5])
  = Ok (attitudes (fst three_agent_1)).
Proof.
  assert (E : next_step three_agent sample_rng 1 (Vec [0.9; 0.1; 0.5])
                (Vec [0; 0; 0], Vec [0; 0; 0], Vec [0; 0; 0])
              = Ok (fst three_agent_1, snd three_agent_1))
    by by_computation.
  split; [exact E|].
  exact (proj1 (proj2 (step_learns_from_previous_state _ _ _ _ _ _ _ _ _ E))).
Defined.

(* ================================================================= *)
(** ** The social-learning rule with phi = 0 *)

Lemma social_learning_length (lp la lc : list Q) :
  length la = length lp -> length lc = length lp ->
  length (map2 Qplus (map2 Qmult (map (Qminus 1) lp) la) (map2 Qmult lp lc))
  = length lp.
Proof.
  revert la lc. induction lp as [|p lp IH]; intros [|a la] [|c lc] Ha Hc;
    try discriminate; cbn; [reflexivity|].
  f_equal. apply IH; [cbn in Ha; lia | cbn in Hc; lia].
Qed.

Lemma all_zero_keeps (lp la lc : list Q) :
  length la = length lp -> length lc = length lp ->
  Forall (fun p => p == 0) lp ->
  list_eqv (map2 Qplus (map2 Qmult (map (Qminus 1) lp) la) (map2 Qmult lp lc)) la.
Proof.
  revert la lc. induction lp as [|p lp IH]; intros [|a la] [|c lc] Ha Hc Hp;
    try discriminate; cbn.
  - constructor.
  - inversion Hp as [|? ? Hp1 Hps]; subst.
    constructor.
    + rewrite Hp1. ring.
    + apply IH; [cbn in Ha; lia | cbn in Hc; lia | assumption].
Qed.

(** X8: with an all-zero phi_array a step leaves the attitudes at their
    previous value, whatever the social_component. *)
Theorem all_zero_phi_keeps_attitudes
    self (lp la lc : list Q) g t' cU cC cR self' g' :
  phi_array self = Vec lp ->
  Forall (fun p => p == 0) lp ->
  attitudes self = Vec la ->
  length la = length lp ->
  length lc = length lp ->
  next_step self g t' (Vec lc) (cU, cC, cR) = Ok (self', g') ->
  nd_eqv (attitudes self') (Vec la).
Proof.
  intros Hphi Hzero Hatt Ha Hc H.
  apply next_step_attitudes in H.
  rewrite Hphi, Hatt, (social_learning_same_length lp la lc Ha Hc) in H.
  inv_Ok H. rewrite <- H. exact (all_zero_keeps lp la lc Ha Hc Hzero).
Qed.

Lemma all_zero_phi_keeps_attitudes_witness :
  phi_array default_agent = Vec [0.0] /\
  Forall (fun p => p == 0) [0.0] /\
  attitudes default_agent = Vec [0.6] /\
  length [0.6] = length [0.0] /\
  length [0.0] = length [0.0] /\
  next_step default_agent sample_rng 1 (Vec [0.0]) (Vec [0], Vec [0], Vec [0])
  = Ok (fst default_agent_1, snd default_agent_1) /\
  nd_eqv (attitudes (fst default_agent_1)) (Vec [0.6]).
Proof.
  assert (Hphi : phi_array default_agent = Vec [0.0]) by reflexivity.
  assert (Hz : Forall (fun p => p == 0) [0.0])
    by (repeat constructor; by_computation).
  assert (Hatt : attitudes default_agent = Vec [0.6]) by reflexivity.
  assert (E : next_step default_agent sample_rng 1 (Vec [0.0])
                (Vec [0], Vec [0], Vec [0])
              = Ok (fst default_agent_1, snd default_agent_1))
    by by_computation.
  repeat (split; [assumption || reflexivity|]).
  exact (all_zero_phi_keeps_attitudes default_agent [0.0] [0.6] [0.0]
           _ _ _ _ _ _ _ Hphi Hz Hatt eq_refl eq_refl E).
Defined.

(* ================================================================= *)
(** ** Construction *)

(** The constructor reads [attitudes[0]] before anything else, so
    it raises IndexError on an empty or 0-d array of initial attitudes,
    whatever the other arguments (M = 0 included). *)
Theorem constructor_needs_a_first_attitude
    individual_params init_data_thresholds ndv ci iU iC iR itU itC itR id_n :
  __init__ individual_params (Vec []) init_data_thresholds ndv ci
    iU iC iR itU itC itR id_n = Raise IndexError /\
  forall x,
    __init__ individual_params (Scalar x) init_data_thresholds ndv ci
      iU iC iR itU itC itR id_n = Raise IndexError.
Proof.
  split; [|intros x]; reflexivity.
Qed.

(* ================================================================= *)
(** ** Ranges *)

Lemma sum_nonneg (l : list Q) : Forall (fun x => 0 <= x) l -> 0 <= sum l.
Proof.
  induction 1 as [|x l Hx _ IH].
  - unfold sum. cbn. lra.
  - rewrite sum_cons. lra.
Qed.

Lemma np_mean_square_nonneg (a : ndarray) (av : Q) :
  np_mean (nd_square a) = Ok av -> 0 <= av.
Proof.
  destruct a as [x|l]; cbn [nd_square nd_map np_mean].
  - intros H. inv_Ok H. cbn. nra.
  - destruct l as [|x l]; cbn [map]; intros H; [discriminate|]. inv_Ok H.
    apply Qle_shift_div_l; [reflexivity|]. rewrite Qmult_0_l.
    apply sum_nonneg.
    constructor; [cbn; nra|].
    induction l as [|y l IH]; cbn [map]; constructor; [cbn; nra | exact IH].
Qed.

Lemma Forall_removelast {A : Type} (P : A -> Prop) (l : list A) :
  Forall P l -> Forall P (removelast l).
Proof.
  induction 1 as [|x l Hx Hl IH]; cbn; [constructor|].
  destruct l; [constructor | constructor; assumption].
Qed.

Lemma dot_nonneg (w x : list Q) :
  Forall (fun a => 0 <= a) w -> Forall (fun a => 0 <= a) x -> 0 <= dot w x.
Proof.
  intros Hw. revert x. induction Hw as [|a w Ha _ IH]; intros x Hx; cbn [dot].
  - lra.
  - destruct Hx as [|b x Hb Hx]; [lra|].
    specialize (IH x Hx). assert (0 <= a * b) by (apply Qmult_le_0_compat; assumption).
    lra.
Qed.

(** X11: av_behaviour is a mean of squares, so it is never negative
    where it is a number: after a default-mode step that leaves the
    attitudes a non-empty array (on an empty one np.mean gives nan)
    av_behaviour is non-negative, the window stays non-negative if it
    was, and with non-negative discount weights so is the identity. *)
Theorem av_behaviour_and_identity_nonnegative
    self g t' social_component cU cC cR self' g' :
  is_independent self = false ->
  Forall (fun x => 0 <= x) (av_behaviour_list self) ->
  Forall (fun w => 0 <= w) (normalized_discount_vector self) ->
  next_step self g t' social_component (cU, cC, cR) = Ok (self', g') ->
  attitudes self' <> Vec [] ->
  0 <= av_behaviour self' /\
  Forall (fun x => 0 <= x) (av_behaviour_list self') /\
  0 <= identity self'.
Proof.
  intros Hmode Hwin Hw H _.
  assert (Hgoal : forall av i,
            np_mean (nd_square (scal_rsub 1 (attitudes self'))) = Ok av ->
            matmul_vv (normalized_discount_vector self)
              (av :: removelast (av_behaviour_list self)) = Ok i ->
            0 <= av /\
            Forall (fun x => 0 <= x) (av :: removelast (av_behaviour_list self)) /\
            0 <= i).
  { intros av i Hav Hi. apply np_mean_square_nonneg in Hav.
    apply matmul_vv_Ok in Hi. destruct Hi as [_ ->].
    assert (Hwin' : Forall (fun x => 0 <= x)
                      (av :: removelast (av_behaviour_list self)))
      by (constructor; [exact Hav | apply Forall_removelast; exact Hwin]).
    split; [exact Hav|]. split; [exact Hwin'|].
    apply dot_nonneg; assumption. }
  step_cases H;
    solve [ unfold is_independent in *; fields; congruence
          | fields; apply Hgoal; assumption ].
Qed.

Lemma av_behaviour_and_identity_nonnegative_witness :
  is_independent three_agent = false /\
  Forall (fun x => 0 <= x) (av_behaviour_list three_agent) /\
  Forall (fun w => 0 <= w) (normalized_discount_vector three_agent) /\
  next_step three_agent sample_rng 1 (Vec [0.9; 0.1; 0.5])
    (Vec [0; 0; 0], Vec [0; 0; 0], Vec [0; 0; 0])
  = Ok (fst three_agent_1, snd three_agent_1) /\
  attitudes (fst three_agent_1) <> Vec [] /\
  0 <= av_behaviour (fst three_agent_1) /\
  Forall (fun x => 0 <= x) (av_behaviour_list (fst three_agent_1)) /\
  0 <= identity (fst three_agent_1).
Proof.
  assert (Hm : is_independent three_agent = false) by by_computation.
  assert (Hwin : Forall (fun x => 0 <= x) (av_behaviour_list three_agent))
    by (repeat constructor; discriminate).
  assert (Hw : Forall (fun w => 0 <= w) (normalized_discount_vector three_agent))
    by (repeat constructor; discriminate).
  assert (E : next_step three_agent sample_rng 1 (Vec [0.9; 0.1; 0.5])
                (Vec [0; 0; 0], Vec [0; 0; 0], Vec [0; 0; 0])
              = Ok (fst three_agent_1, snd three_agent_1))
    by by_computation.
  assert (Ha : attitudes (fst three_agent_1) <> Vec [])
    by (vm_compute; discriminate).
  repeat (split; [assumption|]).
  exact (av_behaviour_and_identity_nonnegative _ _ _ _ _ _ _ _ _ Hm Hwin Hw E Ha).
Defined.

Lemma half (x : Q) : x / 2 == x * (1 # 2).
Proof. reflexivity. Qed.

Lemma sum_unit_interval (l : list Q) :
  Forall (fun e => 0 <= e <= 1) l ->
  0 <= sum l <= inject_Z (Z.of_nat (length l)).
Proof.
  induction 1 as [|e l [He0 He1] _ [IH0 IH1]].
  - unfold sum. cbn. split; discriminate.
  - rewrite sum_cons. cbn [length].
    rewrite Nat2Z.inj_succ, <- Z.add_1_l, inject_Z_plus.
    change (inject_Z 1) with 1. split; lra.
Qed.

(** X12: emissions stay in range when values do.  If the values a step
    leaves for the M behaviours lie in [-1,1], every per-behaviour
    emission lies in [0,1] and the emissions flow lies in [0,M]. *)
Theorem emissions_in_range self g t' social_component cU cC cR self' g' :
  next_step self g t' social_component (cU, cC, cR) = Ok (self', g') ->
  (forall i v, (i < M self')%nat -> getitem (values self') i = Ok v ->
               -1 <= v <= 1) ->
  Forall (fun e => 0 <= e <= 1) (behavioural_carbon_emissions self') /\
  0 <= individual_carbon_emissions_flow self'
    <= inject_Z (Z.of_nat (M self')).
Proof.
  intros H Hv.
  assert (Hgoal : forall s flow em,
            calc_total_emissions_flow s = Ok (flow, em) ->
            (forall i v, (i < M s)%nat -> getitem (values s) i = Ok v ->
                         -1 <= v <= 1) ->
            Forall (fun e => 0 <= e <= 1) em /\
            0 <= flow <= inject_Z (Z.of_nat (M s))).
  { intros s fl em Hem Hr.
    apply calc_total_emissions_flow_spec in Hem. destruct Hem as (Hlen & Hnth & ->).
    assert (Hall : Forall (fun e => 0 <= e <= 1) em).
    { apply Forall_forall. intros e Hin.
      apply In_nth_error in Hin. destruct Hin as (i & Hi).
      assert (Hlt : (i < M s)%nat)
        by (rewrite <- Hlen; apply nth_error_Some; congruence).
      destruct (Hnth i Hlt) as (v & Hg & He).
      rewrite Hi in He. injection He as ->.
      specialize (Hr i v Hlt Hg). rewrite half. lra. }
    split; [exact Hall|]. rewrite <- Hlen. apply sum_unit_interval. exact Hall. }
  apply next_step_inv in H. destruct H as (s1 & s2 & s3 & _ & _ & He & H).
  apply emit_shape in He. destruct He as (flow & em & Hem & ->).
  apply save_branch_shape in H.
  assert (HM : M self' = M s2 /\ values self' = values s2 /\
               behavioural_carbon_emissions self' = em /\
               individual_carbon_emissions_flow self' = flow)
    by (destruct H as [-> | (lv & la & lt & lta & ->)]; repeat split; reflexivity).
  destruct HM as (HM1 & HM2 & HM3 & HM4).
  rewrite HM1, HM2 in Hv. rewrite HM1, HM3, HM4.
  exact (Hgoal s2 flow em Hem Hv).
Qed.

Lemma emissions_in_range_witness :
  next_step default_agent sample_rng 1 (Vec [0.0]) (Vec [0], Vec [0], Vec [0])
  = Ok (fst default_agent_1, snd default_agent_1) /\
  (forall i v, (i < M (fst default_agent_1))%nat ->
               getitem (values (fst default_agent_1)) i = Ok v ->
               -1 <= v <= 1) /\
  Forall (fun e => 0 <= e <= 1)
    (behavioural_carbon_emissions (fst default_agent_1)) /\
  0 <= individual_carbon_emissions_flow (fst default_agent_1)
    <= inject_Z (Z.of_nat (M (fst default_agent_1))).
Proof.
  assert (E : next_step default_agent sample_rng 1 (Vec [0.0])
                (Vec [0], Vec [0], Vec [0])
              = Ok (fst default_agent_1, snd default_agent_1))
    by by_computation.
  assert (Hv : forall i v, (i < M (fst default_agent_1))%nat ->
                 getitem (values (fst default_agent_1)) i = Ok v ->
                 -1 <= v <= 1).
  { intros i v Hi Hg. destruct i as [|i]; [|vm_compute in Hi; lia].
    vm_compute in Hg. injection Hg as <-. split; discriminate. }
  split; [exact E|]. split; [exact Hv|].
  exact (emissions_in_range _ _ _ _ _ _ _ _ _ E Hv).
Defined.

(* ================================================================= *)
(** ** The memory of attitudes in behavioural_independence mode *)

Lemma init_matrix individual_params init_data_attitudes init_data_thresholds
    ndv ci iU iC iR itU itC itR id_n self :
  __init__ individual_params init_data_attitudes init_data_thresholds ndv ci
    iU iC iR itU itC itR id_n = Ok self ->
  is_independent self = true ->
  attitudes_matrix self = Some (np_tile init_data_attitudes ci) /\
  exists star,
    attitudes_star self = Some star /\
    matmul_vm ndv (np_tile init_data_attitudes ci) = Ok star.
Proof.
  intros H Hm.
  assert (Halpha : alpha_change self = Params.alpha_change individual_params)
    by (apply init_inv in H; apply H).
  unfold __init__ in H. inv_bind H. inv_bind H.
  assert (Hs : attitudes_matrix a0 = Some (np_tile init_data_attitudes ci) /\
               exists star,
                 attitudes_star a0 = Some star /\
                 matmul_vm ndv (np_tile init_data_attitudes ci) = Ok star).
  { unfold is_independent in Hm, E0. rewrite Halpha in Hm.
    unfold blank in E0 at 1. cbn [alpha_change] in E0. rewrite Hm in E0.
    inv_bind E0. inv_Ok E0. unfold calc_attitudes_star, blank in E1. fields.
    split; [reflexivity | eauto]. }
  clear E0.
  inv_bind H. inv_bind H. inv_bind H.
  destruct (calc_total_emissions_flow _) as [[flow em]|]; [|discriminate].
  cbn [bind] in H. fields.
  destruct (save_timeseries_data a0).
  - do 5 inv_bind H. inv_Ok H. fields. exact Hs.
  - inv_Ok H. fields. exact Hs.
Qed.

Lemma mode_branch_raises_on_empty_window self g :
  is_independent self = false ->
  av_behaviour_list self = [] ->
  raises (mode_branch self g).
Proof.
  intros Hm Hw. unfold mode_branch. rewrite Hm.
  apply raises_bind_r. intros [s1 g1] E1.
  apply update_thresholds_shape in E1. destruct E1 as (x & ->).
  destruct (update_thresholdTA_shape (self <| thresholds := np_clip (Vec x) 0 1 |>) g1)
    as (xU & xC & xR & E2).
  destruct (update_thresholdTA _ g1) as [s2 g2]. cbn [fst] in E2. subst s2.
  apply raises_bind_r. intros s3 E3.
  apply calc_av_behaviour_shape in E3. destruct E3 as (av & -> & _).
  apply raises_bind_l. unfold update_av_behaviour_list. fields.
  rewrite Hw. exists IndexError. reflexivity.
Qed.

Lemma mode_branch_raises_on_empty_matrix self g n :
  is_independent self = true ->
  attitudes_matrix self = Some {| ncols := n; rows := [] |} ->
  normalized_discount_vector self = [] ->
  raises (mode_branch self g).
Proof.
  intros Hm Hmat Hndv. unfold mode_branch. rewrite Hm.
  unfold update_attitudes_matrix. rewrite Hmat.
  unfold vstack_front. cbn [ncols rows removelast].
  destruct (Nat.eqb _ n); cbn [bind]; [|exists ValueError; reflexivity].
  apply raises_bind_l. unfold calc_attitudes_star. fields.
  rewrite Hndv. exists ValueError. reflexivity.
Qed.

(** X13: an agent built with cultural_inertia = 0 can be constructed
    (with an empty discount vector) but can never step, in either mode:
    the default branch pops from an empty window, the other one builds a
    one-row matrix the empty discount vector cannot multiply. *)
Theorem zero_inertia_agent_cannot_step
    individual_params init_data_attitudes init_data_thresholds
    ndv iU iC iR itU itC itR id_n self g t' social_component cU cC cR :
  __init__ individual_params init_data_attitudes init_data_thresholds ndv 0%nat
    iU iC iR itU itC itR id_n = Ok self ->
  raises (next_step self g t' social_component (cU, cC, cR)).
Proof.
  intros H0.
  pose proof (init_inv _ _ _ _ _ _ _ _ _ _ _ _ _ H0)
    as (Hw & _ & Hndv & _ & _ & _ & _ & _ & Hi).
  cbn [repeat] in Hw, Hi.
  apply matmul_vv_Ok in Hi. destruct Hi as [Hlen _].
  destruct ndv as [|w ndv]; [|discriminate Hlen]. clear Hlen.
  rewrite next_step_unfold.
  apply raises_bind_r. intros s1 Hl.
  apply learn_shape in Hl. destruct Hl as (xv & xa & xu & xc & xr & -> & _).
  apply raises_bind_l.
  destruct (is_independent self) eqn:Hm.
  - destruct (init_matrix _ _ _ _ _ _ _ _ _ _ _ _ _ H0 Hm) as (Hmat & _).
    eapply mode_branch_raises_on_empty_matrix;
      [exact Hm | fields; exact Hmat | fields; exact Hndv].
  - apply mode_branch_raises_on_empty_window; [exact Hm | fields; exact Hw].
Qed.

Lemma zero_inertia_agent_cannot_step_witness :
  __init__ three_params (Vec [0.1; 0.2; 0.3]) (Vec [0.5; 0.5; 0.5])
    [] 0%nat (Scalar 0) (Scalar 0) (Scalar 0)
    (Scalar 0) (Scalar 0) (Scalar 0) 5
  = Ok zero_inertia_agent /\
  raises (next_step zero_inertia_agent sample_rng 1 (Vec [0.9; 0.1; 0.5])
            (Vec [0; 0; 0], Vec [0; 0; 0], Vec [0; 0; 0])).
Proof.
  assert (E : __init__ three_params (Vec [0.1; 0.2; 0.3]) (Vec [0.5; 0.5; 0.5])
                [] 0%nat (Scalar 0) (Scalar 0) (Scalar 0)
                (Scalar 0) (Scalar 0) (Scalar 0) 5
              = Ok zero_inertia_agent) by by_computation.
  split; [exact E|].
  exact (zero_inertia_agent_cannot_step _ _ _ _ _ _ _ _ _ _ _ _
           sample_rng 1%Z (Vec [0.9; 0.1; 0.5])
           (Vec [0; 0; 0]) (Vec [0; 0; 0]) (Vec [0; 0; 0]) E).
Defined.

Lemma vstack_front_Ok (a : ndarray) (m m' : matrix) :
  vstack_front a m = Ok m' ->
  length (atleast_1d a) = ncols m /\
  ncols m' = ncols m /\
  rows m' = atleast_1d a :: removelast (rows m).
Proof.
  unfold vstack_front.
  destruct (Nat.eqb_spec (length (atleast_1d a)) (ncols m)) as [E|_];
    intros H; [|discriminate].
  inv_Ok H. auto.
Qed.

(** A behavioural_independence step drops the last row of the matrix
    and puts the attitudes it has just computed in front. *)
Lemma next_step_slides_matrix self g t' social_component cU cC cR self' g' :
  is_independent self = true ->
  next_step self g t' social_component (cU, cC, cR) = Ok (self', g') ->
  exists m m',
    attitudes_matrix self = Some m /\
    attitudes_matrix self' = Some m' /\
    ncols m' = ncols m /\
    length (atleast_1d (attitudes self')) = ncols m /\
    rows m' = atleast_1d (attitudes self') :: removelast (rows m) /\
    length (rows m') = length (normalized_discount_vector self).
Proof.
  intros Hmode H.
  apply next_step_inv in H. destruct H as (s1 & s2 & s3 & Hl & Hb & He & H).
  apply learn_shape in Hl. destruct Hl as (xv & xa & xu & xc & xr & -> & _).
  apply emit_shape in He. destruct He as (flow & em & _ & ->).
  apply save_branch_shape in H.
  apply mode_branch_independent in Hb; [|exact Hmode].
  destruct Hb as (_ & m & m' & star & Hmat & Hstack & Hstar & ->).
  fields. apply vstack_front_Ok in Hstack. destruct Hstack as (Hlen & Hcols & Hrows).
  apply matmul_vm_Ok in Hstar. destruct Hstar as [Hn _].
  exists m, m'.
  destruct H as [-> | (lv & la & lt & lta & ->)]; fields;
    repeat split; solve [assumption | reflexivity | symmetry; assumption].
Qed.

Lemma firstn_app_removelast_rows {A : Type} (p l : list A) :
  p <> [] ->
  firstn (length l) (p ++ removelast l) = firstn (length l) (p ++ l).
Proof.
  intros Hp. rewrite !firstn_app. f_equal.
  destruct p as [|y p]; [contradiction|].
  destruct l as [|z l]; [reflexivity|].
  apply firstn_removelast. cbn. lia.
Qed.

Lemma simulate_matrix self g inputs trace :
  is_independent self = true ->
  length (memory_rows self) = length (normalized_discount_vector self) ->
  simulate self g inputs = Ok trace ->
  memory_rows (last trace self) =
  firstn (length (memory_rows self))
         (rev (map (fun s => atleast_1d (attitudes s)) trace) ++ memory_rows self).
Proof.
  revert self g trace. induction inputs as [|i rest IH]; intros self g trace Hm Hinv H;
    cbn [simulate] in H.
  - inv_Ok H. cbn. symmetry. apply firstn_all.
  - destruct i as [it isc [[cU cC] cR]]. cbn [in_t in_social_component in_TA_component] in H.
    destruct (next_step _ _ _ _ _) as [[s1 g1]|] eqn:E1; [|discriminate].
    cbn [bind] in H. inv_bind H. inv_Ok H.
    pose proof (next_step_mode _ _ _ _ _ _ _ E1) as Hm1. rewrite Hm in Hm1.
    pose proof (next_step_constants _ _ _ _ _ _ _ E1) as (_ & _ & Hndv & _).
    destruct (next_step_slides_matrix _ _ _ _ _ _ _ _ _ Hm E1)
      as (m & m' & Hmat & Hmat' & _ & _ & Hrows & Hn).
    assert (R0 : memory_rows self = rows m) by (unfold memory_rows; rewrite Hmat; reflexivity).
    assert (R1 : memory_rows s1 = rows m') by (unfold memory_rows; rewrite Hmat'; reflexivity).
    assert (Hlen1 : length (memory_rows s1) = length (memory_rows self))
      by (rewrite R1, Hn, Hinv; reflexivity).
    assert (Hinv1 : length (memory_rows s1) = length (normalized_discount_vector s1))
      by (rewrite R1, Hn, Hndv; reflexivity).
    rewrite last_cons, (IH _ _ _ Hm1 Hinv1 E), Hlen1.
    rewrite R1, Hrows, <- R0.
    cbn [map rev]. rewrite <- app_assoc. cbn [app].
    change (atleast_1d (attitudes s1) :: removelast (memory_rows self))
      with ([atleast_1d (attitudes s1)] ++ removelast (memory_rows self)).
    change (atleast_1d (attitudes s1) :: memory_rows self)
      with ([atleast_1d (attitudes s1)] ++ memory_rows self).
    rewrite !app_assoc. apply firstn_app_removelast_rows.
    intros Habs. apply app_eq_nil in Habs. destruct Habs as [_ Habs]. discriminate.
Qed.

(** X14: the attitudes matrix is a sliding window too.  A
    behavioural_independence step keeps its number of columns, drops its
    last row and inserts the attitudes just computed as row 0; and when
    the matrix has as many rows as the discount vector has weights (as
    after construction), then after N >= that many steps its rows are
    exactly the attitudes of the last steps, latest first. *)
Theorem attitude_memory_slides :
  (forall self g t' social_component cU cC cR self' g',
     is_independent self = true ->
     next_step self g t' social_component (cU, cC, cR) = Ok (self', g') ->
     exists m m',
       attitudes_matrix self = Some m /\
       attitudes_matrix self' = Some m' /\
       ncols m' = ncols m /\
       length (atleast_1d (attitudes self')) = ncols m /\
       rows m' = atleast_1d (attitudes self') :: removelast (rows m) /\
       length (rows m') = length (normalized_discount_vector self)) /\
  (forall self g inputs trace,
     is_independent self = true ->
     length (memory_rows self) = length (normalized_discount_vector self) ->
     simulate self g inputs = Ok trace ->
     (length (memory_rows self) <= length inputs)%nat ->
     memory_rows (last trace self) =
     firstn (length (memory_rows self))
            (rev (map (fun s => atleast_1d (attitudes s)) trace))).
Proof.
  split.
  - intros self g t' sc cU cC cR self' g' Hm H.
    exact (next_step_slides_matrix _ _ _ _ _ _ _ _ _ Hm H).
  - intros self g inputs trace Hm Hinv H Hn.
    rewrite (simulate_matrix _ _ _ _ Hm Hinv H), firstn_app.
    apply simulate_length in H.
    replace (length (memory_rows self)
             - length (rev (map (fun s => atleast_1d (attitudes s)) trace)))%nat
      with 0%nat by (rewrite length_rev, length_map; lia).
    cbn [firstn]. apply app_nil_r.
Qed.

Lemma attitude_memory_slides_witness :
  is_independent independent_agent = true /\
  length (memory_rows independent_agent)
  = length (normalized_discount_vector independent_agent) /\
  simulate independent_agent sample_rng independent_inputs = Ok independent_trace /\
  (length (memory_rows independent_agent) <= length independent_inputs)%nat /\
  memory_rows (last independent_trace independent_agent) =
  firstn (length (memory_rows independent_agent))
         (rev (map (fun s => atleast_1d (attitudes s)) independent_trace)).
Proof.
  assert (Hm : is_independent independent_agent = true) by by_computation.
  assert (Hinv : length (memory_rows independent_agent)
                 = length (normalized_discount_vector independent_agent))
    by reflexivity.
  assert (E : simulate independent_agent sample_rng independent_inputs
              = Ok independent_trace) by by_computation.
  assert (Hn : (length (memory_rows independent_agent)
                <= length independent_inputs)%nat) by (vm_compute; lia).
  repeat (split; [assumption|]).
  exact (proj2 attitude_memory_slides _ _ _ _ Hm Hinv E Hn).
Defined.

(* ================================================================= *)
(** ** Steps on well-shaped agents *)

Lemma is_vec_shape_ok (n : nat) (a : ndarray) : is_vec n a -> shape_ok n a.
Proof. intros (l & -> & Hl). exact Hl. Qed.

Lemma nd_map_is_vec (f : Q -> Q) (n : nat) (a : ndarray) :
  is_vec n a -> is_vec n (nd_map f a).
Proof.
  intros (l & -> & Hl). exists (map f l). split; [reflexivity|].
  rewrite length_map. exact Hl.
Qed.

Lemma nd_map_shape_ok (f : Q -> Q) (n : nat) (a : ndarray) :
  shape_ok n a -> shape_ok n (nd_map f a).
Proof.
  destruct a as [x|l]; cbn; [trivial|]. rewrite length_map. trivial.
Qed.

Lemma broadcast2_shape_ok (f : Q -> Q -> Q) (n : nat) (a b : ndarray) :
  shape_ok n a -> shape_ok n b ->
  exists c, broadcast2 f a b = Ok c /\ shape_ok n c /\
            (is_vec n a \/ is_vec n b -> is_vec n c).
Proof.
  destruct a as [x|l1], b as [y|l2]; cbn [shape_ok]; intros Ha Hb.
  - eexists. split; [reflexivity|]. split; [exact I|].
    intros [(l & Habs & _) | (l & Habs & _)]; discriminate.
  - eexists. split; [reflexivity|]. cbn. rewrite length_map.
    split; [exact Hb|]. intros _. eexists. split; [reflexivity|].
    rewrite length_map. exact Hb.
  - eexists. split; [reflexivity|]. cbn. rewrite length_map.
    split; [exact Ha|]. intros _. eexists. split; [reflexivity|].
    rewrite length_map. exact Ha.
  - rewrite broadcast2_same_length by congruence.
    eexists. split; [reflexivity|]. cbn.
    assert (E : length (map2 f l1 l2) = n) by (rewrite map2_length; congruence).
    split; [exact E|]. intros _. eexists. split; [reflexivity | exact E].
Qed.

Lemma social_learning_is_vec (n : nat) (phi old component : ndarray) :
  is_vec n phi -> shape_ok n old -> shape_ok n component ->
  exists r, social_learning phi old component = Ok r /\ is_vec n r.
Proof.
  intros Hphi Hold Hc. unfold social_learning, nd_mul, nd_add, scal_rsub.
  destruct (broadcast2_shape_ok Qmult n (nd_map (Qminus 1) phi) old)
    as (a & -> & _ & Ha);
    [apply nd_map_shape_ok, is_vec_shape_ok, Hphi | exact Hold |].
  cbn [bind].
  destruct (broadcast2_shape_ok Qmult n phi component)
    as (b & -> & _ & Hb); [apply is_vec_shape_ok, Hphi | exact Hc |].
  cbn [bind].
  pose proof (Ha (or_introl (nd_map_is_vec _ _ _ Hphi))) as Ha'.
  destruct (broadcast2_shape_ok Qplus n a b)
    as (c & -> & _ & Hcv);
    [apply is_vec_shape_ok, Ha' | apply is_vec_shape_ok, Hb; left; exact Hphi |].
  eexists. split; [reflexivity|]. apply Hcv. left. exact Ha'.
Qed.

(** The linear combination shared by the properties TA and thresholdsTA. *)
Lemma appraisal_shape (n : nat) (u c r : ndarray) :
  shape_ok n u -> shape_ok n c -> shape_ok n r ->
  exists ta,
    (a <- nd_sub (scal_mul 0.7 u) (scal_mul 0.2 c) ;; nd_sub a (scal_mul 0.1 r))
    = Ok ta /\
    shape_ok n ta /\ (is_vec n u -> is_vec n ta).
Proof.
  intros Hu Hc Hr. unfold nd_sub, scal_mul.
  destruct (broadcast2_shape_ok Qminus n (nd_map (Qmult 0.7) u) (nd_map (Qmult 0.2) c))
    as (a & -> & Ha & Hav); [apply nd_map_shape_ok, Hu | apply nd_map_shape_ok, Hc |].
  cbn [bind].
  destruct (broadcast2_shape_ok Qminus n a (nd_map (Qmult 0.1) r))
    as (b & -> & Hb & Hbv); [exact Ha | apply nd_map_shape_ok, Hr |].
  eexists. split; [reflexivity|]. split; [exact Hb|].
  intros Huv. apply Hbv. left. apply Hav. left. apply nd_map_is_vec. exact Huv.
Qed.

Lemma update_values_succeeds (n : nat) self :
  is_vec n (attitudes self) -> is_vec n (thresholds self) ->
  shape_ok n (pU self) -> shape_ok n (pC self) -> shape_ok n (pR self) ->
  shape_ok n (thresholdspU self) -> shape_ok n (thresholdspC self) ->
  shape_ok n (thresholdspR self) ->
  exists v, update_values self = Ok (self <| values := v |>) /\ is_vec n v.
Proof.
  intros Ha Ht HU HC HR HtU HtC HtR. unfold update_values, TA, thresholdsTA.
  destruct (broadcast2_shape_ok Qminus n (attitudes self) (thresholds self))
    as (d & Hd & _ & Hdv);
    [apply is_vec_shape_ok, Ha | apply is_vec_shape_ok, Ht |].
  unfold nd_sub at 1. rewrite Hd. cbn [bind].
  destruct (appraisal_shape n _ _ _ HU HC HR) as (ta & -> & Hta & _). cbn [bind].
  destruct (appraisal_shape n _ _ _ HtU HtC HtR) as (tta & -> & Htta & _). cbn [bind].
  destruct (broadcast2_shape_ok Qminus n ta tta Hta Htta) as (e & He & Hes & _).
  unfold nd_sub. rewrite He. cbn [bind].
  destruct (broadcast2_shape_ok Qplus n (scal_mul 0.5 d) (scal_mul 0.5 e))
    as (v & Hv & _ & Hvv);
    [ apply nd_map_shape_ok, is_vec_shape_ok, Hdv; left; exact Ha
    | apply nd_map_shape_ok, Hes |].
  unfold nd_add. rewrite Hv. cbn [bind].
  exists v. split; [reflexivity|]. apply Hvv. left.
  apply nd_map_is_vec, Hdv. left. exact Ha.
Qed.

Lemma learn_succeeds (n : nat) self t' social_component cU cC cR :
  well_shaped n self ->
  is_vec n social_component ->
  shape_ok n cU -> shape_ok n cC -> shape_ok n cR ->
  exists v a u c r,
    learn self t' social_component (cU, cC, cR)
    = Ok (self <| t := t' |> <| values := v |> <| attitudes := a |>
               <| pU := u |> <| pC := c |> <| pR := r |>) /\
    is_vec n v /\ is_vec n a /\ is_vec n u /\ is_vec n c /\ is_vec n r.
Proof.
  intros Hws Hsc HcU HcC HcR. destruct Hws.
  unfold learn.
  destruct (update_values_succeeds n (self <| t := t' |>)) as (v & -> & Hv);
    try assumption.
  cbn [bind]. unfold update_attitudes, update_pU, update_pC, update_pR. fields.
  destruct (social_learning_is_vec n (phi_array self) (attitudes self)
              social_component) as (a & -> & Ha);
    [assumption | apply is_vec_shape_ok; assumption
     | apply is_vec_shape_ok; assumption |].
  cbn [bind]. fields.
  destruct (social_learning_is_vec n (phi_array self) (pU self) cU)
    as (u & -> & Hu); [assumption..|].
  cbn [bind]. fields.
  destruct (social_learning_is_vec n (phi_array self) (pC self) cC)
    as (c & -> & Hc); [assumption..|].
  cbn [bind]. fields.
  destruct (social_learning_is_vec n (phi_array self) (pR self) cR)
    as (r & -> & Hr); [assumption..|].
  cbn [bind]. exists v, a, u, c, r. auto 10.
Qed.

Lemma length_cons_removelast {A : Type} (x : A) (l : list A) :
  (1 <= length l)%nat -> length (x :: removelast l) = length l.
Proof.
  intros H. cbn. rewrite removelast_firstn_len, length_firstn.
  destruct l; cbn in *; lia.
Qed.

Lemma mode_branch_default_well_shaped (n : nat) self g :
  is_independent self = false ->
  (1 <= n)%nat ->
  is_vec n (thresholds self) -> is_vec n (attitudes self) ->
  shape_ok n (thresholdspU self) -> shape_ok n (thresholdspC self) ->
  shape_ok n (thresholdspR self) ->
  (1 <= length (normalized_discount_vector self))%nat ->
  length (av_behaviour_list self) = length (normalized_discount_vector self) ->
  exists th xU xC xR av i g',
    mode_branch self g
    = Ok (self <| thresholds := th |> <| thresholdspU := xU |>
               <| thresholdspC := xC |> <| thresholdspR := xR |>
               <| av_behaviour := av |>
               <| av_behaviour_list := av :: removelast (av_behaviour_list self) |>
               <| identity := i |>, g') /\
    is_vec n th /\ shape_ok n xU /\ shape_ok n xC /\ shape_ok n xR.
Proof.
  intros Hm Hn (lt & Ht & Hlt) (la & Ha & Hla) HU HC HR Hw Hwin.
  assert (Hne : av_behaviour_list self <> [])
    by (destruct (av_behaviour_list self); [cbn in Hwin; lia | discriminate]).
  destruct la as [|a la]; [cbn in Hla; lia|].
  destruct (mode_branch_default_succeeds self g lt la a Hm Ht Ha Hne (eq_sym Hwin))
    as (s2 & g' & E).
  pose proof (mode_branch_default_draws self g s2 g' lt Hm Ht E) as Hd.
  cbv zeta in Hd. destruct Hd as (_ & Hth & HxU & HxC & HxR).
  destruct (mode_branch_default self g s2 g' Hm E)
    as (x & xU & xC & xR & av & i & -> & _).
  fields. rewrite E.
  exists (np_clip (Vec x) 0 1), (np_clip xU 0 1), (np_clip xC 0 1),
    (np_clip xR 0 1), av, i, g'.
  split; [reflexivity|].
  rewrite Hth, HxU, HxC, HxR. unfold np_clip, add_scal.
  repeat split; try (apply nd_map_shape_ok, nd_map_shape_ok; assumption).
  apply nd_map_is_vec. eexists. split; [reflexivity|].
  rewrite map2_length; [exact Hlt|]. rewrite length_map, length_seq. reflexivity.
Qed.

Lemma mode_branch_independent_well_shaped (n : nat) self g (m : matrix) :
  is_independent self = true ->
  attitudes_matrix self = Some m -> ncols m = n ->
  is_vec n (attitudes self) ->
  (1 <= length (normalized_discount_vector self))%nat ->
  length (rows m) = length (normalized_discount_vector self) ->
  exists m' star,
    mode_branch self g
    = Ok (self <| attitudes_matrix := Some m' |> <| attitudes_star := Some star |>,
          g) /\
    ncols m' = n /\
    length (rows m') = length (normalized_discount_vector self).
Proof.
  intros Hm Hmat Hcols (la & Ha & Hla) Hw Hrows.
  unfold mode_branch. rewrite Hm.
  unfold update_attitudes_matrix. rewrite Hmat.
  unfold vstack_front. rewrite Ha. cbn [atleast_1d].
  rewrite Hla, Hcols, Nat.eqb_refl. cbn [bind].
  unfold calc_attitudes_star. fields. unfold matmul_vm. cbn [rows ncols].
  rewrite length_cons_removelast by lia.
  rewrite Hrows, Nat.eqb_refl. cbn [bind].
  do 2 eexists. split; [reflexivity|]. cbn [ncols rows].
  split; [reflexivity|]. rewrite length_cons_removelast by lia. exact Hrows.
Qed.

Lemma mapM_succeeds {A B : Type} (f : A -> res B) (l : list A) :
  (forall a, In a l -> exists b, f a = Ok b) -> exists r, mapM f l = Ok r.
Proof.
  induction l as [|a l IH]; intros H; cbn [mapM]; [eauto|].
  destruct (H a (or_introl eq_refl)) as (b & ->). cbn [bind].
  destruct IH as (r & ->); [intros x Hx; apply H; right; exact Hx|].
  cbn [bind]. eauto.
Qed.

Lemma emit_succeeds (n : nat) self :
  M self = n -> is_vec n (values self) ->
  exists flow emissions,
    emit self = Ok (self <| individual_carbon_emissions_flow := flow |>
                         <| behavioural_carbon_emissions := emissions |>).
Proof.
  intros HM (lv & Hv & Hlv). unfold emit, calc_total_emissions_flow.
  destruct (mapM_succeeds
              (fun i => x <- getitem (values self) i ;; Ok ((1 - x) / 2))
              (seq 0 (M self))) as (em & ->).
  - intros i Hi. apply in_seq in Hi. rewrite Hv. unfold getitem.
    destruct (nth_error lv i) as [x|] eqn:E; [cbn [bind]; eauto|].
    apply nth_error_None in E. lia.
  - cbn [bind]. eauto.
Qed.

Lemma TA_is_vec (n : nat) self :
  is_vec n (pU self) -> shape_ok n (pC self) -> shape_ok n (pR self) ->
  exists lta, TA self = Ok (Vec lta).
Proof.
  intros HU HC HR. unfold TA.
  destruct (appraisal_shape n _ _ _ (is_vec_shape_ok _ _ HU) HC HR)
    as (ta & -> & _ & Hv).
  destruct (Hv HU) as (lta & -> & _). eauto.
Qed.

(** Shapes are read off attributes the emissions and the logs leave alone. *)
Ltac keep_shape Hws :=
  destruct Hws; constructor; unfold is_independent, logged in *; fields;
  assumption.

Lemma finish_succeeds (n : nat) s2 :
  well_shaped n s2 -> is_vec n (values s2) -> is_vec n (pU s2) ->
  exists s', (self <- emit s2 ;; save_branch self) = Ok s' /\ well_shaped n s'.
Proof.
  intros Hws (lv & Hv & Hlv) HU.
  destruct (emit_succeeds n s2) as (flow & em & ->);
    [apply Hws | exists lv; auto |].
  cbn [bind].
  destruct (TA_is_vec n s2 HU (ws_pC _ _ Hws) (ws_pR _ _ Hws)) as (lta & HTA).
  destruct (ws_attitudes _ _ Hws) as (la & Ha & _).
  destruct (ws_thresholds _ _ Hws) as (lt & Ht & _).
  destruct (save_branch_succeeds
              (s2 <| individual_carbon_emissions_flow := flow |>
                  <| behavioural_carbon_emissions := em |>) lv la lt lta)
    as [-> | ->];
    [ fields; apply Hws | fields; exact Hv | fields; exact Ha | fields; exact Ht
    | unfold TA in *; fields; exact HTA | | ];
    (eexists; split; [reflexivity|]); keep_shape Hws.
Qed.

(** A step on a well-shaped agent with well-shaped inputs succeeds and
    returns a well-shaped agent. *)
Lemma well_shaped_step
    (n : nat) self g t' social_component cU cC cR :
  well_shaped n self ->
  is_vec n social_component ->
  shape_ok n cU -> shape_ok n cC -> shape_ok n cR ->
  exists self' g',
    next_step self g t' social_component (cU, cC, cR) = Ok (self', g') /\
    well_shaped n self' /\
    is_vec n (values self').
Proof.
  intros Hws Hsc HcU HcC HcR. rewrite next_step_unfold.
  destruct (learn_succeeds n self t' social_component cU cC cR Hws Hsc HcU HcC HcR)
    as (v & a & u & c & r & -> & Hv & Ha & Hu & Hc & Hr).
  cbn [bind].
  assert (Hpost : exists s2 g',
            mode_branch (self <| t := t' |> <| values := v |> <| attitudes := a |>
                              <| pU := u |> <| pC := c |> <| pR := r |>) g
            = Ok (s2, g') /\
            well_shaped n s2 /\ values s2 = v /\ pU s2 = u).
  { destruct (is_independent self) eqn:Hm.
    - destruct (ws_matrix _ _ Hws Hm) as (m & Hmat & Hcols & Hrows).
      destruct (mode_branch_independent_well_shaped n
                  (self <| t := t' |> <| values := v |> <| attitudes := a |>
                        <| pU := u |> <| pC := c |> <| pR := r |>) g m)
        as (m' & star & E & Hcols' & Hrows');
        [ exact Hm | exact Hmat | exact Hcols | fields; exact Ha
        | fields; apply Hws | fields; exact Hrows | ].
      fields. rewrite E. do 2 eexists. split; [reflexivity|].
      split; [|split; reflexivity].
      destruct Hws. constructor; unfold is_independent in *; fields;
        try assumption; try (apply is_vec_shape_ok; assumption).
      intros _. exists m'. auto.
    - destruct (mode_branch_default_well_shaped n
                  (self <| t := t' |> <| values := v |> <| attitudes := a |>
                        <| pU := u |> <| pC := c |> <| pR := r |>) g)
        as (th & xU & xC & xR & av & i & g' & E & Hth & HxU & HxC & HxR);
        [ exact Hm | apply Hws | fields; apply Hws | fields; exact Ha
        | fields; apply Hws | fields; apply Hws | fields; apply Hws
        | fields; apply Hws | fields; apply Hws | ].
      fields. rewrite E. do 2 eexists. split; [reflexivity|].
      split; [|split; reflexivity].
      destruct Hws. constructor; unfold is_independent in *; fields;
        try assumption; try (apply is_vec_shape_ok; assumption).
      rewrite length_cons_removelast by lia. assumption. }
  destruct Hpost as (s2 & g' & -> & Hws2 & Hv2 & Hu2).
  cbn [bind].
  destruct (finish_succeeds n s2 Hws2) as (s' & E & Hws');
    [rewrite Hv2; exact Hv | rewrite Hu2; exact Hu |].
  pose proof E as E'. inv_bind E'.
  assert (Hval : is_vec n (values s')).
  { apply emit_shape in E0. destruct E0 as (flow & em & _ & ->).
    apply save_branch_shape in E'.
    destruct E' as [-> | (lv & la & lt & lta & ->)];
      unfold logged; fields; rewrite Hv2; exact Hv. }
  rewrite E0. cbn [bind]. rewrite E'. cbn [bind].
  exists s', g'. auto.
Qed.

(** X16: well-shaped agents never fail.  A step on a well-shaped agent
    with well-shaped inputs raises nothing and returns a well-shaped
    agent whose values have length M, in both modes and for every state
    of the generator; hence any run of the driver on well-shaped inputs
    completes, every agent along it being well-shaped. *)
Theorem well_shaped_agents_never_fail (n : nat) :
  (forall self g t' social_component cU cC cR,
     well_shaped n self ->
     is_vec n social_component ->
     shape_ok n cU -> shape_ok n cC -> shape_ok n cR ->
     exists self' g',
       next_step self g t' social_component (cU, cC, cR) = Ok (self', g') /\
       well_shaped n self' /\
       is_vec n (values self')) /\
  (forall inputs self g,
     well_shaped n self ->
     Forall (input_ok n) inputs ->
     exists trace,
       simulate self g inputs = Ok trace /\
       length trace = length inputs /\
       Forall (well_shaped n) trace).
Proof.
  split; [intros; apply well_shaped_step; assumption|].
  induction inputs as [|i rest IH]; intros self g Hws Hin; cbn [simulate].
  - exists []. repeat split. constructor.
  - inversion Hin as [|? ? Hi Hrest]; subst.
    destruct i as [it isc [[cU cC] cR]]. destruct Hi as (Hsc & HU & HC & HR).
    cbn [in_t in_social_component in_TA_component fst snd] in *.
    destruct (well_shaped_step n self g it isc cU cC cR Hws Hsc HU HC HR)
      as (s1 & g1 & -> & Hws1 & _).
    cbn [bind].
    destruct (IH s1 g1 Hws1 Hrest) as (trace & -> & Hlen & Hall).
    cbn [bind]. exists (s1 :: trace).
    split; [reflexivity|]. split; [cbn; f_equal; exact Hlen|].
    constructor; assumption.
Qed.

(** X17: the constructor on well-shaped data succeeds and builds a
    well-shaped agent: M >= 1 initial attitudes and thresholds, a
    phi_array of length M, propensities and their thresholds that are
    0-d or of length M, cultural_inertia >= 1 discount weights, and a
    non-zero stride when telemetry is on. *)
Theorem well_shaped_construction
    (n : nat) individual_params (la lt lphi : list Q) ndv ci
    iU iC iR itU itC itR id_n :
  (1 <= n)%nat ->
  Params.M individual_params = n ->
  length la = n -> length lt = n ->
  Params.phi_array individual_params = Vec lphi -> length lphi = n ->
  shape_ok n iU -> shape_ok n iC -> shape_ok n iR ->
  shape_ok n itU -> shape_ok n itC -> shape_ok n itR ->
  (1 <= ci)%nat -> length ndv = ci ->
  (Params.save_timeseries_data individual_params = true ->
   Params.compression_factor individual_params <> 0%Z) ->
  exists self,
    __init__ individual_params (Vec la) (Vec lt) ndv ci
      iU iC iR itU itC itR id_n = Ok self /\
    well_shaped n self.
Proof.
  intros Hn HM Hla Hlt Hphi Hlphi HU HC HR HtU HtC HtR Hci Hndv Hstride.
  assert (Hws : forall s,
            M s = n -> attitudes s = Vec la -> thresholds s = Vec lt ->
            phi_array s = Vec lphi ->
            pU s = iU -> pC s = iC -> pR s = iR ->
            thresholdspU s = itU -> thresholdspC s = itC -> thresholdspR s = itR ->
            save_timeseries_data s = Params.save_timeseries_data individual_params ->
            compression_factor s = Params.compression_factor individual_params ->
            normalized_discount_vector s = ndv ->
            length (av_behaviour_list s) = ci ->
            (is_independent s = true ->
             exists m, attitudes_matrix s = Some m /\ ncols m = n /\
                       length (rows m) = length ndv) ->
            well_shaped n s).
  { intros s H1 H2 H3 H4 H5 H6 H7 H8 H9 H10 H11 H12 H13 H14 H15.
    constructor; rewrite ?H1, ?H2, ?H3, ?H4, ?H5, ?H6, ?H7, ?H8, ?H9, ?H10,
                   ?H11, ?H12, ?H13, ?H14; try assumption; try lia.
    - exists la. auto.
    - exists lt. auto.
    - exists lphi. auto. }
  assert (Hem : forall v, length v = n ->
            exists em,
              mapM (fun i => x <- getitem (Vec v) i ;; Ok ((1 - x) / 2))
                   (seq 0 (Params.M individual_params)) = Ok em).
  { intros v Hv. apply mapM_succeeds. intros i Hi. apply in_seq in Hi.
    unfold getitem. destruct (nth_error v i) as [x|] eqn:E; [cbn [bind]; eauto|].
    apply nth_error_None in E. lia. }
  destruct (Hem (map2 Qminus la lt)) as (em & Hmap);
    [rewrite map2_length; congruence|].
  destruct (appraisal_shape n _ _ _ HU HC HR) as (ta & Hta & _).
  destruct (appraisal_shape n _ _ _ HtU HtC HtR) as (tta & Htta & _).
  unfold __init__.
  destruct la as [|a0 la']; [cbn in Hla; lia|].
  cbn [getitem nth_error bind]. cbv zeta.
  destruct (is_independent (blank _ _ _ _ _ _ _ _ _ _ _ _ _)) eqn:Hm.
  - unfold calc_attitudes_star, blank. fields. unfold matmul_vm, np_tile.
    cbn [rows ncols atleast_1d].
    rewrite repeat_length, Hndv, Nat.eqb_refl. cbn [bind]. fields.
    unfold nd_sub. rewrite broadcast2_same_length by congruence. cbn [bind].
    cbn [scal_rsub nd_square nd_map map np_mean bind].
    unfold calc_identity, matmul_vv. fields.
    rewrite repeat_length, Hndv, Nat.eqb_refl. cbn [bind].
    unfold calc_total_emissions_flow. fields. rewrite Hmap. cbn [bind].
    destruct (Params.save_timeseries_data individual_params) eqn:Hsave.
    + cbn [to_list bind]. unfold TA, thresholdsTA. fields.
      rewrite Hta. cbn [bind]. rewrite Htta. cbn [bind].
      eexists. split; [reflexivity|].
      apply Hws; fields; try reflexivity; try assumption;
        try apply repeat_length.
      intros _. eexists. split; [reflexivity|]. cbn [ncols rows].
      rewrite repeat_length. auto.
    + eexists. split; [reflexivity|].
      apply Hws; fields; try reflexivity; try assumption;
        try apply repeat_length.
      intros _. eexists. split; [reflexivity|]. cbn [ncols rows].
      rewrite repeat_length. auto.
  - cbn [bind]. unfold blank. fields.
    unfold nd_sub. rewrite broadcast2_same_length by congruence. cbn [bind].
    cbn [scal_rsub nd_square nd_map map np_mean bind].
    unfold calc_identity, matmul_vv. fields.
    rewrite repeat_length, Hndv, Nat.eqb_refl. cbn [bind].
    unfold calc_total_emissions_flow. fields. rewrite Hmap. cbn [bind].
    unfold is_independent, blank in Hm. cbn [alpha_change] in Hm.
    destruct (Params.save_timeseries_data individual_params) eqn:Hsave.
    + cbn [to_list bind]. unfold TA, thresholdsTA. fields.
      rewrite Hta. cbn [bind]. rewrite Htta. cbn [bind].
      eexists. split; [reflexivity|].
      apply Hws; unfold is_independent; fields; try reflexivity; try assumption;
        try apply repeat_length.
      intros Habs. congruence.
    + eexists. split; [reflexivity|].
      apply Hws; unfold is_independent; fields; try reflexivity; try assumption;
        try apply repeat_length.
      intros Habs. congruence.
Qed.

Lemma three_agent_well_shaped : well_shaped 3 three_agent.
Proof.
  constructor;
    try solve [ vm_compute; lia
              | reflexivity
              | exact I
              | eexists; split; reflexivity
              | intros H; vm_compute in H; discriminate H ].
Defined.

Lemma three_inputs_ok : Forall (input_ok 3) three_inputs.
Proof.
  repeat constructor; try reflexivity; eexists; split; reflexivity.
Defined.

Lemma well_shaped_agents_never_fail_witness :
  well_shaped 3 three_agent /\
  Forall (input_ok 3) three_inputs /\
  exists trace,
    simulate three_agent sample_rng three_inputs = Ok trace /\
    length trace = length three_inputs /\
    Forall (well_shaped 3) trace.
Proof.
  split; [exact three_agent_well_shaped|].
  split; [exact three_inputs_ok|].
  exact (proj2 (well_shaped_agents_never_fail 3) three_inputs three_agent sample_rng
           three_agent_well_shaped three_inputs_ok).
Defined.

Lemma well_shaped_construction_witness :
  Params.M three_params = 3%nat /\
  Params.phi_array three_params = Vec [0.5; 0.5; 0.5] /\
  (Params.save_timeseries_data three_params = true ->
   Params.compression_factor three_params <> 0%Z) /\
  exists self,
    __init__ three_params (Vec [0.1; 0.2; 0.3]) (Vec [0.5; 0.5; 0.5])
      [0.75; 0.25] 2%nat (Scalar 0) (Scalar 0) (Scalar 0)
      (Scalar 0) (Scalar 0) (Scalar 0) 3 = Ok self /\
    well_shaped 3 self.
Proof.
  assert (Hs : Params.save_timeseries_data three_params = true ->
               Params.compression_factor three_params <> 0%Z)
    by (intros H; discriminate H).
  split; [reflexivity|]. split; [reflexivity|]. split; [exact Hs|].
  apply (well_shaped_construction 3 three_params
           [0.1; 0.2; 0.3] [0.5; 0.5; 0.5] [0.5; 0.5; 0.5] [0.75; 0.25] 2%nat);
    solve [ cbn; lia | reflexivity | exact I | exact Hs ].
Defined.

(* ================================================================= *)
(** ** The program in binary64 *)

Local Open Scope float_scope.

(** Evaluate a run of the binary64 program, leaving the mode test, the
    stride test and the draws of the generator as they stand. *)
Ltac f64_eval :=
  cbv -[String.eqb Z.eqb Z.modulo F64.stream F64.cursor Nat.add].

(** C1 (amended): the scenario with phi_array = [0.0] in default mode,
    computed in binary64 as the program computes it.  One step with
    social_component = [0.0] and TA_component = ([0],[0],[0]) succeeds
    for every state of the generator, every time index and every
    telemetry setting, and leaves values = [0.19999999999999998] (the
    double next below 0.2: the difference 0.6 - 0.2 rounds to
    0.39999999999999997), attitudes = [0.6],
    behavioural_carbon_emissions = [0.4] and
    individual_carbon_emissions_flow = 0.4. *)
Theorem C1_scenario_one_step_binary64 (t0 t' cf id_n : Z) (save : bool)
    (alpha : string) (g : F64.rng_state) :
  String.eqb alpha behavioural_independence = false ->
  (save = true -> cf <> 0%Z) ->
  exists s0 s' g',
    F64.scenario t0 save cf 0.0 alpha id_n = Ok s0 /\
    F64.next_step s0 g t' (F64.Vec [0.0]) F64.zero_TA_component = Ok (s', g') /\
    F64.values s' = F64.Vec [0.19999999999999998] /\
    F64.attitudes s' = F64.Vec [0.6] /\
    F64.behavioural_carbon_emissions s' = [0.4] /\
    F64.individual_carbon_emissions_flow s' = 0.4.
Proof.
  intros Hmode Hcf. unfold behavioural_independence in Hmode.
  destruct save.
  - specialize (Hcf eq_refl). apply Z.eqb_neq in Hcf.
    f64_eval. rewrite Hmode. f64_eval.
    destruct (Z.eqb (Z.modulo t' cf) 0) eqn:Hstride;
      (eexists; eexists; eexists; split; [reflexivity|]);
      f64_eval; rewrite Hmode, Hcf, Hstride; f64_eval;
      (split; [reflexivity|]); repeat split.
  - f64_eval. rewrite Hmode. f64_eval.
    eexists. eexists. eexists. split; [reflexivity|].
    f64_eval. rewrite Hmode. f64_eval.
    (split; [reflexivity|]); repeat split.
Qed.

Lemma C1_scenario_one_step_binary64_witness :
  String.eqb "default" behavioural_independence = false /\
  (true = true -> 1%Z <> 0%Z) /\
  exists s0 s' g',
    F64.scenario 0 true 1 0.0 "default" 7 = Ok s0 /\
    F64.next_step s0 F64.sample_rng 1 (F64.Vec [0.0]) F64.zero_TA_component
    = Ok (s', g') /\
    F64.values s' = F64.Vec [0.19999999999999998] /\
    F64.attitudes s' = F64.Vec [0.6] /\
    F64.behavioural_carbon_emissions s' = [0.4] /\
    F64.individual_carbon_emissions_flow s' = 0.4.
Proof.
  split; [reflexivity|]. split; [intros _; discriminate|].
  apply (C1_scenario_one_step_binary64 0 1 1 7 true "default" F64.sample_rng);
    [reflexivity | intros _; discriminate].
Defined.

(** C1 as stated fails on its own input: after the step of the scenario
    values is [0.19999999999999998], which is below 0.2 and not the
    array [0.2]. *)
Lemma C1_values_differ_from_one_fifth :
  F64.scenario 0 true 1 0.0 "default" 7 = Ok F64.default_agent /\
  F64.next_step F64.default_agent F64.sample_rng 1 (F64.Vec [0.0])
    F64.zero_TA_component
  = Ok F64.default_agent_1 /\
  F64.values (fst F64.default_agent_1) = F64.Vec [0.19999999999999998] /\
  (0.19999999999999998 <? 0.2) = true /\
  F64.values (fst F64.default_agent_1) <> F64.Vec [0.2].
Proof.
  repeat apply conj; try (vm_compute; reflexivity).
  vm_compute. discriminate.
Qed.



(** X18: an empty social_component is broadcast against a phi_array of
    length 1 without any error and empties the attitudes; the mean of
    the empty array is nan, and the step completes with av_behaviour
    and identity both nan, for every state of the generator and every
    time index. *)
Theorem empty_social_component_gives_nan (g : F64.rng_state) (t' : Z) :
  exists s' g',
    F64.next_step F64.default_agent g t' (F64.Vec []) F64.zero_TA_component
    = Ok (s', g') /\
    F64.attitudes s' = F64.Vec [] /\
    F64.av_behaviour s' = nan /\
    F64.av_behaviour_list s' = [nan] /\
    F64.identity s' = nan.
Proof.
  destruct (Z.modulo t' 1) eqn:Hstride;
    (eexists; eexists; split;
     [ cbv -[Z.modulo F64.stream F64.cursor Nat.add]; rewrite Hstride;
       reflexivity |]);
    repeat split.
Qed.

(** X19: the social-learning update does not keep a fixed point in
    binary64: an agent with phi_array = [0.1] whose attitude 0.6 meets
    the social_component [0.6] leaves the step with the attitude
    0.6000000000000001, above both, for every state of the generator and
    every time index. *)
Theorem attitude_update_can_overshoot (g : F64.rng_state) (t' : Z) :
  exists s' g',
    F64.next_step F64.slow_learner g t' (F64.Vec [0.6])
      F64.zero_TA_component
    = Ok (s', g') /\
    F64.phi_array F64.slow_learner = F64.Vec [0.1] /\
    F64.attitudes F64.slow_learner = F64.Vec [0.6] /\
    F64.attitudes s' = F64.Vec [0.6000000000000001] /\
    (0.6 <? 0.6000000000000001) = true.
Proof.
  eexists; eexists; split;
    [ cbv -[F64.stream F64.cursor Nat.add]; reflexivity |];
    repeat split.
Qed.
